(** * Provisioning code of ManagedAD_AWS: model and properties

    A shallow embedding of the code of the repository that runs at
    deployment time:

    - the QuickSight subscription handler ([withRetry], [createSubscription],
      [handler]; module [QuickSight]);
    - the AD automation handler ([handler], [getOrCreateKeyPair],
      [launchEC2Instance], [waitForInstance], [joinDomain], [waitForCommand];
      module [AdAutomation]);
    - the configuration loader and the entry point of the CDK application
      ([loadConfig] and the stacks the entry point creates; module [Config]);
    - the names of the SSM parameters the stacks write and look up (module
      [SsmPaths]);
    - the health check of the monitoring stack (module [HealthCheck]).

    The handlers are [async] functions whose only effects are requests sent
    through an AWS SDK client, [setTimeout] sleeps and console output.  An
    [async] function is modelled as a function from a state to an outcome and
    a new state (module [Async]).  The state holds the remote side, an
    arbitrary deterministic transition system that every definition takes as
    a parameter, and the chronological trace of the requests sent and of the
    sleeps taken.  A rejected promise is the outcome [Throw].  Console
    output is not part of the model.

    JavaScript numbers are modelled by [Z] (milliseconds) and [nat] (loop
    counters): every number the handlers compute is an integer far below
    2^53.

    The definitions come first: the code, then the vocabulary of the
    statements ([RetrySpec], [Effort], [SubscriptionSpec],
    [SubscriptionEffort], [ProvisionSpec]), the custom resource properties of
    the stack ([SubscriptionStack]) and concrete remote sides and contexts
    ([Scenario], [Cases]).  The properties follow, each group of general
    facts being followed by worked runs on concrete inputs. *)

From Stdlib Require Import ZArith List String Ascii Bool Lia Sorted Permutation.
From Stdlib Require Import DecimalString OrdersEx RelationClasses.
Import ListNotations.
Local Open Scope string_scope.
Local Open Scope Z_scope.

(** ** JavaScript values the handlers inspect *)

Module Js.

(** The [$retryable] trait the SDK attaches to some service errors. *)
Record RetryableTrait : Type := { throttling : option bool }.

(** An error object: the handlers read [name] and [$retryable] only. *)
Record Error : Type := {
  name : option string;
  retryable : option RetryableTrait;
  message : string
}.

(** What a [throw] carries: an error object, or [undefined] (the initial
    value of [lastError] in [withRetry]). *)
Inductive Thrown : Type :=
| Undefined
| Err (e : Error).

(** [new Error(msg)] *)
Definition newError (msg : string) : Error :=
  {| name := Some "Error"; retryable := None; message := msg |}.

(** The [TypeError] raised by reading a property of [undefined]. *)
Definition typeError : Error :=
  {| name := Some "TypeError"; retryable := None;
     message := "Cannot read properties of undefined" |}.

(** [x ?? d] *)
Definition nullish {A : Type} (x : option A) (d : A) : A :=
  match x with Some v => v | None => d end.

(** Truthiness of a [string | undefined]. *)
Definition truthy (x : option string) : bool :=
  match x with
  | Some s => negb (String.eqb s EmptyString)
  | None => false
  end.

(** [x === lit] for [x : string | undefined] and a string literal. *)
Definition strict_eq (x : option string) (lit : string) : bool :=
  match x with Some s => String.eqb s lit | None => false end.

(** [a !== b] on [string | undefined]. *)
Definition strict_neq (a b : option string) : bool :=
  match a, b with
  | Some x, Some y => negb (String.eqb x y)
  | None, None => false
  | _, _ => true
  end.

(** A template-literal hole [${x}] for [x : string | undefined]. *)
Definition interp (x : option string) : string := nullish x "undefined".

(** [String(n)] for an integer [n]. *)
Definition of_Z (n : Z) : string := NilZero.string_of_int (Z.to_int n).

End Js.

(** ** Asynchronous computations over a remote service *)

Module Async.

Section Monad.
Context {Cmd Out World : Type}.

Inductive Event : Type :=
| Sent (c : Cmd)
| Slept (ms : Z).

Record St : Type := { world : World; trace : list Event }.

Inductive Outcome (A : Type) : Type :=
| Ret (a : A)
| Throw (e : Js.Thrown).

Definition M (A : Type) : Type := St -> Outcome A * St.

Definition ret {A} (a : A) : M A := fun s => (Ret A a, s).

Definition throw {A} (e : Js.Thrown) : M A := fun s => (Throw A e, s).

Definition bind {A B} (m : M A) (k : A -> M B) : M B :=
  fun s => match m s with
           | (Ret _ a, s') => k a s'
           | (Throw _ e, s') => (Throw B e, s')
           end.

(** [try { m } catch (err) { h err }] *)
Definition try_catch {A} (m : M A) (h : Js.Thrown -> M A) : M A :=
  fun s => match m s with
           | (Ret _ a, s') => (Ret A a, s')
           | (Throw _ e, s') => h e s'
           end.

(** [await new Promise((r) => setTimeout(r, ms))] *)
Definition sleep (ms : Z) : M unit :=
  fun s => (Ret unit tt, {| world := world s; trace := trace s ++ [Slept ms] |}).

(** The remote side: how it answers a request and what it becomes. *)
Variable remote : Cmd -> World -> Outcome Out * World.

(** [client.send(new XCommand(...))] *)
Definition send (c : Cmd) : M Out :=
  fun s => let (o, w') := remote c (world s) in
           (o, {| world := w'; trace := trace s ++ [Sent c] |}).

(** The requests of a trace, in order. *)
Fixpoint calls (t : list Event) : list Cmd :=
  match t with
  | [] => []
  | Sent c :: t' => c :: calls t'
  | Slept _ :: t' => calls t'
  end.

(** The sleeps of a trace, in order. *)
Fixpoint sleeps (t : list Event) : list Z :=
  match t with
  | [] => []
  | Sent _ :: t' => sleeps t'
  | Slept d :: t' => d :: sleeps t'
  end.

End Monad.

Arguments Event : clear implicits.
Arguments St : clear implicits.
Arguments M : clear implicits.
Arguments Ret {A} a.
Arguments Throw {A} e.

End Async.

Import Async.

Declare Scope async_scope.
Delimit Scope async_scope with async.
Notation "x <- m ;; k" := (bind m (fun x => k))
  (at level 61, m at next level, right associativity) : async_scope.
Notation "m ;;; k" := (bind m (fun _ => k))
  (at level 61, right associativity) : async_scope.

(** ** The QuickSight subscription handler (lambda/quicksight-handler) *)

Module QuickSight.

Local Open Scope async_scope.

(** [interface ResourceProperties] *)
Record ResourceProperties : Type := {
  DirectoryId : string;
  AwsAccountId : string;
  AccountName : string;
  Edition : string;
  AuthenticationMethod : string;
  ActiveDirectoryName : string;
  Realm : option string;
  AdminGroup : string;
  AuthorGroup : option string;
  ReaderGroup : option string;
  NotificationEmail : string
}.

Inductive RequestType : Type := Create | Update | Delete.

(** [interface Event] *)
Module Event.
Record t : Type := {
  RequestType : RequestType;
  ResourceProperties : ResourceProperties;
  OldResourceProperties : option QuickSight.ResourceProperties;
  PhysicalResourceId : option string
}.
End Event.

(** [interface Response] *)
Module Response.
Record DataT : Type := { Status : string }.
Record t : Type := {
  PhysicalResourceId : string;
  Data : option DataT
}.
End Response.

(** The input of [CreateAccountSubscriptionCommand]. *)
Module CreateAccountSubscription.
Record Input : Type := {
  AwsAccountId : string;
  AccountName : string;
  Edition : string;
  AuthenticationMethod : string;
  ActiveDirectoryName : string;
  AdminGroup : list string;
  AuthorGroup : list string;
  ReaderGroup : list string;
  NotificationEmail : string
}.
End CreateAccountSubscription.

(** The requests the handler sends through the QuickSight client. *)
Inductive Command : Type :=
| DescribeAccountSubscriptionCommand (AwsAccountId : string)
| CreateAccountSubscriptionCommand (input : CreateAccountSubscription.Input)
| DeleteAccountSubscriptionCommand (AwsAccountId : string)
| UpdateAccountSettingsCommand (AwsAccountId DefaultNamespace NotificationEmail : string)
| ListNamespacesCommand (AwsAccountId : string).

(** The requests that change the remote account. *)
Definition mutating (c : Command) : bool :=
  match c with
  | DescribeAccountSubscriptionCommand _ | ListNamespacesCommand _ => false
  | _ => true
  end.

Definition isCreate (c : Command) : bool :=
  match c with CreateAccountSubscriptionCommand _ => true | _ => false end.

Definition isDelete (c : Command) : bool :=
  match c with DeleteAccountSubscriptionCommand _ => true | _ => false end.

(** The parts of a response object the handler reads; a field a response
    does not carry is [undefined]. *)
Record AccountInfo : Type := { AccountSubscriptionStatus : option string }.
Record NamespaceInfoV2 : Type := { CapacityRegion : option string }.
Module Output.
Record t : Type := {
  AccountInfo : option AccountInfo;
  Namespaces : option (list NamespaceInfoV2)
}.
Definition empty : t := {| AccountInfo := None; Namespaces := None |}.
End Output.

Definition St (World : Type) : Type := Async.St Command World.
Definition M (World : Type) (A : Type) : Type := Async.M Command World A.

Section Handler.
Context {World : Type}.

(** The QuickSight service behind [client]. *)
Variable remote : Command -> World -> Outcome Output.t * World.

(** [process.env.AWS_REGION] *)
Variable AWS_REGION : option string.

Local Abbreviation send := (Async.send remote).

(** [err.name ?? ''] *)
Definition codeOf (e : Js.Error) : string := Js.nullish (Js.name e) EmptyString.

(** The test of [withRetry] under which the error is rethrown at once:
    [!retryable && code !== 'ThrottlingException' && code !== 'InternalFailure'] *)
Definition fatal (e : Js.Error) : bool :=
  let code := codeOf e in
  let retryable := Js.retryable e in
  (match retryable with Some _ => false | None => true end)
  && negb (String.eqb code "ThrottlingException")
  && negb (String.eqb code "InternalFailure").

(** [Math.min(baseDelay * 2 ** attempt, 30000)
      + (code === 'ThrottlingException' ? 5000 : 0)] *)
Definition retryDelay (baseDelay : Z) (attempt : nat) (code : string) : Z :=
  Z.min (baseDelay * 2 ^ Z.of_nat attempt) 30000
  + (if String.eqb code "ThrottlingException" then 5000 else 0).

(** The [for] loop of [withRetry], from iteration [attempt] with
    [remaining = maxRetries - attempt] iterations to go, followed by the
    final [throw lastError]. *)
Fixpoint retryLoop {T : Type} (fn : M World T) (name : string) (baseDelay : Z)
         (remaining attempt : nat) (lastError : Js.Thrown) : M World T :=
  match remaining with
  | O => throw lastError
  | S remaining' =>
      try_catch fn (fun err =>
        match err with
        | Js.Undefined => throw (Js.Err Js.typeError)
        | Js.Err e =>
            if fatal e then throw err
            else
              let delay := retryDelay baseDelay attempt (codeOf e) in
              sleep delay ;;;
              retryLoop fn name baseDelay remaining' (S attempt) err
        end)
  end.

(** [async function withRetry<T>(fn, name, maxRetries = 10, baseDelay = 2000)] *)
Definition withRetry {T : Type} (fn : M World T) (name : string)
           (maxRetries : nat) (baseDelay : Z) : M World T :=
  retryLoop fn name baseDelay maxRetries 0 Js.Undefined.

Definition createInput (props : ResourceProperties) : CreateAccountSubscription.Input :=
  let group := AdminGroup props in
  {| CreateAccountSubscription.AwsAccountId := AwsAccountId props;
     CreateAccountSubscription.AccountName := AccountName props;
     CreateAccountSubscription.Edition := Edition props;
     CreateAccountSubscription.AuthenticationMethod := AuthenticationMethod props;
     CreateAccountSubscription.ActiveDirectoryName := ActiveDirectoryName props;
     CreateAccountSubscription.AdminGroup := [group];
     CreateAccountSubscription.AuthorGroup := [group];
     CreateAccountSubscription.ReaderGroup := [group];
     CreateAccountSubscription.NotificationEmail := NotificationEmail props |}.

(** [async function createSubscription(props)] *)
Definition createSubscription (props : ResourceProperties) : M World unit :=
  withRetry (send (CreateAccountSubscriptionCommand (createInput props)))
            "createAccountSubscription" 10 2000 ;;;
  ret tt.

Definition physicalId (awsAccountId : string) : string :=
  "quicksight-subscription-" ++ awsAccountId.

Definition result (awsAccountId status : string) : Response.t :=
  {| Response.PhysicalResourceId := physicalId awsAccountId;
     Response.Data := Some {| Response.Status := status |} |}.

(** [response.AccountInfo?.AccountSubscriptionStatus] *)
Definition statusOf (response : Output.t) : option string :=
  match Output.AccountInfo response with
  | Some info => AccountSubscriptionStatus info
  | None => None
  end.

(** [nsResponse.Namespaces?.[0]?.CapacityRegion] *)
Definition capacityRegionOf (nsResponse : Output.t) : option string :=
  match Output.Namespaces nsResponse with
  | Some (ns :: _) => CapacityRegion ns
  | _ => None
  end.

(** The body of the [try] block of [handler]. *)
Definition tryBody (props : ResourceProperties) : M World Response.t :=
  let awsAccountId := AwsAccountId props in
  response <- withRetry (send (DescribeAccountSubscriptionCommand awsAccountId))
                        "describeAccountSubscription" 5 2000 ;;
  let status := statusOf response in
  if Js.strict_eq status "ACCOUNT_CREATED" then
    nsResponse <- withRetry (send (ListNamespacesCommand awsAccountId))
                            "listNamespaces" 3 2000 ;;
    let capacityRegion := capacityRegionOf nsResponse in
    if Js.truthy capacityRegion && Js.strict_neq capacityRegion AWS_REGION then
      throw (Js.Err (Js.newError
        ("QuickSight identity region " ++ Js.interp capacityRegion
         ++ " doesn't match " ++ Js.interp AWS_REGION)))
    else ret (result awsAccountId "Existing")
  else
    (if Js.strict_eq status "UNSUBSCRIBE_FAILED" then
       withRetry (send (UpdateAccountSettingsCommand awsAccountId "default"
                                                     (NotificationEmail props)))
                 "updateAccountSettings" 10 2000 ;;;
       withRetry (send (DeleteAccountSubscriptionCommand awsAccountId))
                 "deleteAccountSubscription" 10 2000 ;;;
       ret tt
     else ret tt) ;;;
    createSubscription props ;;;
    ret (result awsAccountId "Created").

(** The [catch (err)] block of [handler]. *)
Definition catchBody (props : ResourceProperties) (err : Js.Thrown) : M World Response.t :=
  let awsAccountId := AwsAccountId props in
  match err with
  | Js.Undefined => throw (Js.Err Js.typeError)
  | Js.Err e =>
      let code := codeOf e in
      if String.eqb code "ResourceNotFoundException" then
        createSubscription props ;;;
        ret (result awsAccountId "Created")
      else if String.eqb code "InternalFailure" || String.eqb code "ThrottlingException" then
        ret (result awsAccountId ("PartialFailure-" ++ code))
      else throw err
  end.

(** [export const handler = async (event: Event): Promise<Response>] *)
Definition handler (event : Event.t) : M World Response.t :=
  let props := Event.ResourceProperties event in
  match Event.RequestType event with
  | Delete =>
      ret {| Response.PhysicalResourceId :=
               Js.nullish (Event.PhysicalResourceId event) "quicksight-subscription";
             Response.Data := None |}
  | _ => try_catch (tryBody props) (catchBody props)
  end.

End Handler.

End QuickSight.

(** ** The AD automation handler (lambda/ad-automation/index.ts) *)

Module AdAutomation.

Local Open Scope async_scope.

(** [EventProps.ResourceProperties] *)
Record ResourceProperties : Type := {
  DirectoryId : string;
  SecurityGroupId : string;
  SubnetId : string;
  InstanceType : string;
  KeyPairSecretArn : string;
  AdminSecretArn : string
}.

Inductive RequestType : Type := Create | Update | Delete.

(** [interface EventProps] *)
Module EventProps.
Record t : Type := {
  RequestType : RequestType;
  ResourceProperties : ResourceProperties;
  PhysicalResourceId : option string
}.
End EventProps.

(** [interface Response] *)
Module Response.
Record DataT : Type := { InstanceId : string }.
Record t : Type := {
  PhysicalResourceId : string;
  Data : option DataT
}.
End Response.

(** The variables of [process.env] the handler reads. *)
Record Env : Type := {
  DOMAIN_NAME : option string;
  DNS_IPS : option string;
  INSTANCE_PROFILE_NAME : option string;
  SCRIPTS_BUCKET : option string;
  SETUP_SCRIPT_KEY : option string;
  AWS_REGION : option string;
  ADMIN_SECRET_ARN : option string
}.

(** The input of [RunInstancesCommand]; the tag specification and the block
    device mapping are the constants of the source. *)
Module RunInstances.
Record Input : Type := {
  ImageId : string;
  InstanceType : string;
  MinCount : Z;
  MaxCount : Z;
  KeyName : option string;
  SubnetId : string;
  SecurityGroupIds : list string;
  IamInstanceProfileName : string;
  NameTag : string;
  DeviceName : string;
  VolumeSize : Z;
  VolumeType : string
}.
End RunInstances.

(** The input of [SendCommandCommand]. *)
Module SendCommand.
Record Input : Type := {
  InstanceIds : list string;
  DocumentName : string;
  Parameters : list (string * list string);
  TimeoutSeconds : Z
}.
End SendCommand.

(** The requests sent through the EC2, SSM and Secrets Manager clients, and
    the call of the SDK waiter [waitUntilInstanceRunning].  A call of the
    waiter is one event of the trace: the requests the waiter sends and the
    pauses it takes inside the SDK, for up to [maxWaitTime] seconds, are
    not part of the trace, and the remote side answers the call with the
    outcome of the whole wait. *)
Inductive Command : Type :=
| TerminateInstancesCommand (InstanceIds : list string)
| GetSecretValueCommand (SecretId : string)
| PutSecretValueCommand (SecretId SecretString : string)
| DescribeKeyPairsCommand (KeyNames : list (option string))
| CreateKeyPairCommand (KeyName : string)
| DescribeImagesCommand (nameFilter stateFilter owner : string)
| RunInstancesCommand (input : RunInstances.Input)
| WaitUntilInstanceRunning (maxWaitTime : Z) (InstanceIds : list string)
| DescribeInstanceInformationCommand (InstanceIds : list string)
| GetDocumentCommand (Name : string)
| CreateDocumentCommand (Name DocumentType DocumentFormat Content : string)
| SendCommandCommand (input : SendCommand.Input)
| GetCommandInvocationCommand (CommandId InstanceId : string).

(** The parts of a response object the handler reads. *)
Record Image : Type := { ImageId : option string; CreationDate : option string }.
Record Instance : Type := { InstanceId : option string }.
Record InstanceInformation : Type := { InfoInstanceId : option string }.
Record CommandInfo : Type := { CommandId : option string }.
Module Output.
Record t : Type := {
  SecretString : option string;
  KeyMaterial : option string;
  Images : option (list Image);
  Instances : option (list Instance);
  InstanceInformationList : option (list InstanceInformation);
  Command : option CommandInfo;
  Status : option string
}.
Definition empty : t :=
  {| SecretString := None; KeyMaterial := None; Images := None; Instances := None;
     InstanceInformationList := None; Command := None; Status := None |}.
End Output.

(** The object [JSON.parse] yields for the key pair secret. *)
Record KeyPairSecret : Type := {
  KeyPairName : option string;
  PrivateKey : option string
}.

(** The return type of [getOrCreateKeyPair]. *)
Record KeyPairInfo : Type := { keyName : option string; privateKey : option string }.

(** The functions of the JavaScript runtime the handler calls: [JSON.parse]
    (where [None] stands for a thrown exception), [JSON.stringify],
    [String.prototype.localeCompare], [Date.now], and the JSON text of the
    custom domain-join document. *)
Record Runtime (World : Type) : Type := {
  JSON_parse_secret : string -> option KeyPairSecret;
  JSON_stringify_secret : string -> option string -> string;
  JSON_parse_dnsIps : string -> option (list string);
  localeCompare : string -> string -> comparison;
  Date_now : World -> Z;
  joinDocumentContent : string
}.
Arguments JSON_parse_secret {World} _ _.
Arguments JSON_stringify_secret {World} _ _ _.
Arguments JSON_parse_dnsIps {World} _ _.
Arguments localeCompare {World} _ _ _.
Arguments Date_now {World} _ _.
Arguments joinDocumentContent {World} _.

Definition St (World : Type) : Type := Async.St Command World.
Definition M (World : Type) (A : Type) : Type := Async.M Command World A.

(** The double quote character, as a string. *)
Definition dq : string := String (ascii_of_nat 34) EmptyString.

(** [s.includes(',')] *)
Fixpoint includesComma (s : string) : bool :=
  match s with
  | EmptyString => false
  | String c s' => Ascii.eqb c ","%char || includesComma s'
  end.

(** [s.split(',')] *)
Fixpoint splitComma (s : string) : list string :=
  match s with
  | EmptyString => [EmptyString]
  | String c s' =>
      if Ascii.eqb c ","%char then EmptyString :: splitComma s'
      else match splitComma s' with
           | h :: t => String c h :: t
           | [] => [String c EmptyString]
           end
  end.

(** Stable insertion of [x] into a list sorted by [cmp]. *)
Fixpoint insertBy {A : Type} (cmp : A -> A -> comparison) (x : A) (l : list A) : list A :=
  match l with
  | [] => [x]
  | y :: l' => match cmp x y with
               | Lt => x :: l
               | _ => y :: insertBy cmp x l'
               end
  end.

(** [Array.prototype.sort(cmp)], a stable sort. *)
Definition sortBy {A : Type} (cmp : A -> A -> comparison) (l : list A) : list A :=
  fold_left (fun acc x => insertBy cmp x acc) l [].

(** [['Success', 'Failed', 'Cancelled'].includes(status)] *)
Definition isTerminal (status : string) : bool :=
  String.eqb status "Success" || String.eqb status "Failed" || String.eqb status "Cancelled".

Section Handler.
Context {World : Type}.

(** The AWS services behind [ec2], [ssm] and [secretsManager]. *)
Variable remote : Command -> World -> Outcome Output.t * World.
Variable rt : Runtime World.
Variable env : Env.

Local Abbreviation send := (Async.send remote).

(** A synchronous exception, as [JSON.parse] raises. *)
Definition syntaxError : Js.Error :=
  {| Js.name := Some "SyntaxError"; Js.retryable := None; Js.message := "Unexpected token" |}.

(** [Date.now()] *)
Definition dateNow : M World Z := fun s => (Ret (Date_now rt (world s)), s).

(** The body of the loop of [waitForCommand], [remaining] iterations from
    the end. *)
Fixpoint pollLoop (instanceId commandId : string) (remaining : nat) : M World unit :=
  match remaining with
  | O => ret tt
  | S remaining' =>
      finished <- try_catch
        (result <- send (GetCommandInvocationCommand commandId instanceId) ;;
         let status := Js.nullish (Output.Status result) EmptyString in
         ret (isTerminal status))
        (fun e => ret false) ;;
      if finished then ret tt
      else sleep 10000 ;;; pollLoop instanceId commandId remaining'
  end.

(** [async function waitForCommand(instanceId, commandId)] *)
Definition waitForCommand (instanceId commandId : string) : M World unit :=
  if String.eqb commandId EmptyString then ret tt
  else sleep 30000 ;;; pollLoop instanceId commandId 90.

(** [async function getAdminPassword()] *)
Definition getAdminPassword : M World string :=
  secret <- send (GetSecretValueCommand (Js.nullish (ADMIN_SECRET_ARN env) EmptyString)) ;;
  ret (Js.nullish (Output.SecretString secret) EmptyString).

(** [async function getOrCreateKeyPair(secretArn)] *)
Definition getOrCreateKeyPair (secretArn : string) : M World KeyPairInfo :=
  try_catch
    (secret <- send (GetSecretValueCommand secretArn) ;;
     match JSON_parse_secret rt (Js.nullish (Output.SecretString secret) "{}") with
     | None => throw (Js.Err syntaxError)
     | Some data =>
         send (DescribeKeyPairsCommand [KeyPairName data]) ;;;
         ret {| keyName := KeyPairName data; privateKey := PrivateKey data |}
     end)
    (fun _ =>
       now <- dateNow ;;
       let keyName := ("ad-automation-key-" ++ Js.of_Z now)%string in
       kp <- send (CreateKeyPairCommand keyName) ;;
       send (PutSecretValueCommand secretArn
               (JSON_stringify_secret rt keyName (Output.KeyMaterial kp))) ;;;
       ret {| keyName := Some keyName;
              privateKey := Some (Js.nullish (Output.KeyMaterial kp) EmptyString) |}).

(** The comparison passed to [sort] in [launchEC2Instance]. *)
Definition newestFirst (a b : Image) : comparison :=
  localeCompare rt (Js.nullish (CreationDate b) EmptyString)
                   (Js.nullish (CreationDate a) EmptyString).

(** [images.Images?.sort(...)[0]?.ImageId] *)
Definition newestImageId (images : Output.t) : option string :=
  match Output.Images images with
  | None => None
  | Some l => match sortBy newestFirst l with
              | [] => None
              | img :: _ => ImageId img
              end
  end.

(** [async function launchEC2Instance(params)] *)
Definition launchEC2Instance (subnetId securityGroupId instanceType : string)
           (keyName : option string) : M World string :=
  images <- send (DescribeImagesCommand "Windows_Server-2022-English-Full-Base-*"
                                        "available" "amazon") ;;
  let amiId := newestImageId images in
  if negb (Js.truthy amiId) then throw (Js.Err (Js.newError "No Windows AMI found"))
  else
    result <- send (RunInstancesCommand
      {| RunInstances.ImageId := Js.nullish amiId EmptyString;
         RunInstances.InstanceType := instanceType;
         RunInstances.MinCount := 1;
         RunInstances.MaxCount := 1;
         RunInstances.KeyName := keyName;
         RunInstances.SubnetId := subnetId;
         RunInstances.SecurityGroupIds := [securityGroupId];
         RunInstances.IamInstanceProfileName :=
           Js.nullish (INSTANCE_PROFILE_NAME env) EmptyString;
         RunInstances.NameTag := "AD-Automation-Instance";
         RunInstances.DeviceName := "/dev/sda1";
         RunInstances.VolumeSize := 80;
         RunInstances.VolumeType := "gp3" |}) ;;
    ret (Js.nullish
           (match Output.Instances result with
            | Some (i :: _) => InstanceId i
            | _ => None
            end) EmptyString).

(** [async function waitForInstance(instanceId)]: one call of the SDK
    waiter, recorded as a single event, and a sleep of two minutes. *)
Definition waitForInstance (instanceId : string) : M World unit :=
  send (WaitUntilInstanceRunning 600 [instanceId]) ;;;
  sleep 120000.

(** The document lookup of [joinDomain]: the name of the document to use. *)
Definition ensureJoinDocument : M World string :=
  let docName := "AWS-JoinDirectoryServiceDomain" in
  try_catch
    (send (GetDocumentCommand docName) ;;; ret docName)
    (fun _ =>
       let customDoc := "DraupnirMAD-JoinDirectoryServiceDomain" in
       try_catch
         (send (GetDocumentCommand customDoc) ;;; ret tt)
         (fun _ =>
            send (CreateDocumentCommand customDoc "Command" "JSON"
                                        (joinDocumentContent rt)) ;;;
            ret tt) ;;;
       ret customDoc).

(** [joinCmd.Command?.CommandId ?? ''] *)
Definition commandIdOf (out : Output.t) : string :=
  Js.nullish (match Output.Command out with
              | Some c => CommandId c
              | None => None
              end) EmptyString.

(** The two PowerShell lines of the setup command. *)
Definition setupCommands (domainName adminPassword : string) : list string :=
  [ ("Read-S3Object -BucketName " ++ dq ++ Js.interp (SCRIPTS_BUCKET env) ++ dq
     ++ " -Key " ++ dq ++ Js.interp (SETUP_SCRIPT_KEY env) ++ dq
     ++ " -File " ++ dq ++ "C:\setup-ad-v9.ps1" ++ dq)%string;
    ("powershell.exe -ExecutionPolicy Bypass -File " ++ dq ++ "C:\setup-ad-v9.ps1" ++ dq
     ++ " -DomainName " ++ dq ++ domainName ++ dq
     ++ " -AdminPassword " ++ dq ++ adminPassword ++ dq
     ++ " -Region " ++ dq ++ Js.nullish (AWS_REGION env) "us-east-1" ++ dq)%string ].

(** [async function joinDomain(instanceId, directoryId, domainName, dnsIps)] *)
Definition joinDomain (instanceId directoryId domainName : string)
           (dnsIps : list string) : M World unit :=
  info <- send (DescribeInstanceInformationCommand [instanceId]) ;;
  (match Output.InstanceInformationList info with
   | Some (_ :: _) => ret tt
   | _ => sleep 120000
   end) ;;;
  let dnsIpAddresses :=
    match dnsIps with
    | [ip] => if includesComma ip then splitComma ip else dnsIps
    | _ => dnsIps
    end in
  useDoc <- ensureJoinDocument ;;
  joinCmd <- send (SendCommandCommand
    {| SendCommand.InstanceIds := [instanceId];
       SendCommand.DocumentName := useDoc;
       SendCommand.Parameters :=
         [("directoryId", [directoryId]); ("directoryName", [domainName]);
          ("dnsIpAddresses", dnsIpAddresses)];
       SendCommand.TimeoutSeconds := 900 |}) ;;
  waitForCommand instanceId (commandIdOf joinCmd) ;;;
  adminPassword <- getAdminPassword ;;
  runCmd <- send (SendCommandCommand
    {| SendCommand.InstanceIds := [instanceId];
       SendCommand.DocumentName := "AWS-RunPowerShellScript";
       SendCommand.Parameters :=
         [("commands", setupCommands domainName adminPassword);
          ("executionTimeout", ["3600"])];
       SendCommand.TimeoutSeconds := 3600 |}) ;;
  waitForCommand instanceId (commandIdOf runCmd).

(** [instanceId?.startsWith('i-')] *)
Definition looksLikeInstance (instanceId : option string) : bool :=
  match instanceId with
  | Some id => String.prefix "i-" id
  | None => false
  end.

(** The Create and Update path of [handler]. *)
Definition provision (props : ResourceProperties) : M World Response.t :=
  let domainName := Js.nullish (DOMAIN_NAME env) EmptyString in
  match JSON_parse_dnsIps rt (Js.nullish (DNS_IPS env) "[]") with
  | None => throw (Js.Err syntaxError)
  | Some dnsIps =>
      keyPairInfo <- getOrCreateKeyPair (KeyPairSecretArn props) ;;
      instanceId <- launchEC2Instance (SubnetId props) (SecurityGroupId props)
                                      (InstanceType props) (keyName keyPairInfo) ;;
      waitForInstance instanceId ;;;
      joinDomain instanceId (DirectoryId props) domainName dnsIps ;;;
      ret {| Response.PhysicalResourceId := instanceId;
             Response.Data := Some {| Response.InstanceId := instanceId |} |}
  end.

(** [export const handler = async (event: EventProps): Promise<Response>] *)
Definition handler (event : EventProps.t) : M World Response.t :=
  match EventProps.RequestType event with
  | Delete =>
      let instanceId := EventProps.PhysicalResourceId event in
      (if looksLikeInstance instanceId then
         send (TerminateInstancesCommand [Js.nullish instanceId EmptyString]) ;;; ret tt
       else ret tt) ;;;
      ret {| Response.PhysicalResourceId :=
               Js.nullish (EventProps.PhysicalResourceId event) "deleted";
             Response.Data := None |}
  | _ => provision (EventProps.ResourceProperties event)
  end.

End Handler.

End AdAutomation.

(** ** Vocabulary of the statements about [withRetry] *)

Module RetrySpec.

Import QuickSight.
Local Open Scope list_scope.

(** The classification of errors: an error is retried when it carries the
    [$retryable] trait or is named [ThrottlingException] or
    [InternalFailure]; every other error is fatal. *)
Definition retryableError (e : Js.Error) : bool :=
  match Js.retryable e with Some _ => true | None => false end
  || match Js.name e with
     | Some n => String.eqb n "ThrottlingException" || String.eqb n "InternalFailure"
     | None => false
     end.

(** The error kind that earns the penalty. *)
Definition throttlingError (e : Js.Error) : bool :=
  match Js.name e with
  | Some n => String.eqb n "ThrottlingException"
  | None => false
  end.

(** The capped exponential part of the delay of attempt [n]. *)
Definition cappedBackoff (baseDelay : Z) (n : nat) : Z :=
  Z.min (baseDelay * 2 ^ Z.of_nat n) 30000.

(** The delay expected after attempt [n] has failed with [e]. *)
Definition expectedDelay (baseDelay : Z) (n : nat) (e : Js.Error) : Z :=
  Z.min (baseDelay * 2 ^ Z.of_nat n) 30000 + (if throttlingError e then 5000 else 0).

(** The delays expected after consecutive failed attempts, the first of
    them being attempt number [n], that failed with [errs]. *)
Fixpoint expectedDelays (baseDelay : Z) (n : nat) (errs : list Js.Error) : list Z :=
  match errs with
  | [] => []
  | e :: errs' => expectedDelay baseDelay n e :: expectedDelays baseDelay (S n) errs'
  end.

(** No throttling failure is directly followed by a failure of another kind. *)
Fixpoint penaltyKept (errs : list Js.Error) : bool :=
  match errs with
  | e1 :: (e2 :: _) as rest =>
      implb (throttlingError e1) (throttlingError e2) && penaltyKept rest
  | _ => true
  end.

Section Spec.
Context {World T : Type}.

(** An operation that sends exactly one request each time it is invoked, as
    every [() => client.send(...)] passed to [withRetry] does. *)
Definition single_request (fn : M World T) : Prop :=
  forall s, exists c, trace (snd (fn s)) = trace s ++ [Sent c].

(** The number of requests sent between two states. *)
Definition requests_between (s s' : St World) : nat :=
  (List.length (calls (trace s')) - List.length (calls (trace s)))%nat.

(** The failed attempts of a run, in order.  Invoked in [s], attempt number
    [n], the operation raises the first error of [errs], a retryable one;
    the run then sleeps the expected delay of that attempt and that error,
    and the next attempt, invoked in the state so reached, raises the next
    error, and so on.  [s'] is the state reached after the sleep that
    follows the last of these failures, the state in which a further
    attempt would be invoked. *)
Fixpoint failedAttempts (fn : M World T) (baseDelay : Z) (n : nat)
         (s : St World) (errs : list Js.Error) (s' : St World) : Prop :=
  match errs with
  | [] => s' = s
  | e :: errs' =>
      retryableError e = true /\
      exists s1,
        fn s = (Throw (Js.Err e), s1) /\
        failedAttempts fn baseDelay (S n)
          {| world := world s1; trace := trace s1 ++ [Slept (expectedDelay baseDelay n e)] |}
          errs' s'
  end.

(** How a run ends after the failed attempts [errs] have led to [s'], when
    [maxRetries] attempts are allowed.  When all of them are used up, the
    error of the last one is thrown as it is ([undefined] when none was
    allowed), in [s'].  Otherwise the operation is invoked once more in
    [s'], it does not raise a retryable error, and its outcome is the
    outcome of the run: the value it returns, or the fatal error it
    raises, at once. *)
Definition endsAfter (fn : M World T) (maxRetries : nat) (errs : list Js.Error)
           (s' : St World) (r : Outcome T * St World) : Prop :=
  (List.length errs = maxRetries /\
   r = (Throw (last (map Js.Err errs) Js.Undefined), s')) \/
  ((List.length errs < maxRetries)%nat /\
   match fn s' with
   | (Ret v, s2) => r = (Ret v, s2)
   | (Throw Js.Undefined, s2) => r = (Throw (Js.Err Js.typeError), s2)
   | (Throw (Js.Err e), s2) => retryableError e = false /\ r = (Throw (Js.Err e), s2)
   end).

End Spec.

(** A propagated value carries an exhausted-retries tag only if it is not
    the very error object the operation raised. *)
Definition exhausted_tagged (raised : Js.Error) (propagated : Js.Thrown) : Prop :=
  propagated <> Js.Err raised.

End RetrySpec.

(** ** Vocabulary of the statements about effort: requests and waiting *)

Module Effort.

Local Open Scope list_scope.

(** The sum of a list of delays. *)
Definition total (ds : list Z) : Z := fold_right Z.add 0 ds.

Section Within.
Context {Cmd World A : Type}.

(** Whatever the state, [m] adds to the trace only events that satisfy
    [P], at most [n] requests among them, and sleeps that sum up to at most
    [d] milliseconds. *)
Definition within (P : Event Cmd -> Prop) (n : nat) (d : Z) (m : Async.M Cmd World A) : Prop :=
  forall s, exists t,
    trace (snd (m s)) = trace s ++ t /\
    Forall P t /\
    (List.length (calls t) <= n)%nat /\
    total (sleeps t) <= d.

End Within.

(** The events [withRetry] may add when it retries the request [c]: the
    request itself, and sleeps of at most 35 seconds. *)
Definition retryEvent {Cmd : Type} (c : Cmd) (e : Event Cmd) : Prop :=
  match e with
  | Sent c' => c' = c
  | Slept ms => ms <= 35000
  end.

End Effort.

(** ** Vocabulary of the statements about the subscription handler *)

Module SubscriptionSpec.

Import QuickSight.

Section Steps.
Context {World : Type}.
Variable remote : Command -> World -> Outcome Output.t * World.
Variable props : ResourceProperties.

(** The five requests of [handler] for the properties [props]. *)
Definition describeCmd : Command := DescribeAccountSubscriptionCommand (AwsAccountId props).
Definition listCmd : Command := ListNamespacesCommand (AwsAccountId props).
Definition updateCmd : Command :=
  UpdateAccountSettingsCommand (AwsAccountId props) "default" (NotificationEmail props).
Definition deleteCmd : Command := DeleteAccountSubscriptionCommand (AwsAccountId props).
Definition createCmd : Command := CreateAccountSubscriptionCommand (createInput props).

(** The retried requests, as [tryBody] and [createSubscription] issue them. *)
Definition describeStep : M World Output.t :=
  withRetry (send remote describeCmd) "describeAccountSubscription" 5 2000.
Definition listStep : M World Output.t :=
  withRetry (send remote listCmd) "listNamespaces" 3 2000.
Definition updateStep : M World Output.t :=
  withRetry (send remote updateCmd) "updateAccountSettings" 10 2000.
Definition deleteStep : M World Output.t :=
  withRetry (send remote deleteCmd) "deleteAccountSubscription" 10 2000.
Definition createStep : M World Output.t :=
  withRetry (send remote createCmd) "createAccountSubscription" 10 2000.

End Steps.

(** The create request with the three group lists all holding the one
    name [AdminGroup]. *)
Definition adminOnlyCreate (p : ResourceProperties) : Command :=
  CreateAccountSubscriptionCommand
    {| CreateAccountSubscription.AwsAccountId := AwsAccountId p;
       CreateAccountSubscription.AccountName := AccountName p;
       CreateAccountSubscription.Edition := Edition p;
       CreateAccountSubscription.AuthenticationMethod := AuthenticationMethod p;
       CreateAccountSubscription.ActiveDirectoryName := ActiveDirectoryName p;
       CreateAccountSubscription.AdminGroup := [AdminGroup p];
       CreateAccountSubscription.AuthorGroup := [AdminGroup p];
       CreateAccountSubscription.ReaderGroup := [AdminGroup p];
       CreateAccountSubscription.NotificationEmail := NotificationEmail p |}.

(** The requests an invocation for the properties [p] may send. *)
Definition knownRequests (p : ResourceProperties) : list Command :=
  [ DescribeAccountSubscriptionCommand (AwsAccountId p);
    ListNamespacesCommand (AwsAccountId p);
    UpdateAccountSettingsCommand (AwsAccountId p) "default" (NotificationEmail p);
    DeleteAccountSubscriptionCommand (AwsAccountId p);
    adminOnlyCreate p ].

(** The events of an invocation for [p]: a known request, or a sleep of at
    most 35 seconds. *)
Definition knownEvent (p : ResourceProperties) (e : Event Command) : Prop :=
  match e with
  | Sent c => In c (knownRequests p)
  | Slept ms => ms <= 35000
  end.

(** The error of the region check. *)
Definition regionMismatch (capacityRegion : string) (AWS_REGION : option string) : Js.Error :=
  {| Js.name := Some "Error";
     Js.retryable := None;
     Js.message := ("QuickSight identity region " ++ capacityRegion ++ " doesn't match "
                    ++ match AWS_REGION with Some r => r | None => "undefined" end)%string |}.

(** The value returned for a subscription that exists already. *)
Definition existing (p : ResourceProperties) : Response.t :=
  {| Response.PhysicalResourceId := ("quicksight-subscription-" ++ AwsAccountId p)%string;
     Response.Data := Some {| Response.Status := "Existing" |} |}.

(** Two property sets that agree on everything but [AuthorGroup] and
    [ReaderGroup]. *)
Definition sameButGroups (p q : ResourceProperties) : Prop :=
  DirectoryId p = DirectoryId q /\
  AwsAccountId p = AwsAccountId q /\
  AccountName p = AccountName q /\
  Edition p = Edition q /\
  AuthenticationMethod p = AuthenticationMethod q /\
  ActiveDirectoryName p = ActiveDirectoryName q /\
  Realm p = Realm q /\
  AdminGroup p = AdminGroup q /\
  NotificationEmail p = NotificationEmail q.

End SubscriptionSpec.

(** ** Vocabulary of the statements about the effort of the subscription handler *)

Module SubscriptionEffort.

Import QuickSight.

(** The account a request addresses. *)
Definition accountOf (c : Command) : string :=
  match c with
  | DescribeAccountSubscriptionCommand a => a
  | CreateAccountSubscriptionCommand input => CreateAccountSubscription.AwsAccountId input
  | DeleteAccountSubscriptionCommand a => a
  | UpdateAccountSettingsCommand a _ _ => a
  | ListNamespacesCommand a => a
  end.

(** The events of an invocation for [account]: requests that address this
    account, and sleeps of at most 35 seconds. *)
Definition accountEvent (account : string) (e : Event Command) : Prop :=
  match e with
  | Sent c => accountOf c = account
  | Slept ms => ms <= 35000
  end.

(** The four values of [Data.Status] on the Create and Update path. *)
Definition knownStatus (status : string) : Prop :=
  status = "Existing" \/ status = "Created" \/
  status = "PartialFailure-InternalFailure" \/
  status = "PartialFailure-ThrottlingException".

End SubscriptionEffort.

(** ** The custom resource properties of [QuickSightSubscriptionStack] *)

Module SubscriptionStack.

Import QuickSight.

(** The CDK context keys the stack reads with [tryGetContext]. *)
Record Context : Type := {
  quickSightAdminGroup : option string;
  quickSightAuthorGroup : option string;
  quickSightReaderGroup : option string
}.

(** The [properties] of the [CustomResource]; [directoryId] is the value of
    the SSM parameter the stack resolves. *)
Definition properties (ctx : Context) (account projectPrefix directoryId notificationEmail : string)
  : ResourceProperties :=
  let adminGroup := Js.nullish (quickSightAdminGroup ctx) "QuickSightAdmins" in
  let authorGroup := Js.nullish (quickSightAuthorGroup ctx) adminGroup in
  let readerGroup := Js.nullish (quickSightReaderGroup ctx) adminGroup in
  {| AwsAccountId := account;
     AccountName := (projectPrefix ++ "-" ++ account)%string;
     Edition := "ENTERPRISE";
     AuthenticationMethod := "ACTIVE_DIRECTORY";
     ActiveDirectoryName := directoryId;
     Realm := None;
     AdminGroup := adminGroup;
     AuthorGroup := Some authorGroup;
     ReaderGroup := Some readerGroup;
     NotificationEmail := notificationEmail;
     DirectoryId := directoryId |}.

End SubscriptionStack.

(** ** Vocabulary of the statements about the AD automation handler *)

Module ProvisionSpec.

Import AdAutomation.

Definition isTerminate (c : Command) : bool :=
  match c with TerminateInstancesCommand _ => true | _ => false end.

(** A call of the SDK waiter, as opposed to a request sent through one of
    the three clients. *)
Definition isWaiter (c : Command) : bool :=
  match c with WaitUntilInstanceRunning _ _ => true | _ => false end.

Definition isRequest (c : Command) : bool := negb (isWaiter c).

(** The events of the Create and Update path: a request other than the
    termination of instances; a call of the SDK waiter with a maximal wait
    of 600 seconds; a sleep of 10, 30 or 120 seconds. *)
Definition provisionEvent (e : Event Command) : Prop :=
  match e with
  | Sent (TerminateInstancesCommand _) => False
  | Sent (WaitUntilInstanceRunning maxWaitTime _) => maxWaitTime = 600
  | Sent _ => True
  | Slept ms => ms = 10000 \/ ms = 30000 \/ ms = 120000
  end.

(** Whatever the state, [m] adds to the trace only events that satisfy
    [P]: at most [waits] calls of the SDK waiter, at most [requests]
    requests sent through the clients, and sleeps of its own that sum up to
    at most [d] milliseconds.  What a call of the SDK waiter sends and how
    long it pauses is not counted. *)
Definition budget {World A : Type} (P : Event Command -> Prop) (waits requests : nat) (d : Z)
           (m : M World A) : Prop :=
  forall s, exists t,
    trace (snd (m s)) = (trace s ++ t)%list /\
    Forall P t /\
    (List.length (filter isWaiter (calls t)) <= waits)%nat /\
    (List.length (filter isRequest (calls t)) <= requests)%nat /\
    Effort.total (sleeps t) <= d.

(** The events of the steps that never call the waiter. *)
Definition clientEvent (e : Event Command) : Prop :=
  provisionEvent e /\
  match e with
  | Sent c => isWaiter c = false
  | Slept _ => True
  end.

(** The requests of [waitForCommand], [launchEC2Instance] and
    [ensureJoinDocument]. *)
Definition pollCmd (instanceId commandId : string) : Command :=
  GetCommandInvocationCommand commandId instanceId.

Definition describeImagesCmd : Command :=
  DescribeImagesCommand "Windows_Server-2022-English-Full-Base-*" "available" "amazon".

Definition builtinDoc : string := "AWS-JoinDirectoryServiceDomain".
Definition customDoc : string := "DraupnirMAD-JoinDirectoryServiceDomain".

Definition createDocCmd {World : Type} (rt : Runtime World) : Command :=
  CreateDocumentCommand customDoc "Command" "JSON" (joinDocumentContent rt).

(** A poll of the command status that does not end the wait: an error, or
    a status other than [Success], [Failed] and [Cancelled]. *)
Definition inconclusive (o : Outcome Output.t) : Prop :=
  match o with
  | Ret result => isTerminal (Js.nullish (Output.Status result) EmptyString) = false
  | Throw _ => True
  end.

(** The key pair name generated at the time [now]. *)
Definition generatedKeyName (now : Z) : string :=
  ("ad-automation-key-" ++ Js.of_Z now)%string.

(** [pieces.join(',')] *)
Definition joinComma (pieces : list string) : string := String.concat "," pieces.

(** [img.CreationDate ?? ''] *)
Definition dateOf (img : Image) : string := Js.nullish (CreationDate img) EmptyString.

(** No image of [l] has a later creation date than [h]. *)
Definition headNewest {World : Type} (rt : Runtime World) (h : Image) (l : list Image) : Prop :=
  forall x, In x l -> localeCompare rt (dateOf h) (dateOf x) <> Lt.

Definition isSendCommand (c : Command) : bool :=
  match c with SendCommandCommand _ => true | _ => false end.


(** The DNS addresses [joinDomain] passes on: a single entry that holds
    commas is split. *)
Definition dnsAddresses (dnsIps : list string) : list string :=
  match dnsIps with
  | [ip] => if includesComma ip then splitComma ip else dnsIps
  | _ => dnsIps
  end.

(** The two commands [joinDomain] dispatches: the domain join with the
    document [useDoc], and the setup script. *)
Definition joinRequest (instanceId directoryId domainName : string) (dnsIps : list string)
           (useDoc : string) : Command :=
  SendCommandCommand
    {| SendCommand.InstanceIds := [instanceId];
       SendCommand.DocumentName := useDoc;
       SendCommand.Parameters :=
         [("directoryId", [directoryId]); ("directoryName", [domainName]);
          ("dnsIpAddresses", dnsAddresses dnsIps)];
       SendCommand.TimeoutSeconds := 900 |}.

(** The double quote of the PowerShell lines. *)
Definition quote : string := String (ascii_of_nat 34) EmptyString.

(** The setup script is fetched from the bucket and the key of the
    environment, and run with the domain name, the admin password and the
    region (by default [us-east-1]), each between double quotes. *)
Definition setupRequest (env : Env) (instanceId domainName adminPassword : string) : Command :=
  SendCommandCommand
    {| SendCommand.InstanceIds := [instanceId];
       SendCommand.DocumentName := "AWS-RunPowerShellScript";
       SendCommand.Parameters :=
         [("commands",
           [ ("Read-S3Object -BucketName " ++ quote
              ++ match SCRIPTS_BUCKET env with Some b => b | None => "undefined" end ++ quote
              ++ " -Key " ++ quote
              ++ match SETUP_SCRIPT_KEY env with Some k => k | None => "undefined" end ++ quote
              ++ " -File " ++ quote ++ "C:\setup-ad-v9.ps1" ++ quote)%string;
             ("powershell.exe -ExecutionPolicy Bypass -File " ++ quote
              ++ "C:\setup-ad-v9.ps1" ++ quote
              ++ " -DomainName " ++ quote ++ domainName ++ quote
              ++ " -AdminPassword " ++ quote ++ adminPassword ++ quote
              ++ " -Region " ++ quote
              ++ match AWS_REGION env with Some r => r | None => "us-east-1" end
              ++ quote)%string ]);
          ("executionTimeout", ["3600"])];
       SendCommand.TimeoutSeconds := 3600 |}.

(** The request that reads the admin password. *)
Definition adminSecretCmd (env : Env) : Command :=
  GetSecretValueCommand (match ADMIN_SECRET_ARN env with Some arn => arn | None => EmptyString end).


(** The text of the key pair secret: the secret string of the answer,
    [{}] when the answer holds none. *)
Definition secretText (secret : Output.t) : string :=
  match Output.SecretString secret with Some text => text | None => "{}" end.

(** The read path of [getOrCreateKeyPair] fails, from the state [s], and
    leaves the state [s1]: the secret cannot be read, or its text cannot be
    parsed, or the key pair it names cannot be looked up. *)
Definition readFails {World : Type} (remote : Command -> World -> Outcome Output.t * World)
           (rt : Runtime World) (secretArn : string) (s s1 : St World) : Prop :=
  (exists e w1,
      remote (GetSecretValueCommand secretArn) (world s) = (Throw e, w1) /\
      s1 = {| world := w1;
              trace := (trace s ++ [Sent (GetSecretValueCommand secretArn)])%list |}) \/
  (exists secret w1,
      remote (GetSecretValueCommand secretArn) (world s) = (Ret secret, w1) /\
      JSON_parse_secret rt (secretText secret) = None /\
      s1 = {| world := w1;
              trace := (trace s ++ [Sent (GetSecretValueCommand secretArn)])%list |}) \/
  (exists secret w1 data e w2,
      remote (GetSecretValueCommand secretArn) (world s) = (Ret secret, w1) /\
      JSON_parse_secret rt (secretText secret) = Some data /\
      remote (DescribeKeyPairsCommand [KeyPairName data]) w1 = (Throw e, w2) /\
      s1 = {| world := w2;
              trace := (trace s ++ [Sent (GetSecretValueCommand secretArn);
                                    Sent (DescribeKeyPairsCommand [KeyPairName data])])%list |}).

End ProvisionSpec.

(** ** Concrete remote sides and requests for the worked runs *)

Module Scenario.

(** A remote side that answers from a script, one entry per request; once
    the script is used up it answers with [dflt]. *)
Definition scripted {Cmd Out : Type} (dflt : Out) (c : Cmd) (w : list (Outcome Out))
  : Outcome Out * list (Outcome Out) :=
  match w with
  | r :: w' => (r, w')
  | [] => (Ret dflt, [])
  end.

(** A service exception with the given name. *)
Definition serviceError (name : string) : Js.Error :=
  {| Js.name := Some name; Js.retryable := None; Js.message := name |}.

Definition throttled : Js.Error := serviceError "ThrottlingException".
Definition internalFailure : Js.Error := serviceError "InternalFailure".
Definition notFound : Js.Error := serviceError "ResourceNotFoundException".
Definition accessDenied : Js.Error := serviceError "AccessDeniedException".

Definition start {Cmd World : Type} (w : World) : Async.St Cmd World :=
  {| world := w; trace := [] |}.

Module QS.
Import QuickSight.

Definition remote := @scripted Command Output.t Output.empty.

Definition account : string := "123456789012".

Definition props : ResourceProperties :=
  {| DirectoryId := "d-1234567890";
     AwsAccountId := account;
     AccountName := "managed-ad-123456789012";
     Edition := "ENTERPRISE";
     AuthenticationMethod := "ACTIVE_DIRECTORY";
     ActiveDirectoryName := "d-1234567890";
     Realm := None;
     AdminGroup := "QuickSightAdmins";
     AuthorGroup := Some "QuickSightAuthors";
     ReaderGroup := Some "QuickSightReaders";
     NotificationEmail := "admin@example.com" |}.

(** The same properties with other author and reader groups. *)
Definition props' : ResourceProperties :=
  {| DirectoryId := "d-1234567890";
     AwsAccountId := account;
     AccountName := "managed-ad-123456789012";
     Edition := "ENTERPRISE";
     AuthenticationMethod := "ACTIVE_DIRECTORY";
     ActiveDirectoryName := "d-1234567890";
     Realm := None;
     AdminGroup := "QuickSightAdmins";
     AuthorGroup := None;
     ReaderGroup := Some "Analysts";
     NotificationEmail := "admin@example.com" |}.

Definition event (rt : RequestType) (p : ResourceProperties) : Event.t :=
  {| Event.RequestType := rt;
     Event.ResourceProperties := p;
     Event.OldResourceProperties := None;
     Event.PhysicalResourceId := None |}.

Definition region : option string := Some "us-east-1".

Definition describe : Command := DescribeAccountSubscriptionCommand account.
Definition listNamespaces : Command := ListNamespacesCommand account.
Definition update : Command :=
  UpdateAccountSettingsCommand account "default" "admin@example.com".
Definition delete : Command := DeleteAccountSubscriptionCommand account.
Definition create : Command := CreateAccountSubscriptionCommand (createInput props).

(** Responses of [DescribeAccountSubscription] and [ListNamespaces]. *)
Definition withStatus (status : string) : Output.t :=
  {| Output.AccountInfo := Some {| AccountSubscriptionStatus := Some status |};
     Output.Namespaces := None |}.

Definition withRegion (r : option string) : Output.t :=
  {| Output.AccountInfo := None;
     Output.Namespaces := Some [ {| CapacityRegion := r |} ] |}.

End QS.

Module AD.
Import AdAutomation.

Definition remote := @scripted Command Output.t Output.empty.

(** A runtime whose [JSON.parse] accepts the DNS list only. *)
Definition runtime : Runtime (list (Outcome Output.t)) :=
  {| JSON_parse_secret := fun _ => None;
     JSON_stringify_secret := fun keyName _ => keyName;
     JSON_parse_dnsIps := fun _ => Some ["10.0.0.10"; "10.0.1.10"];
     localeCompare := String.compare;
     Date_now := fun _ => 1700000000000;
     joinDocumentContent := "{}" |}.

Definition env : Env :=
  {| DOMAIN_NAME := Some "corp.example.com";
     DNS_IPS := None;
     INSTANCE_PROFILE_NAME := Some "EC2InstanceProfile";
     SCRIPTS_BUCKET := Some "scripts";
     SETUP_SCRIPT_KEY := Some "setup-ad-v9.ps1";
     AWS_REGION := Some "us-east-1";
     ADMIN_SECRET_ARN := Some "arn:admin" |}.

Definition props : ResourceProperties :=
  {| DirectoryId := "d-1234567890";
     SecurityGroupId := "sg-1";
     SubnetId := "subnet-1";
     InstanceType := "m5.large";
     KeyPairSecretArn := "arn:keypair";
     AdminSecretArn := "arn:admin" |}.

Definition event (rt : RequestType) (previous : option string) : EventProps.t :=
  {| EventProps.RequestType := rt;
     EventProps.ResourceProperties := props;
     EventProps.PhysicalResourceId := previous |}.

(** Responses of [GetCommandInvocation], [DescribeImages] and [RunInstances]. *)
Definition withStatus (status : string) : Output.t :=
  {| Output.SecretString := None; Output.KeyMaterial := None; Output.Images := None;
     Output.Instances := None; Output.InstanceInformationList := None;
     Output.Command := None; Output.Status := Some status |}.

Definition withImage (id date : string) : Output.t :=
  {| Output.SecretString := None; Output.KeyMaterial := None;
     Output.Images := Some [ {| ImageId := Some id; CreationDate := Some date |} ];
     Output.Instances := None; Output.InstanceInformationList := None;
     Output.Command := None; Output.Status := None |}.

Definition withInstance (id : string) : Output.t :=
  {| Output.SecretString := None; Output.KeyMaterial := None; Output.Images := None;
     Output.Instances := Some [ {| InstanceId := Some id |} ];
     Output.InstanceInformationList := None;
     Output.Command := None; Output.Status := None |}.

Definition waiterFailed : Js.Error :=
  {| Js.name := Some "Error"; Js.retryable := None; Js.message := "Waiter has timed out" |}.

(** A remote side on which the key pair is created and the instance
    [i-0abc] is launched, and the waiter for the running state then fails. *)
Definition launchedThenWaiterFails : list (Outcome Output.t) :=
  [ Throw (Js.Err (serviceError "ResourceNotFoundException"));
    Ret Output.empty;
    Ret Output.empty;
    Ret (withImage "ami-1" "2024-01-01T00:00:00.000Z");
    Ret (withInstance "i-0abc");
    Throw (Js.Err waiterFailed) ].

(** The states of that run after [getOrCreateKeyPair], after
    [launchEC2Instance] and after the failed waiter. *)
Definition keyPairTrace : list (Event Command) :=
  [ Sent (GetSecretValueCommand "arn:keypair");
    Sent (CreateKeyPairCommand "ad-automation-key-1700000000000");
    Sent (PutSecretValueCommand "arn:keypair" "ad-automation-key-1700000000000") ].

Definition launchTrace : list (Event Command) :=
  [ Sent (DescribeImagesCommand "Windows_Server-2022-English-Full-Base-*" "available" "amazon");
    Sent (RunInstancesCommand
            {| RunInstances.ImageId := "ami-1";
               RunInstances.InstanceType := "m5.large";
               RunInstances.MinCount := 1;
               RunInstances.MaxCount := 1;
               RunInstances.KeyName := Some "ad-automation-key-1700000000000";
               RunInstances.SubnetId := "subnet-1";
               RunInstances.SecurityGroupIds := ["sg-1"];
               RunInstances.IamInstanceProfileName := "EC2InstanceProfile";
               RunInstances.NameTag := "AD-Automation-Instance";
               RunInstances.DeviceName := "/dev/sda1";
               RunInstances.VolumeSize := 80;
               RunInstances.VolumeType := "gp3" |}) ].

Definition afterKeyPair : St (list (Outcome Output.t)) :=
  {| world := skipn 3 launchedThenWaiterFails; trace := keyPairTrace |}.

Definition afterLaunch : St (list (Outcome Output.t)) :=
  {| world := skipn 5 launchedThenWaiterFails; trace := keyPairTrace ++ launchTrace |}.

Definition afterWaiter : St (list (Outcome Output.t)) :=
  {| world := [];
     trace := keyPairTrace ++ launchTrace ++ [Sent (WaitUntilInstanceRunning 600 ["i-0abc"])] |}.

End AD.

End Scenario.

(** ** The configuration read from the CDK context (lib/config/environment-config.ts) *)

Module Config.

(** A scalar value of the CDK context, as [cdk.json] or [--context] give
    it (arrays, objects and fractions are left out). *)
Inductive CtxValue : Type :=
| CStr (s : string)
| CBool (b : bool)
| CNum (n : Z).

(** [node.tryGetContext]: [None] for a key that is absent (or [null]). *)
Definition Context : Type := string -> option CtxValue.

(** Truthiness of a context value. *)
Definition truthy (v : option CtxValue) : bool :=
  match v with
  | None => false
  | Some (CStr s) => negb (String.eqb s EmptyString)
  | Some (CBool b) => b
  | Some (CNum n) => negb (Z.eqb n 0)
  end.

(** A template-literal hole [${v}]. *)
Definition toString (v : CtxValue) : string :=
  match v with
  | CStr s => s
  | CBool true => "true"
  | CBool false => "false"
  | CNum n => Js.of_Z n
  end.

(** [(v ?? 'true') === 'true'] *)
Definition flag (v : option CtxValue) : bool :=
  match Js.nullish v (CStr "true") with
  | CStr s => String.eqb s "true"
  | _ => false
  end.

(** [interface EnvironmentConfig]; the fields hold what the context holds,
    whatever the declared type. *)
Record EnvironmentConfig : Type := {
  stage : CtxValue;
  projectPrefix : CtxValue;
  domainName : CtxValue;
  domainShortName : CtxValue;
  notificationEmail : CtxValue;
  enableQuickSight : bool;
  enableMonitoring : bool
}.

Definition quote : string := String (ascii_of_nat 34) EmptyString.
Definition newline : string := String (ascii_of_nat 10) EmptyString.

(** The error thrown by [required]. *)
Definition missingKey (key : string) : Js.Error :=
  Js.newError ("Missing required CDK context key: " ++ quote ++ key ++ quote ++ ". "
               ++ "Provide it via cdk.json or --context " ++ key ++ "=<value>").

(** [const required = (key: string): string => ...] *)
Definition required (ctx : Context) (key : string) : Js.Error + CtxValue :=
  let value := ctx key in
  if negb (truthy value) then inl (missingKey key)
  else match value with
       | Some v => inr v
       | None => inl (missingKey key)
       end.

(** [export function loadConfig(node: Node): EnvironmentConfig] *)
Definition loadConfig (ctx : Context) : Js.Error + EnvironmentConfig :=
  let stage := Js.nullish (ctx "stage") (CStr "dev") in
  let projectPrefix := Js.nullish (ctx "projectPrefix") (CStr "managed-ad") in
  match required ctx "domainName" with
  | inl e => inl e
  | inr domainName =>
      match required ctx "domainShortName" with
      | inl e => inl e
      | inr domainShortName =>
          match required ctx "notificationEmail" with
          | inl e => inl e
          | inr notificationEmail =>
              inr {| stage := stage;
                     projectPrefix := projectPrefix;
                     domainName := domainName;
                     domainShortName := domainShortName;
                     notificationEmail := notificationEmail;
                     enableQuickSight := flag (ctx "enableQuickSight");
                     enableMonitoring := flag (ctx "enableMonitoring") |}
          end
      end
  end.

(** *** The application entry point *)

Inductive StackKind : Type := ManagedAd | AdAutomation | QuickSight | Monitoring.

(** A stack the application creates: its class, its identifier and the
    stacks it was made to depend on. *)
Record StackDecl : Type := {
  kind : StackKind;
  stackId : string;
  dependsOn : list string
}.

Definition appError : Js.Error :=
  Js.newError ("Missing required CDK context. Provide: domainName, domainShortName, notificationEmail."
               ++ newline
               ++ "Example: cdk deploy --context stage=dev --context domainName=corp.example.com "
               ++ "--context domainShortName=CORP --context notificationEmail=admin@example.com").

(** The body of the entry point: the check of the required context, and
    the stacks the entry point then asks CDK to create, in the order of
    their creation, with the dependencies it adds.  The constructors of
    the stacks are taken to return: what CDK does inside them, and a run in
    which one of them throws (on a stack identifier CDK refuses, for
    instance), is not described. *)
Definition app (ctx : Context) : Js.Error + list StackDecl :=
  let stage := toString (Js.nullish (ctx "stage") (CStr "dev")) in
  let domainName := ctx "domainName" in
  let domainShortName := ctx "domainShortName" in
  let notificationEmail := ctx "notificationEmail" in
  let enableQuickSight := flag (ctx "enableQuickSight") in
  let enableMonitoring := flag (ctx "enableMonitoring") in
  if negb (truthy domainName) || negb (truthy domainShortName)
     || negb (truthy notificationEmail)
  then inl appError
  else
    let managedAdStack := (stage ++ "-ManagedAd")%string in
    let adAutomationStack := (stage ++ "-AdAutomation")%string in
    let quickSightStack := (stage ++ "-QuickSight")%string in
    let monitoringStack := (stage ++ "-Monitoring")%string in
    inr ([ {| kind := ManagedAd; stackId := managedAdStack; dependsOn := [] |};
           {| kind := AdAutomation; stackId := adAutomationStack;
              dependsOn := [managedAdStack] |} ]
         ++ (if enableQuickSight then
               {| kind := QuickSight; stackId := quickSightStack;
                  dependsOn := [adAutomationStack] |}
               :: (if enableMonitoring then
                     [ {| kind := Monitoring; stackId := monitoringStack;
                          dependsOn := [quickSightStack] |} ]
                   else [])
             else []))%list.

(** The required keys, in the order [loadConfig] reads them. *)
Definition requiredKeys : list string := ["domainName"; "domainShortName"; "notificationEmail"].

End Config.

(** ** The SSM parameter names the stacks share *)

Module SsmPaths.

(** [ManagedAdStack]: the name under which a parameter is written,
    [`/draupnir/${stage}/<name>`]. *)
Definition written (stage name : string) : string :=
  "/draupnir/" ++ stage ++ "/" ++ name.

(** [AdAutomationStack] and [QuickSightSubscriptionStack]: the name under
    which a parameter is looked up, [`/${projectPrefix}/${stage}/<name>`]. *)
Definition lookedUp (projectPrefix stage name : string) : string :=
  "/" ++ projectPrefix ++ "/" ++ stage ++ "/" ++ name.

End SsmPaths.

(** ** The health check of [MonitoringStack] (inline Python handler) *)

Module HealthCheck.

Local Open Scope async_scope.

(** The calls made through the [quicksight] and [cloudwatch] clients. *)
Inductive Command : Type :=
| DescribeAccountSubscription (AwsAccountId : string)
| PutMetricData (Namespace MetricName : string) (Value : Z) (Unit : string).

(** The answer of [describe_account_subscription], a dictionary whose keys
    may be missing. *)
Record AccountInfo : Type := { AccountSubscriptionStatus : option string }.
Module Output.
Record t : Type := { AccountInfo : option AccountInfo }.
Definition empty : t := {| AccountInfo := None |}.
End Output.

(** The dictionary the handler returns. *)
Record Result : Type := { statusCode : Z; body : string }.

(** A Python exception, as an error object named after its class. *)
Definition exception (class detail : string) : Js.Error :=
  {| Js.name := Some class; Js.retryable := None; Js.message := detail |}.

(** [s.split(sep)] for a separator of one character. *)
Fixpoint splitOn (sep : ascii) (s : string) : list string :=
  match s with
  | EmptyString => [EmptyString]
  | String c s' =>
      if Ascii.eqb c sep then EmptyString :: splitOn sep s'
      else match splitOn sep s' with
           | h :: t => String c h :: t
           | [] => [String c EmptyString]
           end
  end.

Definition St (World : Type) : Type := Async.St Command World.
Definition M (World : Type) (A : Type) : Type := Async.M Command World A.

Section Handler.
Context {World : Type}.

(** The services behind the two boto3 clients. *)
Variable remote : Command -> World -> Outcome Output.t * World.

(** [json.dumps] on strings. *)
Variable json_dumps : string -> string.

Local Abbreviation send := (Async.send remote).

(** [cloudwatch.put_metric_data(Namespace=namespace, MetricData=[...])] *)
Definition putHealth (namespace : string) (value : Z) : M World Output.t :=
  send (PutMetricData namespace "SubscriptionHealth" value "Count").

(** [def handler(event, context)]; [arn] is
    [context.invoked_function_arn] and [environ] is [os.environ]. *)
Definition handler (arn : string) (environ : string -> option string) : M World Result :=
  match nth_error (splitOn ":" arn) 4 with
  | None => throw (Js.Err (exception "IndexError" "list index out of range"))
  | Some account_id =>
      match environ "METRIC_NAMESPACE" with
      | None => throw (Js.Err (exception "KeyError" "METRIC_NAMESPACE"))
      | Some namespace =>
          try_catch
            (response <- send (DescribeAccountSubscription account_id) ;;
             match Output.AccountInfo response with
             | None => throw (Js.Err (exception "KeyError" "AccountInfo"))
             | Some info =>
                 match AccountSubscriptionStatus info with
                 | None => throw (Js.Err (exception "KeyError" "AccountSubscriptionStatus"))
                 | Some status =>
                     let health_value :=
                       if String.eqb status "ACCOUNT_CREATED" then 1 else 0 in
                     putHealth namespace health_value ;;;
                     ret {| statusCode := 200;
                            body := json_dumps ("QuickSight status: " ++ status) |}
                 end
             end)
            (fun e => putHealth namespace 0 ;;; throw e)
      end
  end.

End Handler.

(** A datapoint of the health gauge in [namespace]: the metric
    [SubscriptionHealth], counted, with the value 0 or 1. *)
Definition gaugeDatapoint (namespace : string) (c : Command) : Prop :=
  match c with
  | PutMetricData ns metric value unit =>
      ns = namespace /\ metric = "SubscriptionHealth" /\ unit = "Count" /\
      (value = 0 \/ value = 1)
  | DescribeAccountSubscription _ => False
  end.

End HealthCheck.

(** ** More concrete remote sides, runtimes and contexts *)

Module Cases.

Import Scenario.

Module AD.
Import AdAutomation.

(** A remote side on which every command stays in progress for ever. *)
Definition alwaysPending (c : Command) (w : unit) : Outcome Output.t * unit :=
  (Ret (Scenario.AD.withStatus "InProgress"), w).

(** A runtime that compares strings character by character. *)
Definition runtime : Runtime (list (Outcome Output.t)) :=
  {| JSON_parse_secret := fun _ => None;
     JSON_stringify_secret := fun keyName _ => keyName;
     JSON_parse_dnsIps := fun _ => Some ["10.0.0.10,10.0.1.10"];
     localeCompare := String_as_OT.compare;
     Date_now := fun _ => 1700000000000;
     joinDocumentContent := "{}" |}.

Definition image (id date : string) : Image :=
  {| ImageId := Some id; CreationDate := Some date |}.

Definition threeImages : list Image :=
  [ image "ami-old" "2023-05-01"; image "ami-new" "2024-02-01"; image "ami-mid" "2023-11-01" ].

Definition imagesAnswer : Output.t :=
  {| Output.SecretString := None; Output.KeyMaterial := None;
     Output.Images := Some threeImages;
     Output.Instances := None; Output.InstanceInformationList := None;
     Output.Command := None; Output.Status := None |}.

Definition registered : Output.t :=
  {| Output.SecretString := None; Output.KeyMaterial := None; Output.Images := None;
     Output.Instances := None;
     Output.InstanceInformationList := Some [ {| InfoInstanceId := Some "i-0abc" |} ];
     Output.Command := None; Output.Status := None |}.

Definition dispatched (commandId : string) : Output.t :=
  {| Output.SecretString := None; Output.KeyMaterial := None; Output.Images := None;
     Output.Instances := None; Output.InstanceInformationList := None;
     Output.Command := Some {| CommandId := Some commandId |}; Output.Status := None |}.

Definition secret (value : string) : Output.t :=
  {| Output.SecretString := Some value; Output.KeyMaterial := None; Output.Images := None;
     Output.Instances := None; Output.InstanceInformationList := None;
     Output.Command := None; Output.Status := None |}.

(** A remote side on which the domain join and the setup script both end
    with [Success] at their first poll. *)
Definition joinSucceeds : list (Outcome Output.t) :=
  [ Ret registered;
    Ret Output.empty;
    Ret (dispatched "cmd-1");
    Ret (Scenario.AD.withStatus "Success");
    Ret (secret "pw");
    Ret (dispatched "cmd-2");
    Ret (Scenario.AD.withStatus "Success") ].

End AD.

Module Cfg.
Import Config.

(** A lookup in a list of context entries. *)
Fixpoint lookup (entries : list (string * CtxValue)) (key : string) : option CtxValue :=
  match entries with
  | [] => None
  | (k, v) :: rest => if String.eqb k key then Some v else lookup rest key
  end.

Definition requiredEntries : list (string * CtxValue) :=
  [ ("domainName", CStr "corp.example.com");
    ("domainShortName", CStr "CORP");
    ("notificationEmail", CStr "admin@example.com") ].

(** QuickSight enabled with the boolean [true] instead of the string. *)
Definition booleanFlag : Context :=
  lookup (("enableQuickSight", CBool true) :: requiredEntries).

(** QuickSight disabled, monitoring left to its default. *)
Definition withoutQuickSight : Context :=
  lookup (("stage", CStr "prod") :: ("enableQuickSight", CStr "false") :: requiredEntries).

(** The notification address given as the empty string. *)
Definition emptyEmail : Context :=
  lookup [ ("domainName", CStr "corp.example.com");
           ("domainShortName", CStr "CORP");
           ("notificationEmail", CStr EmptyString) ].

End Cfg.

Module Health.
Import HealthCheck.

Definition remote := @scripted Command Output.t Output.empty.

Definition arn : string :=
  "arn:aws:lambda:us-east-1:123456789012:function:prod-QuickSightHealthCheck".

Definition environ (key : string) : option string :=
  if String.eqb key "METRIC_NAMESPACE" then Some "managed-ad/QuickSight" else None.

Definition withStatus (status : string) : Output.t :=
  {| Output.AccountInfo := Some {| AccountSubscriptionStatus := Some status |} |}.

End Health.

End Cases.
(** * Properties *)

Local Open Scope list_scope.

(** ** Traces *)

Module AsyncFacts.
Section Facts.
Context {Cmd Out World : Type}.
Variable remote : Cmd -> World -> Outcome Out * World.

Lemma calls_app (t1 t2 : list (Event Cmd)) : calls (t1 ++ t2) = calls t1 ++ calls t2.
Proof.
  induction t1 as [|[c|d] t1 IH]; simpl; [reflexivity | f_equal; exact IH | exact IH].
Qed.

Lemma sleeps_app (t1 t2 : list (Event Cmd)) : sleeps (t1 ++ t2) = sleeps t1 ++ sleeps t2.
Proof.
  induction t1 as [|[c|d] t1 IH]; simpl; [reflexivity | exact IH | f_equal; exact IH].
Qed.

Lemma send_trace (c : Cmd) (s : St Cmd World) :
  trace (snd (send remote c s)) = trace s ++ [Sent c].
Proof. unfold send. destruct (remote c (world s)); reflexivity. Qed.

Lemma send_run (c : Cmd) (s : St Cmd World) :
  send remote c s =
  (fst (remote c (world s)),
   {| world := snd (remote c (world s)); trace := trace s ++ [Sent c] |}).
Proof. unfold send. destruct (remote c (world s)); reflexivity. Qed.

Lemma bind_run {A B : Type} (m : M Cmd World A) (k : A -> M Cmd World B) (s : St Cmd World) :
  bind m k s =
  match m s with
  | (Ret a, s') => k a s'
  | (Throw e, s') => (Throw e, s')
  end.
Proof. reflexivity. Qed.

End Facts.
End AsyncFacts.

Module RetryFacts.
Import QuickSight RetrySpec AsyncFacts.

Section Loop.
Context {World T : Type}.
Variable fn : M World T.
Variable name : string.
Variable baseDelay : Z.

Lemma retryLoop_O attempt lastError s :
  retryLoop fn name baseDelay 0 attempt lastError s = (Throw lastError, s).
Proof. reflexivity. Qed.

Lemma retryLoop_S remaining attempt lastError s :
  retryLoop fn name baseDelay (S remaining) attempt lastError s =
  match fn s with
  | (Ret v, s1) => (Ret v, s1)
  | (Throw Js.Undefined, s1) => (Throw (Js.Err Js.typeError), s1)
  | (Throw (Js.Err e), s1) =>
      if fatal e then (Throw (Js.Err e), s1)
      else retryLoop fn name baseDelay remaining (S attempt) (Js.Err e)
             (snd (sleep (retryDelay baseDelay attempt (codeOf e)) s1))
  end.
Proof.
  simpl. unfold try_catch. destruct (fn s) as [[v|[|e]] s1]; try reflexivity.
  destruct (fatal e); reflexivity.
Qed.

(** The test of [withRetry] is the classification of the errors. *)
Lemma fatal_retryableError (e : Js.Error) : fatal e = negb (retryableError e).
Proof.
  unfold fatal, retryableError, codeOf.
  destruct (Js.retryable e); [reflexivity|].
  destruct (Js.name e) as [n|]; cbn [Js.nullish orb andb]; [|reflexivity].
  now rewrite negb_orb.
Qed.

(** The delay [withRetry] computes is the expected one. *)
Lemma retryDelay_expected (n : nat) (e : Js.Error) :
  retryDelay baseDelay n (codeOf e) = expectedDelay baseDelay n e.
Proof.
  unfold retryDelay, expectedDelay, throttlingError, codeOf.
  destruct (Js.name e); reflexivity.
Qed.

Lemma last_cons {A : Type} (l : list A) : forall a d : A, last (a :: l) d = last l a.
Proof.
  induction l as [|b l IH]; intros a d; [reflexivity|].
  change (last (a :: b :: l) d) with (last (b :: l) d).
  rewrite (IH b d), (IH b a). reflexivity.
Qed.

(** A run of the loop is a sequence of failed attempts, each followed by
    its delay, and an end: the attempts are used up, or one more
    invocation does not fail with a retryable error. *)
Lemma retryLoop_history :
  forall remaining attempt lastError s,
  exists (errs : list Js.Error) (s' : St World),
    failedAttempts fn baseDelay attempt s errs s' /\
    ((List.length errs = remaining /\
      retryLoop fn name baseDelay remaining attempt lastError s =
      (Throw (last (map Js.Err errs) lastError), s')) \/
     ((List.length errs < remaining)%nat /\
      match fn s' with
      | (Ret v, s2) =>
          retryLoop fn name baseDelay remaining attempt lastError s = (Ret v, s2)
      | (Throw Js.Undefined, s2) =>
          retryLoop fn name baseDelay remaining attempt lastError s =
          (Throw (Js.Err Js.typeError), s2)
      | (Throw (Js.Err e), s2) =>
          retryableError e = false /\
          retryLoop fn name baseDelay remaining attempt lastError s = (Throw (Js.Err e), s2)
      end)).
Proof.
  induction remaining as [|remaining IH]; intros attempt lastError s.
  - exists [], s. split; [reflexivity|]. left. split; reflexivity.
  - rewrite retryLoop_S. destruct (fn s) as [[v|[|e]] s1] eqn:Hfn.
    + exists [], s. split; [reflexivity|]. right. split; [simpl; lia|].
      rewrite Hfn. reflexivity.
    + exists [], s. split; [reflexivity|]. right. split; [simpl; lia|].
      rewrite Hfn. reflexivity.
    + rewrite fatal_retryableError. destruct (retryableError e) eqn:Hr; cbn [negb].
      * destruct (IH (S attempt) (Js.Err e)
                    (snd (sleep (retryDelay baseDelay attempt (codeOf e)) s1)))
          as (errs & s' & Hchain & Hend).
        exists (e :: errs), s'. split.
        { cbn [failedAttempts]. split; [exact Hr|]. exists s1. split; [exact Hfn|].
          rewrite <- retryDelay_expected. exact Hchain. }
        destruct Hend as [[Hlen Heq] | [Hlen Hm]].
        -- left. split; [simpl; lia|]. rewrite Heq. cbn [map]. now rewrite last_cons.
        -- right. split; [simpl; lia|]. exact Hm.
      * exists [], s. split; [reflexivity|]. right. split; [simpl; lia|].
        rewrite Hfn. split; [exact Hr | reflexivity].
Qed.

(** The requests and the sleeps of the failed attempts of an operation that
    sends one request per invocation. *)
Lemma failedAttempts_trace :
  single_request fn ->
  forall errs n s s',
    failedAttempts fn baseDelay n s errs s' ->
    List.length (calls (trace s')) = (List.length (calls (trace s)) + List.length errs)%nat /\
    sleeps (trace s') = sleeps (trace s) ++ expectedDelays baseDelay n errs.
Proof.
  intros Hone. induction errs as [|e errs IH]; intros n s s' H.
  - cbn [failedAttempts] in H. subst s'. simpl. rewrite app_nil_r. split; [lia | reflexivity].
  - destruct H as (_ & s1 & Hfn & Hchain).
    apply IH in Hchain. cbn [trace] in Hchain. destruct Hchain as [Hc Hs].
    destruct (Hone s) as [c Htr]. rewrite Hfn in Htr. cbn [snd] in Htr.
    rewrite Hc, Hs, Htr, !calls_app, !sleeps_app, !length_app. simpl.
    rewrite !app_nil_r, <- app_assoc. split; [lia | reflexivity].
Qed.

(** The final state of a run, after its failed attempts. *)
Lemma endsAfter_trace (maxRetries : nat) (errs : list Js.Error) (s' : St World)
      (r : Outcome T * Async.St Command World) :
  single_request fn ->
  endsAfter fn maxRetries errs s' r ->
  (List.length errs <= maxRetries)%nat /\
  sleeps (trace (snd r)) = sleeps (trace s') /\
  List.length (calls (trace (snd r))) =
    (List.length (calls (trace s')) + Nat.min maxRetries (S (List.length errs))
     - List.length errs)%nat.
Proof.
  intros Hone [[Hlen ->] | [Hlen Hm]].
  - cbn [snd]. split; [lia|]. split; [reflexivity|]. lia.
  - split; [lia|]. destruct (Hone s') as [c Htr].
    assert (Hr : snd r = snd (fn s')).
    { destruct (fn s') as [[v|[|e]] s2]; [rewrite Hm | rewrite Hm | rewrite (proj2 Hm)];
        reflexivity. }
    rewrite Hr, Htr, calls_app, sleeps_app, length_app. simpl. rewrite app_nil_r.
    split; [reflexivity|]. lia.
Qed.

End Loop.

Section Send.
Context {World : Type}.
Variable remote : Command -> World -> Outcome Output.t * World.

Lemma send_single_request (c : Command) : single_request (send remote c).
Proof. intros s. exists c. apply send_trace. Qed.

(** A retried [send] sends the same request each time, at least once and at
    most [remaining] times. *)
Lemma retryLoop_send_calls (c : Command) name baseDelay :
  forall remaining attempt lastError s,
  exists k : nat,
    (k <= remaining)%nat /\ (remaining = 0%nat \/ 1 <= k)%nat /\
    calls (trace (snd (retryLoop (send remote c) name baseDelay remaining attempt lastError s))) =
    calls (trace s) ++ repeat c k.
Proof.
  induction remaining as [|remaining IH]; intros attempt lastError s.
  - exists 0%nat. simpl. rewrite app_nil_r. repeat split; auto.
  - rewrite retryLoop_S, send_run.
    set (s1 := {| world := snd (remote c (world s)); trace := trace s ++ [Sent c] |}).
    assert (H1 : calls (trace s1) = calls (trace s) ++ repeat c 1).
    { subst s1. simpl. rewrite calls_app. reflexivity. }
    destruct (fst (remote c (world s))) as [v|[|e]].
    + exists 1%nat. cbn [snd]. rewrite H1. repeat split; auto; lia.
    + exists 1%nat. cbn [snd]. rewrite H1. repeat split; auto; lia.
    + destruct (fatal e).
      * exists 1%nat. cbn [snd]. rewrite H1. repeat split; auto; lia.
      * destruct (IH (S attempt) (Js.Err e)
                    (snd (sleep (retryDelay baseDelay attempt (codeOf e)) s1)))
          as (k & Hle & _ & Heq).
        exists (S k). split; [lia|]. split; [right; lia|].
        rewrite Heq. unfold sleep. cbn [snd trace]. rewrite calls_app, H1. simpl.
        rewrite app_nil_r, <- app_assoc. reflexivity.
Qed.

End Send.
End RetryFacts.

Module RetryClaims.
Import QuickSight RetrySpec AsyncFacts RetryFacts.

Lemma cappedBackoff_mono (baseDelay : Z) (n : nat) :
  0 <= baseDelay -> cappedBackoff baseDelay n <= cappedBackoff baseDelay (S n).
Proof.
  intros Hb. unfold cappedBackoff.
  rewrite Nat2Z.inj_succ, Z.pow_succ_r by lia.
  assert (0 < 2 ^ Z.of_nat n) by (apply Z.pow_pos_nonneg; lia).
  apply Z.min_le_compat_r. nia.
Qed.

Lemma expectedDelay_split (baseDelay : Z) (n : nat) (e : Js.Error) :
  expectedDelay baseDelay n e =
  cappedBackoff baseDelay n + (if throttlingError e then 5000 else 0).
Proof. reflexivity. Qed.

Lemma expectedDelays_nth (baseDelay : Z) (errs : list Js.Error) :
  forall attempt n e,
    nth_error errs n = Some e ->
    nth_error (expectedDelays baseDelay attempt errs) n =
    Some (expectedDelay baseDelay (attempt + n) e).
Proof.
  induction errs as [|e0 errs IH]; intros attempt [|n] e H; simpl in *; try discriminate.
  - injection H as ->. now rewrite Nat.add_0_r.
  - rewrite (IH (S attempt) n e H). do 2 f_equal. lia.
Qed.

Lemma expectedDelays_sorted (baseDelay : Z) :
  0 <= baseDelay ->
  forall errs attempt,
    penaltyKept errs = true -> Sorted Z.le (expectedDelays baseDelay attempt errs).
Proof.
  intros Hb. induction errs as [|e1 errs IH]; intros attempt Hk; simpl.
  - constructor.
  - constructor.
    + apply IH. destruct errs as [|e2 errs]; [reflexivity|].
      simpl in Hk. apply andb_prop in Hk. apply Hk.
    + destruct errs as [|e2 errs]; simpl; constructor.
      simpl in Hk. apply andb_prop in Hk. destruct Hk as [Himp _].
      rewrite !expectedDelay_split.
      pose proof (cappedBackoff_mono baseDelay attempt Hb).
      destruct (throttlingError e1), (throttlingError e2); simpl in Himp;
        try discriminate; lia.
Qed.

(** C1 (amended).  A run of [withRetry] is a sequence of failed attempts
    [errs], in the order in which the operation raised them.  After attempt
    [n] has failed with a retryable error, the run sleeps the capped
    exponential backoff [min(baseDelay * 2^n, 30000)], plus 5000 when that
    very attempt failed with [ThrottlingException], and only then invokes
    the operation again; these are all the sleeps of the run.  The capped
    part never decreases with [n]; the delays themselves never decrease as
    long as no throttling failure is directly followed by a failure of
    another kind. *)
Theorem withRetry_delays {World T : Type} (fn : M World T) (name : string)
        (maxRetries : nat) (baseDelay : Z) (s : St World) :
  0 <= baseDelay ->
  single_request fn ->
  exists (errs : list Js.Error) (s' : St World),
    let delays := expectedDelays baseDelay 0 errs in
    (List.length errs <= maxRetries)%nat /\
    failedAttempts fn baseDelay 0 s errs s' /\
    endsAfter fn maxRetries errs s' (withRetry fn name maxRetries baseDelay s) /\
    sleeps (trace (snd (withRetry fn name maxRetries baseDelay s))) =
      sleeps (trace s) ++ delays /\
    (forall n e,
        nth_error errs n = Some e ->
        nth_error delays n =
        Some (Z.min (baseDelay * 2 ^ Z.of_nat n) 30000
              + (if throttlingError e then 5000 else 0))) /\
    (forall n, cappedBackoff baseDelay n <= cappedBackoff baseDelay (S n)) /\
    (penaltyKept errs = true -> Sorted Z.le delays).
Proof.
  intros Hb Hone.
  destruct (retryLoop_history fn name baseDelay maxRetries 0%nat Js.Undefined s)
    as (errs & s' & Hchain & Hend).
  fold (withRetry fn name maxRetries baseDelay s) in Hend.
  assert (Hends : endsAfter fn maxRetries errs s' (withRetry fn name maxRetries baseDelay s))
    by exact Hend.
  destruct (endsAfter_trace fn maxRetries errs s' _ Hone Hends) as (Hlen & Hsl & _).
  destruct (failedAttempts_trace fn baseDelay Hone errs 0%nat s s' Hchain) as [_ Hs].
  exists errs, s'. cbv zeta.
  split; [exact Hlen|]. split; [exact Hchain|]. split; [exact Hends|].
  split; [rewrite Hsl; exact Hs|]. split; [|split].
  - intros n e Hn. rewrite (expectedDelays_nth _ _ 0%nat n e Hn). reflexivity.
  - intros n. now apply cappedBackoff_mono.
  - now apply expectedDelays_sorted.
Qed.

(** C2 (amended).  [withRetry] invokes the operation at most [maxRetries]
    times.  A run is a sequence of attempts that failed with a retryable
    error and were each retried, and it ends in one of two ways.  Either
    one more invocation returns or raises a fatal error: the run returns
    that value, or throws that error, right after this invocation, which
    is not retried.  Or [maxRetries] attempts have failed: the run throws
    the error of the last of them, the very object the operation raised,
    with nothing added ([undefined] when [maxRetries] is 0, the operation
    not being invoked at all). *)
Theorem withRetry_attempts_and_propagation {World T : Type} (fn : M World T)
        (name : string) (maxRetries : nat) (baseDelay : Z) (s : St World) :
  single_request fn ->
  let r := withRetry fn name maxRetries baseDelay s in
  (requests_between s (snd r) <= maxRetries)%nat /\
  exists (errs : list Js.Error) (s' : St World),
    failedAttempts fn baseDelay 0 s errs s' /\
    endsAfter fn maxRetries errs s' r /\
    requests_between s (snd r) = Nat.min maxRetries (S (List.length errs)) /\
    (forall e s1,
        fn s' = (Throw (Js.Err e), s1) -> retryableError e = false ->
        (List.length errs < maxRetries)%nat ->
        r = (Throw (Js.Err e), s1) /\
        requests_between s s1 = S (List.length errs)) /\
    (List.length errs = maxRetries ->
     r = (Throw (last (map Js.Err errs) Js.Undefined), s') /\
     requests_between s s' = maxRetries).
Proof.
  intros Hone r.
  destruct (retryLoop_history fn name baseDelay maxRetries 0%nat Js.Undefined s)
    as (errs & s' & Hchain & Hend).
  fold (withRetry fn name maxRetries baseDelay s) in Hend. fold r in Hend.
  assert (Hends : endsAfter fn maxRetries errs s' r) by exact Hend.
  destruct (endsAfter_trace fn maxRetries errs s' r Hone Hends) as (Hlen & _ & Hcalls).
  destruct (failedAttempts_trace fn baseDelay Hone errs 0%nat s s' Hchain) as [Hc _].
  assert (Hreq : requests_between s (snd r) = Nat.min maxRetries (S (List.length errs))).
  { unfold requests_between. rewrite Hcalls, Hc. lia. }
  split; [rewrite Hreq; lia|].
  exists errs, s'. split; [exact Hchain|]. split; [exact Hends|]. split; [exact Hreq|].
  split.
  - intros e s1 Hfn Hfatal Hlt.
    destruct Hends as [[Heq _] | [_ Hm]]; [lia|].
    rewrite Hfn in Hm. destruct Hm as [_ Hr]. split; [exact Hr|].
    rewrite Hr in Hreq. cbn [snd] in Hreq. rewrite Hreq. lia.
  - intros Heq.
    destruct Hends as [[_ Hr] | [Hlt _]]; [|lia].
    split; [exact Hr|]. rewrite Hr in Hreq. cbn [snd] in Hreq. rewrite Hreq. lia.
Qed.

End RetryClaims.

Module QuickSightFacts.
Import QuickSight RetrySpec SubscriptionSpec AsyncFacts RetryFacts.

Section Handler.
Context {World : Type}.
Variable remote : Command -> World -> Outcome Output.t * World.
Variable AWS_REGION : option string.
Variable props : ResourceProperties.

Lemma withRetry_send_calls (c : Command) name maxRetries baseDelay (s : St World) :
  exists k : nat,
    (k <= maxRetries)%nat /\ (maxRetries = 0%nat \/ 1 <= k)%nat /\
    calls (trace (snd (withRetry (send remote c) name maxRetries baseDelay s))) =
    calls (trace s) ++ repeat c k.
Proof. apply retryLoop_send_calls. Qed.

Lemma withRetry_send_calls_run (c : Command) name maxRetries baseDelay (s s' : St World) o :
  withRetry (send remote c) name maxRetries baseDelay s = (o, s') ->
  exists k : nat,
    (k <= maxRetries)%nat /\ (maxRetries = 0%nat \/ 1 <= k)%nat /\
    calls (trace s') = calls (trace s) ++ repeat c k.
Proof.
  intros H. destruct (withRetry_send_calls c name maxRetries baseDelay s) as (k & H1 & H2 & H3).
  rewrite H in H3. exists k. auto.
Qed.

Lemma createSubscription_run (s : St World) :
  createSubscription remote props s =
  match createStep remote props s with
  | (Ret _, s') => (Ret tt, s')
  | (Throw e, s') => (Throw e, s')
  end.
Proof. reflexivity. Qed.

(** [createSubscription] sends the create request, between one and ten
    times, and nothing else. *)
Lemma createSubscription_calls (s s' : St World) o :
  createSubscription remote props s = (o, s') ->
  exists k : nat,
    (1 <= k <= 10)%nat /\ calls (trace s') = calls (trace s) ++ repeat (createCmd props) k.
Proof.
  rewrite createSubscription_run. intros H.
  destruct (createStep remote props s) as [o1 s1] eqn:Hw.
  apply withRetry_send_calls_run in Hw. destruct Hw as (k & Hle & [Hz|Hge] & Heq); [discriminate|].
  exists k. split; [lia|].
  destruct o1; injection H as _ <-; exact Heq.
Qed.

(** The [catch] block sends create requests only, ten at most. *)
Lemma catchBody_calls (err : Js.Thrown) (s s' : St World) o :
  catchBody remote props err s = (o, s') ->
  exists k : nat,
    (k <= 10)%nat /\ calls (trace s') = calls (trace s) ++ repeat (createCmd props) k.
Proof.
  unfold catchBody. destruct err as [|e].
  - intros H. injection H as _ <-. exists 0%nat. simpl. rewrite app_nil_r. split; [lia|reflexivity].
  - destruct (String.eqb (codeOf e) "ResourceNotFoundException").
    + unfold bind. destruct (createSubscription remote props s) as [o1 s1] eqn:Hc.
      apply createSubscription_calls in Hc. destruct Hc as (k & Hk & Heq).
      intros H. exists k. split; [lia|].
      destruct o1; injection H as _ <-; exact Heq.
    + intros H. exists 0%nat. simpl. rewrite app_nil_r. split; [lia|].
      destruct (_ || _); injection H as _ <-; reflexivity.
Qed.

Lemma handler_run (event : Event.t) (s : St World) :
  Event.ResourceProperties event = props ->
  Event.RequestType event <> Delete ->
  handler remote AWS_REGION event s =
  match tryBody remote AWS_REGION props s with
  | (Ret r, s') => (Ret r, s')
  | (Throw e, s') => catchBody remote props e s'
  end.
Proof.
  intros Hp Hrt. unfold handler. rewrite Hp.
  destruct (Event.RequestType event); try reflexivity. contradiction.
Qed.

Lemma tryBody_run (s : St World) :
  tryBody remote AWS_REGION props s =
  match describeStep remote props s with
  | (Throw e, s1) => (Throw e, s1)
  | (Ret response, s1) =>
      if Js.strict_eq (statusOf response) "ACCOUNT_CREATED" then
        match listStep remote props s1 with
        | (Throw e, s2) => (Throw e, s2)
        | (Ret nsResponse, s2) =>
            let capacityRegion := capacityRegionOf nsResponse in
            if Js.truthy capacityRegion && Js.strict_neq capacityRegion AWS_REGION then
              (Throw (Js.Err (Js.newError
                 ("QuickSight identity region " ++ Js.interp capacityRegion
                  ++ " doesn't match " ++ Js.interp AWS_REGION)%string)), s2)
            else (Ret (result (AwsAccountId props) "Existing"), s2)
        end
      else if Js.strict_eq (statusOf response) "UNSUBSCRIBE_FAILED" then
        match updateStep remote props s1 with
        | (Throw e, s2) => (Throw e, s2)
        | (Ret _, s2) =>
            match deleteStep remote props s2 with
            | (Throw e, s3) => (Throw e, s3)
            | (Ret _, s3) =>
                match createSubscription remote props s3 with
                | (Throw e, s4) => (Throw e, s4)
                | (Ret _, s4) => (Ret (result (AwsAccountId props) "Created"), s4)
                end
            end
        end
      else
        match createSubscription remote props s1 with
        | (Throw e, s4) => (Throw e, s4)
        | (Ret _, s4) => (Ret (result (AwsAccountId props) "Created"), s4)
        end
  end.
Proof.
  unfold tryBody, bind.
  change (withRetry (send remote (DescribeAccountSubscriptionCommand (AwsAccountId props)))
            "describeAccountSubscription" 5 2000) with (describeStep remote props).
  change (withRetry (send remote (ListNamespacesCommand (AwsAccountId props)))
            "listNamespaces" 3 2000) with (listStep remote props).
  change (withRetry (send remote (UpdateAccountSettingsCommand (AwsAccountId props) "default"
            (NotificationEmail props))) "updateAccountSettings" 10 2000)
    with (updateStep remote props).
  change (withRetry (send remote (DeleteAccountSubscriptionCommand (AwsAccountId props)))
            "deleteAccountSubscription" 10 2000) with (deleteStep remote props).
  destruct (describeStep remote props s) as [[response|e] s1]; [|reflexivity].
  destruct (Js.strict_eq (statusOf response) "ACCOUNT_CREATED").
  - destruct (listStep remote props s1) as [[ns|e] s2]; [|reflexivity].
    cbv zeta. destruct (_ && _); reflexivity.
  - destruct (Js.strict_eq (statusOf response) "UNSUBSCRIBE_FAILED").
    + destruct (updateStep remote props s1) as [[?|e] s2]; [|reflexivity].
      destruct (deleteStep remote props s2) as [[?|e] s3]; [|reflexivity].
      unfold ret. destruct (createSubscription remote props s3) as [[?|e] s4]; reflexivity.
    + unfold ret. destruct (createSubscription remote props s1) as [[?|e] s4]; reflexivity.
Qed.

(** An [InternalFailure] or [ThrottlingException] thrown inside the [try]
    block is turned into a partial-failure result. *)
Lemma handler_degrades_try_failure (event : Event.t) (s s' : St World) (e : Js.Error) :
  Event.ResourceProperties event = props ->
  Event.RequestType event <> Delete ->
  tryBody remote AWS_REGION props s = (Throw (Js.Err e), s') ->
  codeOf e = "InternalFailure" \/ codeOf e = "ThrottlingException" ->
  handler remote AWS_REGION event s =
  (Ret (result (AwsAccountId props) ("PartialFailure-" ++ codeOf e)%string), s').
Proof.
  intros Hp Hrt Htry Hcode. rewrite (handler_run event s Hp Hrt), Htry.
  unfold catchBody. destruct Hcode as [-> | ->]; reflexivity.
Qed.

(** An error of the create request sent from the [catch] block, after a
    [ResourceNotFoundException], leaves the handler as it is, whatever its
    name. *)
Lemma handler_rethrows_catch_failure (event : Event.t) (s s1 s2 : St World)
      (e0 e : Js.Error) :
  Event.ResourceProperties event = props ->
  Event.RequestType event <> Delete ->
  tryBody remote AWS_REGION props s = (Throw (Js.Err e0), s1) ->
  codeOf e0 = "ResourceNotFoundException" ->
  createStep remote props s1 = (Throw (Js.Err e), s2) ->
  handler remote AWS_REGION event s = (Throw (Js.Err e), s2).
Proof.
  intros Hp Hrt Htry Hcode Hcreate. rewrite (handler_run event s Hp Hrt), Htry.
  unfold catchBody. rewrite Hcode, String.eqb_refl, bind_run, createSubscription_run, Hcreate.
  reflexivity.
Qed.

(** Every value the Create and Update path returns carries the identifier
    derived from the account. *)
Lemma handler_result_id (event : Event.t) (s s' : St World) (r : Response.t) :
  Event.ResourceProperties event = props ->
  Event.RequestType event <> Delete ->
  handler remote AWS_REGION event s = (Ret r, s') ->
  Response.PhysicalResourceId r = physicalId (AwsAccountId props).
Proof.
  intros Hp Hrt. rewrite (handler_run event s Hp Hrt).
  assert (Hcatch : forall e s0,
             catchBody remote props e s0 = (Ret r, s') ->
             Response.PhysicalResourceId r = physicalId (AwsAccountId props)).
  { intros e s0. unfold catchBody. destruct e as [|e]; [discriminate|].
    destruct (String.eqb (codeOf e) "ResourceNotFoundException").
    - unfold bind, ret. destruct (createSubscription remote props s0) as [[?|?] ?];
        intros H; inversion H; reflexivity.
    - destruct (_ || _); intros H; inversion H; reflexivity. }
  rewrite tryBody_run.
  destruct (describeStep remote props s) as [[response|e] s1]; [|apply Hcatch].
  destruct (Js.strict_eq (statusOf response) "ACCOUNT_CREATED").
  - destruct (listStep remote props s1) as [[ns|e] s2]; [|apply Hcatch].
    cbv zeta. destruct (_ && _); [apply Hcatch|].
    intros H; inversion H; reflexivity.
  - destruct (Js.strict_eq (statusOf response) "UNSUBSCRIBE_FAILED").
    + destruct (updateStep remote props s1) as [[?|e] s2]; [|apply Hcatch].
      destruct (deleteStep remote props s2) as [[?|e] s3]; [|apply Hcatch].
      destruct (createSubscription remote props s3) as [[?|e] s4]; [|apply Hcatch].
      intros H; inversion H; reflexivity.
    + destruct (createSubscription remote props s1) as [[?|e] s4]; [|apply Hcatch].
      intros H; inversion H; reflexivity.
Qed.

End Handler.

Lemma filter_repeat_false {A : Type} (f : A -> bool) (x : A) (k : nat) :
  f x = false -> filter f (repeat x k) = [].
Proof. intros H. induction k; simpl; [reflexivity | now rewrite H]. Qed.

Lemma strict_eq_other (status : option string) (a b : string) :
  status = Some a -> String.eqb a b = false -> Js.strict_eq status b = false.
Proof. intros -> H. exact H. Qed.

(** C4 (amended).  On Create or Update, when the status read is
    [UNSUBSCRIBE_FAILED] and both the settings update and the delete succeed
    within their retries, the handler sends, after the describe requests,
    the settings update, then the delete, then the create, and nothing else:
    the create requests all come after the delete. *)
Theorem unsubscribe_failed_update_delete_create {World : Type}
        (remote : Command -> World -> Outcome Output.t * World) (AWS_REGION : option string)
        (event : Event.t) (s s1 s2 s3 : St World) (response o2 o3 : Output.t) :
  Event.RequestType event <> Delete ->
  describeStep remote (Event.ResourceProperties event) s = (Ret response, s1) ->
  statusOf response = Some "UNSUBSCRIBE_FAILED" ->
  updateStep remote (Event.ResourceProperties event) s1 = (Ret o2, s2) ->
  deleteStep remote (Event.ResourceProperties event) s2 = (Ret o3, s3) ->
  exists kd ku kx kc : nat,
    (1 <= kd <= 5 /\ 1 <= ku <= 10 /\ 1 <= kx <= 10 /\ 1 <= kc <= 20)%nat /\
    calls (trace (snd (handler remote AWS_REGION event s))) =
    calls (trace s)
      ++ repeat (describeCmd (Event.ResourceProperties event)) kd
      ++ repeat (updateCmd (Event.ResourceProperties event)) ku
      ++ repeat (deleteCmd (Event.ResourceProperties event)) kx
      ++ repeat (createCmd (Event.ResourceProperties event)) kc.
Proof.
  set (props := Event.ResourceProperties event).
  intros Hrt Hdesc Hstatus Hupd Hdel.
  rewrite (handler_run remote AWS_REGION props event s eq_refl Hrt), tryBody_run, Hdesc.
  rewrite (strict_eq_other _ "UNSUBSCRIBE_FAILED" "ACCOUNT_CREATED" Hstatus eq_refl).
  unfold Js.strict_eq. rewrite Hstatus. simpl String.eqb. cbv iota.
  rewrite Hupd, Hdel.
  apply withRetry_send_calls_run in Hdesc, Hupd, Hdel.
  destruct Hdesc as (kd & Hd1 & [Hd0|Hd2] & Hd); [discriminate|].
  destruct Hupd as (ku & Hu1 & [Hu0|Hu2] & Hu); [discriminate|].
  destruct Hdel as (kx & Hx1 & [Hx0|Hx2] & Hx); [discriminate|].
  destruct (createSubscription remote props s3) as [o4 s4] eqn:Hcreate.
  apply createSubscription_calls in Hcreate. destruct Hcreate as (k1 & Hk1 & Hc1).
  assert (Hpre : calls (trace s4) =
                 calls (trace s) ++ repeat (describeCmd props) kd
                   ++ repeat (updateCmd props) ku ++ repeat (deleteCmd props) kx
                   ++ repeat (createCmd props) k1).
  { rewrite Hc1, Hx, Hu, Hd, <- !app_assoc. reflexivity. }
  destruct o4 as [[]|e].
  - exists kd, ku, kx, k1. split; [lia|]. exact Hpre.
  - destruct (catchBody remote props e s4) as [o5 s5] eqn:Hcatch.
    apply catchBody_calls in Hcatch. destruct Hcatch as (k2 & Hk2 & Hc2).
    exists kd, ku, kx, (k1 + k2)%nat. split; [lia|].
    cbn [snd]. rewrite Hc2, Hpre, repeat_app, <- !app_assoc. reflexivity.
Qed.

(** C5 (amended).  On Create or Update, when the describe request returns
    the status [ACCOUNT_CREATED] and the namespaces are listed, the handler
    sends no mutating request.  When the first namespace reports a capacity
    region, not empty, that differs from [AWS_REGION], the handler throws
    the error of the region check; when it reports the region of
    [AWS_REGION], or no region at all, the handler returns
    [Status: 'Existing']. *)
Theorem account_created_region_check {World : Type}
        (remote : Command -> World -> Outcome Output.t * World) (AWS_REGION : option string)
        (event : Event.t) (s s1 s2 : St World) (response nsResponse : Output.t)
        (info : AccountInfo) :
  Event.RequestType event <> Delete ->
  describeStep remote (Event.ResourceProperties event) s = (Ret response, s1) ->
  Output.AccountInfo response = Some info ->
  AccountSubscriptionStatus info = Some "ACCOUNT_CREATED" ->
  listStep remote (Event.ResourceProperties event) s1 = (Ret nsResponse, s2) ->
  filter mutating (calls (trace (snd (handler remote AWS_REGION event s)))) =
    filter mutating (calls (trace s)) /\
  (forall ns rest region,
      Output.Namespaces nsResponse = Some (ns :: rest) ->
      CapacityRegion ns = Some region ->
      region <> EmptyString ->
      AWS_REGION <> Some region ->
      handler remote AWS_REGION event s =
      (Throw (Js.Err (regionMismatch region AWS_REGION)), s2)) /\
  (forall ns rest region,
      Output.Namespaces nsResponse = Some (ns :: rest) ->
      CapacityRegion ns = Some region ->
      AWS_REGION = Some region ->
      handler remote AWS_REGION event s = (Ret (existing (Event.ResourceProperties event)), s2)) /\
  (Output.Namespaces nsResponse = None \/
   Output.Namespaces nsResponse = Some [] \/
   (exists ns rest,
       Output.Namespaces nsResponse = Some (ns :: rest) /\
       (CapacityRegion ns = None \/ CapacityRegion ns = Some EmptyString)) ->
   handler remote AWS_REGION event s = (Ret (existing (Event.ResourceProperties event)), s2)).
Proof.
  set (props := Event.ResourceProperties event).
  intros Hrt Hdesc Hinfo Hstatus Hlist.
  assert (Hst : statusOf response = Some "ACCOUNT_CREATED").
  { unfold statusOf. rewrite Hinfo. exact Hstatus. }
  rewrite (handler_run remote AWS_REGION props event s eq_refl Hrt), tryBody_run, Hdesc.
  unfold Js.strict_eq at 1. rewrite Hst. simpl String.eqb. cbv iota.
  rewrite Hlist. cbv zeta.
  apply withRetry_send_calls_run in Hdesc, Hlist.
  destruct Hdesc as (kd & _ & _ & Hd). destruct Hlist as (kl & _ & _ & Hl).
  assert (Hquiet : filter mutating (calls (trace s2)) = filter mutating (calls (trace s))).
  { rewrite Hl, Hd, !filter_app, !filter_repeat_false by reflexivity.
    now rewrite !app_nil_r. }
  split; [|split; [|split]].
  - destruct (_ && _); exact Hquiet.
  - intros ns rest region Hns Hcr Hne Hmis.
    unfold capacityRegionOf. rewrite Hns, Hcr.
    assert (Ht : Js.truthy (Some region) = true).
    { simpl. destruct (String.eqb_spec region EmptyString); [contradiction|reflexivity]. }
    assert (Hn : Js.strict_neq (Some region) AWS_REGION = true).
    { destruct AWS_REGION as [r|]; simpl; [|reflexivity].
      destruct (String.eqb_spec region r); [subst; contradiction|reflexivity]. }
    rewrite Ht, Hn. cbn [andb catchBody]. unfold regionMismatch.
    destruct AWS_REGION; reflexivity.
  - intros ns rest region Hns Hcr Heq.
    unfold capacityRegionOf. rewrite Hns, Hcr, Heq.
    cbn [Js.strict_neq]. rewrite String.eqb_refl, andb_false_r. reflexivity.
  - intros [Hns | [Hns | (ns & rest & Hns & [Hcr | Hcr])]];
      unfold capacityRegionOf; rewrite Hns; try rewrite Hcr; reflexivity.
Qed.

(** C7 (amended).  On Create or Update, when the describe request ends in
    [ResourceNotFoundException] and the first create request succeeds, the
    handler sends exactly one create request and returns the identifier
    [quicksight-subscription-<account>] with [Status: 'Created'].  Every
    value the Create and Update path returns for an account carries that
    same identifier, whatever the other properties and the remote state. *)
Theorem create_when_not_found {World : Type}
        (remote : Command -> World -> Outcome Output.t * World) (AWS_REGION : option string)
        (event : Event.t) (s s1 : St World) (e : Js.Error) (out : Output.t) (w2 : World) :
  Event.RequestType event <> Delete ->
  describeStep remote (Event.ResourceProperties event) s = (Throw (Js.Err e), s1) ->
  codeOf e = "ResourceNotFoundException" ->
  remote (createCmd (Event.ResourceProperties event)) (world s1) = (Ret out, w2) ->
  handler remote AWS_REGION event s =
    (Ret {| Response.PhysicalResourceId :=
              ("quicksight-subscription-" ++ AwsAccountId (Event.ResourceProperties event))%string;
            Response.Data := Some {| Response.Status := "Created" |} |},
     {| world := w2;
        trace := trace s1 ++ [Sent (createCmd (Event.ResourceProperties event))] |}) /\
  filter isCreate (calls (trace (snd (handler remote AWS_REGION event s)))) =
    filter isCreate (calls (trace s)) ++ [createCmd (Event.ResourceProperties event)] /\
  (forall (AWS_REGION' : option string) (event' : Event.t) (t t' : St World) (r : Response.t),
      Event.RequestType event' <> Delete ->
      AwsAccountId (Event.ResourceProperties event') =
        AwsAccountId (Event.ResourceProperties event) ->
      handler remote AWS_REGION' event' t = (Ret r, t') ->
      Response.PhysicalResourceId r =
        ("quicksight-subscription-" ++ AwsAccountId (Event.ResourceProperties event))%string).
Proof.
  set (props := Event.ResourceProperties event).
  intros Hrt Hdesc Hcode Hcreate.
  assert (Hrun : handler remote AWS_REGION event s =
                 (Ret (result (AwsAccountId props) "Created"),
                  {| world := w2; trace := trace s1 ++ [Sent (createCmd props)] |})).
  { rewrite (handler_run remote AWS_REGION props event s eq_refl Hrt), tryBody_run, Hdesc.
    unfold catchBody. rewrite Hcode, String.eqb_refl.
    unfold bind. rewrite createSubscription_run.
    unfold createStep, withRetry. rewrite retryLoop_S, (send_run remote), Hcreate.
    reflexivity. }
  split; [exact Hrun|]. split.
  - rewrite Hrun. cbn [snd trace].
    apply withRetry_send_calls_run in Hdesc. destruct Hdesc as (kd & _ & _ & Hd).
    rewrite calls_app, Hd, !filter_app, filter_repeat_false by reflexivity.
    now rewrite app_nil_r.
  - intros AWS_REGION' event' t t' r Hrt' Hacc Hret.
    rewrite <- Hacc.
    exact (handler_result_id remote AWS_REGION' _ event' t t' r eq_refl Hrt' Hret).
Qed.

End QuickSightFacts.

(** ** Worked runs of the subscription handler *)

Module QuickSightRuns.
Import QuickSight RetrySpec SubscriptionSpec AsyncFacts RetryFacts RetryClaims QuickSightFacts.
Import Scenario.

(** A witness of [withRetry_delays]: two throttled attempts, then success. *)
Lemma withRetry_delays_witness :
  let fn := send QS.remote QS.delete in
  let s := start [Throw (Js.Err throttled); Throw (Js.Err throttled); Ret Output.empty] in
  0 <= 2000 /\
  exists (errs : list Js.Error) (s' : St (list (Outcome Output.t))),
    let delays := expectedDelays 2000 0 errs in
    (List.length errs <= 10)%nat /\
    failedAttempts fn 2000 0 s errs s' /\
    endsAfter fn 10 errs s' (withRetry fn "deleteAccountSubscription" 10 2000 s) /\
    sleeps (trace (snd (withRetry fn "deleteAccountSubscription" 10 2000 s))) =
      sleeps (trace s) ++ delays /\
    (forall n e,
        nth_error errs n = Some e ->
        nth_error delays n =
        Some (Z.min (2000 * 2 ^ Z.of_nat n) 30000
              + (if throttlingError e then 5000 else 0))) /\
    (forall n, cappedBackoff 2000 n <= cappedBackoff 2000 (S n)) /\
    (penaltyKept errs = true -> Sorted Z.le delays).
Proof.
  cbv zeta. split; [lia|].
  apply (withRetry_delays (send QS.remote QS.delete) "deleteAccountSubscription" 10 2000
           (start [Throw (Js.Err throttled); Throw (Js.Err throttled); Ret Output.empty])).
  - lia.
  - apply send_single_request.
Defined.

(** The run of that witness: the failed attempts are the two throttled
    ones, in this order, and the delays are 7000 and 9000 ms. *)
Example withRetry_delays_run :
  let fn := send QS.remote QS.delete in
  let s := start [Throw (Js.Err throttled); Throw (Js.Err throttled); Ret Output.empty] in
  let s' := {| world := [Ret Output.empty];
               trace := [Sent QS.delete; Slept 7000; Sent QS.delete; Slept 9000] |} in
  failedAttempts fn 2000 0 s [throttled; throttled] s' /\
  endsAfter fn 10 [throttled; throttled] s'
            (withRetry fn "deleteAccountSubscription" 10 2000 s) /\
  expectedDelays 2000 0 [throttled; throttled] = [7000; 9000] /\
  penaltyKept [throttled; throttled] = true.
Proof.
  cbv zeta. split; [|split; [|split; reflexivity]].
  - cbn [failedAttempts]. split; [reflexivity|]. eexists. split; [reflexivity|].
    split; [reflexivity|]. eexists. split; [reflexivity|]. reflexivity.
  - right. split; [simpl; lia|]. reflexivity.
Qed.

(** C1, as stated, fails: a throttled attempt followed by an attempt that
    fails with [InternalFailure] is slept 7000 ms and then 4000 ms, both
    below the cap. *)
Lemma withRetry_delays_not_monotone :
  let r := withRetry (send QS.remote QS.delete) "deleteAccountSubscription" 10 2000
             (start [Throw (Js.Err throttled); Throw (Js.Err internalFailure);
                     Ret Output.empty]) in
  sleeps (trace (snd r)) = [7000; 4000] /\
  ~ Sorted Z.le (sleeps (trace (snd r))).
Proof.
  cbv zeta. split; [vm_compute; reflexivity|].
  intros H. vm_compute in H.
  inversion H as [|? ? _ Hhd]. inversion Hhd as [|? ? Hle]. apply Hle. reflexivity.
Qed.

(** A witness of [withRetry_attempts_and_propagation]: the first attempt
    fails with a retryable error, the second with a fatal one. *)
Lemma withRetry_attempts_and_propagation_witness :
  let s := start [Throw (Js.Err internalFailure); Throw (Js.Err accessDenied);
                  Ret Output.empty] in
  let fn := send QS.remote QS.delete in
  let r := withRetry fn "deleteAccountSubscription" 3 2000 s in
  (requests_between s (snd r) <= 3)%nat /\
  exists (errs : list Js.Error) (s' : St (list (Outcome Output.t))),
    failedAttempts fn 2000 0 s errs s' /\
    endsAfter fn 3 errs s' r /\
    requests_between s (snd r) = Nat.min 3 (S (List.length errs)) /\
    (forall e s1,
        fn s' = (Throw (Js.Err e), s1) -> retryableError e = false ->
        (List.length errs < 3)%nat ->
        r = (Throw (Js.Err e), s1) /\
        requests_between s s1 = S (List.length errs)) /\
    (List.length errs = 3%nat ->
     r = (Throw (last (map Js.Err errs) Js.Undefined), s') /\
     requests_between s s' = 3%nat).
Proof.
  exact (withRetry_attempts_and_propagation (send QS.remote QS.delete)
           "deleteAccountSubscription" 3 2000
           (start [Throw (Js.Err internalFailure); Throw (Js.Err accessDenied);
                   Ret Output.empty])
           (send_single_request QS.remote QS.delete)).
Defined.

(** The run of that witness: the fatal error of the second attempt is
    thrown at once, the third answer of the service is never asked for. *)
Example withRetry_fatal_after_retry :
  let s := start [Throw (Js.Err internalFailure); Throw (Js.Err accessDenied);
                  Ret Output.empty] in
  withRetry (send QS.remote QS.delete) "deleteAccountSubscription" 3 2000 s =
  (Throw (Js.Err accessDenied),
   {| world := [Ret Output.empty];
      trace := [Sent QS.delete; Slept 2000; Sent QS.delete] |}).
Proof. reflexivity. Qed.

(** C2, as stated, fails: after three failed attempts out of three the
    value thrown is the error object of the last attempt itself, without
    any tag. *)
Lemma withRetry_exhausted_not_tagged :
  let s := start [Throw (Js.Err internalFailure); Throw (Js.Err internalFailure);
                  Throw (Js.Err internalFailure)] in
  let r := withRetry (send QS.remote QS.delete) "deleteAccountSubscription" 3 2000 s in
  requests_between s (snd r) = 3%nat /\
  exists x, fst r = Throw x /\ ~ exhausted_tagged internalFailure x.
Proof.
  cbv zeta. split; [vm_compute; reflexivity|].
  exists (Js.Err internalFailure). split; [vm_compute; reflexivity|].
  intros H. apply H. reflexivity.
Qed.

(** A witness of [unsubscribe_failed_update_delete_create]: the update is
    throttled once. *)
Lemma unsubscribe_failed_update_delete_create_witness :
  exists kd ku kx kc : nat,
    (1 <= kd <= 5 /\ 1 <= ku <= 10 /\ 1 <= kx <= 10 /\ 1 <= kc <= 20)%nat /\
    calls (trace (snd (handler QS.remote QS.region (QS.event Create QS.props)
                         (start [Ret (QS.withStatus "UNSUBSCRIBE_FAILED");
                                 Throw (Js.Err throttled); Ret Output.empty;
                                 Ret Output.empty; Ret Output.empty])))) =
    calls (@trace Command _ (start [Ret (QS.withStatus "UNSUBSCRIBE_FAILED");
                                    Throw (Js.Err throttled); Ret Output.empty;
                                    Ret Output.empty; Ret Output.empty]))
      ++ repeat QS.describe kd ++ repeat QS.update ku
      ++ repeat QS.delete kx ++ repeat QS.create kc.
Proof.
  apply (unsubscribe_failed_update_delete_create QS.remote QS.region (QS.event Create QS.props)
           (start [Ret (QS.withStatus "UNSUBSCRIBE_FAILED");
                   Throw (Js.Err throttled); Ret Output.empty;
                   Ret Output.empty; Ret Output.empty])
           {| world := [Throw (Js.Err throttled); Ret Output.empty;
                        Ret Output.empty; Ret Output.empty];
              trace := [Sent QS.describe] |}
           {| world := [Ret Output.empty; Ret Output.empty];
              trace := [Sent QS.describe; Sent QS.update; Slept 7000; Sent QS.update] |}
           {| world := [Ret Output.empty];
              trace := [Sent QS.describe; Sent QS.update; Slept 7000; Sent QS.update;
                        Sent QS.delete] |}
           (QS.withStatus "UNSUBSCRIBE_FAILED") Output.empty Output.empty).
  - discriminate.
  - reflexivity.
  - reflexivity.
  - reflexivity.
  - reflexivity.
Defined.

(** C4, as stated, fails: when the settings update is answered with
    [ResourceNotFoundException], the [catch] block creates the subscription
    and no delete request is ever sent. *)
Lemma unsubscribe_failed_create_without_delete :
  let r := handler QS.remote QS.region (QS.event Create QS.props)
             (start [Ret (QS.withStatus "UNSUBSCRIBE_FAILED");
                     Throw (Js.Err notFound); Ret Output.empty]) in
  fst r = Ret (result QS.account "Created") /\
  calls (trace (snd r)) = [QS.describe; QS.update; QS.create] /\
  filter isDelete (calls (trace (snd r))) = [].
Proof. cbv zeta. repeat split; vm_compute; reflexivity. Qed.

(** A witness of [account_created_region_check]: the capacity region is
    another region than the one of the invocation, and the handler throws
    without having changed anything. *)
Lemma account_created_region_check_witness :
  let s := start [Ret (QS.withStatus "ACCOUNT_CREATED");
                  Ret (QS.withRegion (Some "eu-west-1"))] in
  filter mutating (calls (trace (snd (handler QS.remote QS.region (QS.event Create QS.props) s)))) =
    filter mutating (calls (trace s)) /\
  handler QS.remote QS.region (QS.event Create QS.props) s =
  (Throw (Js.Err {| Js.name := Some "Error";
                    Js.retryable := None;
                    Js.message :=
                      "QuickSight identity region eu-west-1 doesn't match us-east-1" |}),
   {| world := []; trace := [Sent QS.describe; Sent QS.listNamespaces] |}).
Proof.
  cbv zeta.
  destruct (account_created_region_check QS.remote QS.region (QS.event Create QS.props)
              (start [Ret (QS.withStatus "ACCOUNT_CREATED");
                      Ret (QS.withRegion (Some "eu-west-1"))])
              {| world := [Ret (QS.withRegion (Some "eu-west-1"))];
                 trace := [Sent QS.describe] |}
              {| world := []; trace := [Sent QS.describe; Sent QS.listNamespaces] |}
              (QS.withStatus "ACCOUNT_CREATED") (QS.withRegion (Some "eu-west-1"))
              {| AccountSubscriptionStatus := Some "ACCOUNT_CREATED" |})
    as (Hquiet & Hmismatch & _).
  - discriminate.
  - reflexivity.
  - reflexivity.
  - reflexivity.
  - reflexivity.
  - split; [exact Hquiet|].
    apply (Hmismatch {| CapacityRegion := Some "eu-west-1" |} [] "eu-west-1");
      [reflexivity | reflexivity | discriminate | discriminate].
Defined.

(** C5, as stated, fails: the status read is [ACCOUNT_CREATED], but the
    listing of the namespaces is answered with [ResourceNotFoundException];
    the [catch] block then sends a create request and the handler returns
    [Status: 'Created']. *)
Lemma account_created_listing_fails_creates :
  let r := handler QS.remote QS.region (QS.event Create QS.props)
             (start [Ret (QS.withStatus "ACCOUNT_CREATED");
                     Throw (Js.Err notFound); Ret Output.empty]) in
  fst r = Ret (result QS.account "Created") /\
  calls (trace (snd r)) = [QS.describe; QS.listNamespaces; adminOnlyCreate QS.props] /\
  filter mutating (calls (trace (snd r))) = [adminOnlyCreate QS.props].
Proof. cbv zeta. repeat split; vm_compute; reflexivity. Qed.

(** C6.  The degraded result is missed on the not-found path: when the
    describe request is answered with [ResourceNotFoundException] and the
    create request fails ten times with [InternalFailure], the handler
    throws that error; when the describe request succeeds and the create
    request fails in the same way, it returns
    [PartialFailure-InternalFailure]. *)
Theorem partial_failure_missed_after_not_found :
  let failures := repeat (@Throw Output.t (Js.Err internalFailure)) 10 in
  let missed := handler QS.remote QS.region (QS.event Create QS.props)
                  (start (Throw (Js.Err notFound) :: failures)) in
  let degraded := handler QS.remote QS.region (QS.event Create QS.props)
                    (start (Ret (QS.withStatus "UNSUBSCRIBED") :: failures)) in
  fst missed = Throw (Js.Err internalFailure) /\
  calls (trace (snd missed)) = QS.describe :: repeat QS.create 10 /\
  fst degraded = Ret (result QS.account "PartialFailure-InternalFailure") /\
  calls (trace (snd degraded)) = QS.describe :: repeat QS.create 10.
Proof. cbv zeta. repeat split; vm_compute; reflexivity. Qed.

(** Without a capacity region in the answer, the region check is skipped
    and the subscription is taken as existing. *)
Example account_created_without_region :
  handler QS.remote QS.region (QS.event Update QS.props)
    (start [Ret (QS.withStatus "ACCOUNT_CREATED"); Ret (QS.withRegion None)]) =
  (Ret (result QS.account "Existing"),
   {| world := []; trace := [Sent QS.describe; Sent QS.listNamespaces] |}).
Proof. reflexivity. Qed.

(** The same region on both sides: nothing is changed. *)
Example account_created_same_region :
  handler QS.remote QS.region (QS.event Create QS.props)
    (start [Ret (QS.withStatus "ACCOUNT_CREATED"); Ret (QS.withRegion (Some "us-east-1"))]) =
  (Ret (result QS.account "Existing"),
   {| world := []; trace := [Sent QS.describe; Sent QS.listNamespaces] |}).
Proof. reflexivity. Qed.

(** Delete is skipped: no request, and the previous identifier is kept. *)
Example delete_is_skipped :
  handler QS.remote QS.region
    {| Event.RequestType := Delete;
       Event.ResourceProperties := QS.props;
       Event.OldResourceProperties := None;
       Event.PhysicalResourceId := Some "quicksight-subscription-123456789012" |}
    (start [Throw (Js.Err internalFailure)]) =
  (Ret {| Response.PhysicalResourceId := "quicksight-subscription-123456789012";
          Response.Data := None |},
   start [Throw (Js.Err internalFailure)]).
Proof. reflexivity. Qed.

(** A witness of [create_when_not_found]. *)
Lemma create_when_not_found_witness :
  let s := start [Throw (Js.Err notFound); Ret Output.empty] in
  let event := QS.event Create QS.props in
  handler QS.remote QS.region event s =
    (Ret {| Response.PhysicalResourceId :=
              ("quicksight-subscription-" ++ AwsAccountId (Event.ResourceProperties event))%string;
            Response.Data := Some {| Response.Status := "Created" |} |},
     {| world := [];
        trace := [Sent QS.describe] ++ [Sent (createCmd (Event.ResourceProperties event))] |}) /\
  filter isCreate (calls (trace (snd (handler QS.remote QS.region event s)))) =
    filter isCreate (calls (trace s)) ++ [createCmd (Event.ResourceProperties event)] /\
  (forall (AWS_REGION' : option string) (event' : Event.t)
          (t t' : St (list (Outcome Output.t))) (r : Response.t),
      Event.RequestType event' <> Delete ->
      AwsAccountId (Event.ResourceProperties event') =
        AwsAccountId (Event.ResourceProperties event) ->
      handler QS.remote AWS_REGION' event' t = (Ret r, t') ->
      Response.PhysicalResourceId r =
        ("quicksight-subscription-" ++ AwsAccountId (Event.ResourceProperties event))%string).
Proof.
  apply (create_when_not_found QS.remote QS.region (QS.event Create QS.props)
           (start [Throw (Js.Err notFound); Ret Output.empty])
           {| world := [Ret Output.empty]; trace := [Sent QS.describe] |}
           notFound Output.empty []).
  - discriminate.
  - reflexivity.
  - reflexivity.
  - reflexivity.
Defined.

(** C7, as stated, fails: the identifier returned is not [sub-<account>],
    and a create request that is throttled once is sent twice. *)
Lemma create_when_not_found_id_and_retries :
  (exists r s',
      handler QS.remote QS.region (QS.event Create QS.props)
        (start [Throw (Js.Err notFound); Ret Output.empty]) = (Ret r, s') /\
      Response.PhysicalResourceId r <> ("sub-" ++ QS.account)%string) /\
  filter isCreate
    (calls (trace (snd (handler QS.remote QS.region (QS.event Create QS.props)
                          (start [Throw (Js.Err notFound); Throw (Js.Err throttled);
                                  Ret Output.empty]))))) =
  [QS.create; QS.create].
Proof.
  split.
  - eexists. eexists. split; [vm_compute; reflexivity|]. vm_compute. discriminate.
  - vm_compute. reflexivity.
Qed.

End QuickSightRuns.

(** ** The AD automation handler *)

Module AdAutomationFacts.
Import AdAutomation AsyncFacts.

Section Handler.
Context {World : Type}.
Variable remote : Command -> World -> Outcome Output.t * World.
Variable rt : Runtime World.
Variable env : Env.

Lemma pollLoop_S (instanceId commandId : string) (remaining : nat) (s : St World) :
  pollLoop remote instanceId commandId (S remaining) s =
  let s1 := {| world := snd (remote (GetCommandInvocationCommand commandId instanceId) (world s));
               trace := trace s ++ [Sent (GetCommandInvocationCommand commandId instanceId)] |} in
  match fst (remote (GetCommandInvocationCommand commandId instanceId) (world s)) with
  | Ret result =>
      if isTerminal (Js.nullish (Output.Status result) EmptyString) then (Ret tt, s1)
      else pollLoop remote instanceId commandId remaining (snd (sleep 10000 s1))
  | Throw _ => pollLoop remote instanceId commandId remaining (snd (sleep 10000 s1))
  end.
Proof.
  simpl. unfold bind, try_catch. rewrite (send_run remote).
  destruct (fst (remote (GetCommandInvocationCommand commandId instanceId) (world s)))
    as [result|e]; simpl; [|reflexivity].
  destruct (isTerminal _); reflexivity.
Qed.

(** The polling loop never throws, and sends status requests only. *)
Lemma pollLoop_returns (instanceId commandId : string) :
  forall remaining s,
    fst (pollLoop remote instanceId commandId remaining s) = Ret tt /\
    exists k : nat,
      (k <= remaining)%nat /\
      calls (trace (snd (pollLoop remote instanceId commandId remaining s))) =
      calls (trace s) ++ repeat (GetCommandInvocationCommand commandId instanceId) k.
Proof.
  induction remaining as [|remaining IH]; intros s.
  - split; [reflexivity|]. exists 0%nat. simpl. rewrite app_nil_r. auto.
  - rewrite pollLoop_S. cbv zeta.
    set (c := GetCommandInvocationCommand commandId instanceId).
    set (s1 := {| world := snd (remote c (world s)); trace := trace s ++ [Sent c] |}).
    assert (H1 : calls (trace s1) = calls (trace s) ++ [c]).
    { subst s1. cbn [trace]. rewrite calls_app. reflexivity. }
    assert (Hrec : fst (pollLoop remote instanceId commandId remaining (snd (sleep 10000 s1))) = Ret tt /\
                   exists k : nat, (k <= S remaining)%nat /\
                     calls (trace (snd (pollLoop remote instanceId commandId remaining
                                          (snd (sleep 10000 s1))))) =
                     calls (trace s) ++ repeat c k).
    { destruct (IH (snd (sleep 10000 s1))) as (Hret & k & Hk & Heq).
      split; [exact Hret|]. exists (S k). split; [lia|].
      rewrite Heq. unfold sleep. cbn [snd trace]. rewrite calls_app, H1. simpl.
      rewrite app_nil_r, <- app_assoc. reflexivity. }
    destruct (fst (remote c (world s))) as [result|e]; [|exact Hrec].
    destruct (isTerminal _); [|exact Hrec].
    split; [reflexivity|]. exists 1%nat. split; [lia|]. exact H1.
Qed.

End Handler.

(** C3 (amended).  [waitForCommand] never throws: it returns the same
    value, [undefined], whether a poll observed [Success], [Failed] or
    [Cancelled], or the ninety polls were used up; it sends at most ninety
    status requests and nothing else. *)
Theorem waitForCommand_returns {World : Type}
        (remote : Command -> World -> Outcome Output.t * World)
        (instanceId commandId : string) (s : St World) :
  fst (waitForCommand remote instanceId commandId s) = Ret tt /\
  exists k : nat,
    (k <= 90)%nat /\
    calls (trace (snd (waitForCommand remote instanceId commandId s))) =
    calls (trace s) ++ repeat (GetCommandInvocationCommand commandId instanceId) k.
Proof.
  unfold waitForCommand. destruct (String.eqb commandId EmptyString).
  - split; [reflexivity|]. exists 0%nat. simpl. rewrite app_nil_r. split; [lia|reflexivity].
  - unfold bind. cbn [sleep].
    destruct (pollLoop_returns remote instanceId commandId 90
                {| world := world s; trace := trace s ++ [Slept 30000] |})
      as (Hret & k & Hk & Heq).
    split; [exact Hret|]. exists k. split; [exact Hk|].
    rewrite Heq. cbn [trace]. rewrite calls_app. simpl. now rewrite app_nil_r.
Qed.

(** C8 (amended).  On Create or Update, once the instance is launched, an
    error thrown while waiting for the running state, or by the domain join
    and script step, is what the handler throws: no result is returned.
    The instance identifier is returned when both steps complete. *)
Theorem post_launch_failure_propagates {World : Type}
        (remote : Command -> World -> Outcome Output.t * World)
        (rt : Runtime World) (env : Env) (event : EventProps.t)
        (s s1 s2 : St World) (dnsIps : list string) (keyPairInfo : KeyPairInfo)
        (instanceId : string) :
  EventProps.RequestType event <> Delete ->
  JSON_parse_dnsIps rt (Js.nullish (DNS_IPS env) "[]") = Some dnsIps ->
  getOrCreateKeyPair remote rt (KeyPairSecretArn (EventProps.ResourceProperties event)) s =
    (Ret keyPairInfo, s1) ->
  launchEC2Instance remote rt env
    (SubnetId (EventProps.ResourceProperties event))
    (SecurityGroupId (EventProps.ResourceProperties event))
    (InstanceType (EventProps.ResourceProperties event))
    (keyName keyPairInfo) s1 = (Ret instanceId, s2) ->
  (forall e s3,
      waitForInstance remote instanceId s2 = (Throw e, s3) ->
      handler remote rt env event s = (Throw e, s3)) /\
  (forall u e s3 s4,
      waitForInstance remote instanceId s2 = (Ret u, s3) ->
      joinDomain remote rt env instanceId (DirectoryId (EventProps.ResourceProperties event))
                 (Js.nullish (DOMAIN_NAME env) EmptyString) dnsIps s3 = (Throw e, s4) ->
      handler remote rt env event s = (Throw e, s4)) /\
  (forall u u' s3 s4,
      waitForInstance remote instanceId s2 = (Ret u, s3) ->
      joinDomain remote rt env instanceId (DirectoryId (EventProps.ResourceProperties event))
                 (Js.nullish (DOMAIN_NAME env) EmptyString) dnsIps s3 = (Ret u', s4) ->
      handler remote rt env event s =
      (Ret {| Response.PhysicalResourceId := instanceId;
              Response.Data := Some {| Response.InstanceId := instanceId |} |}, s4)).
Proof.
  intros Hrt Hdns Hkey Hlaunch.
  assert (Hrun : handler remote rt env event s =
                 provision remote rt env (EventProps.ResourceProperties event) s).
  { unfold handler. destruct (EventProps.RequestType event); try reflexivity. contradiction. }
  rewrite Hrun. unfold provision. rewrite Hdns.
  rewrite bind_run, Hkey, bind_run, Hlaunch.
  split; [|split].
  - intros e s3 Hwait. rewrite bind_run, Hwait. reflexivity.
  - intros u e s3 s4 Hwait Hjoin. rewrite bind_run, Hwait, bind_run, Hjoin. reflexivity.
  - intros u u' s3 s4 Hwait Hjoin. rewrite bind_run, Hwait, bind_run, Hjoin. reflexivity.
Qed.

(** C9.  On Delete, a previous identifier that does not start with [i-]
    (or no identifier at all) makes the handler return at once, without
    any request; one that does makes it send exactly one request, the
    termination of that instance. *)
Theorem delete_terminates_instances_only {World : Type}
        (remote : Command -> World -> Outcome Output.t * World)
        (rt : Runtime World) (env : Env) (event : EventProps.t) (s : St World) :
  EventProps.RequestType event = Delete ->
  ((forall id, EventProps.PhysicalResourceId event = Some id -> String.prefix "i-" id = false) ->
   handler remote rt env event s =
   (Ret {| Response.PhysicalResourceId :=
             Js.nullish (EventProps.PhysicalResourceId event) "deleted";
           Response.Data := None |}, s)) /\
  (forall id,
      EventProps.PhysicalResourceId event = Some id -> String.prefix "i-" id = true ->
      trace (snd (handler remote rt env event s)) =
      trace s ++ [Sent (TerminateInstancesCommand [id])]).
Proof.
  intros Hrt. unfold handler. rewrite Hrt. split.
  - intros Hno. unfold looksLikeInstance.
    destruct (EventProps.PhysicalResourceId event) as [id|]; [|reflexivity].
    rewrite (Hno id eq_refl). reflexivity.
  - intros id Hid Hpre. rewrite Hid. unfold looksLikeInstance. rewrite Hpre.
    unfold bind. rewrite (send_run remote). cbn [Js.nullish].
    destruct (fst (remote (TerminateInstancesCommand [id]) (world s))); reflexivity.
Qed.

End AdAutomationFacts.

(** ** Worked runs of the AD automation handler *)

Module AdAutomationRuns.
Import AdAutomation AsyncFacts AdAutomationFacts.
Import Scenario.

(** C3, as stated, fails: a run that gives up after ninety polls and a run
    that observes [Failed] at its first poll return the same outcome. *)
Lemma waitForCommand_gave_up_like_failed :
  let gaveUp := waitForCommand AD.remote "i-0abc" "cmd-1"
                  (start (repeat (Ret (AD.withStatus "InProgress")) 90)) in
  let failed := waitForCommand AD.remote "i-0abc" "cmd-1"
                  (start [Ret (AD.withStatus "Failed")]) in
  List.length (calls (trace (snd gaveUp))) = 90%nat /\
  List.length (calls (trace (snd failed))) = 1%nat /\
  fst gaveUp = fst failed.
Proof. cbv zeta. repeat split; vm_compute; reflexivity. Qed.

(** A witness of [post_launch_failure_propagates]: the waiter fails. *)
Lemma post_launch_failure_propagates_witness :
  handler AD.remote AD.runtime AD.env (AD.event Create None)
          (start AD.launchedThenWaiterFails) =
  (Throw (Js.Err AD.waiterFailed), AD.afterWaiter).
Proof.
  refine (proj1 (post_launch_failure_propagates AD.remote AD.runtime AD.env
                   (AD.event Create None) (start AD.launchedThenWaiterFails)
                   AD.afterKeyPair AD.afterLaunch ["10.0.0.10"; "10.0.1.10"]
                   {| keyName := Some "ad-automation-key-1700000000000";
                      privateKey := Some EmptyString |}
                   "i-0abc" _ _ _ _)
                (Js.Err AD.waiterFailed) AD.afterWaiter _).
  - discriminate.
  - reflexivity.
  - vm_compute. reflexivity.
  - vm_compute. reflexivity.
  - vm_compute. reflexivity.
Defined.

(** C8, as stated, fails: the instance [i-0abc] is launched, the waiter
    then fails, and the handler throws; no result carries the identifier. *)
Lemma launched_instance_id_lost :
  let r := handler AD.remote AD.runtime AD.env (AD.event Create None)
             (start AD.launchedThenWaiterFails) in
  fst r = Throw (Js.Err AD.waiterFailed) /\
  (exists input, In (RunInstancesCommand input) (calls (trace (snd r)))) /\
  (forall response, fst r <> Ret response).
Proof.
  cbv zeta. split; [vm_compute; reflexivity|]. split.
  - eexists. vm_compute. do 4 right. left. reflexivity.
  - intros response H. vm_compute in H. discriminate H.
Qed.

(** Delete with an identifier that is no instance reference: no request. *)
Example delete_without_instance :
  handler AD.remote AD.runtime AD.env (AD.event Delete (Some "deleted"))
          (start [Throw (Js.Err AD.waiterFailed)]) =
  (Ret {| Response.PhysicalResourceId := "deleted"; Response.Data := None |},
   start [Throw (Js.Err AD.waiterFailed)]).
Proof. reflexivity. Qed.

(** The newest image comes first, and a single comma-separated entry of
    the DNS list is split. *)
Example newest_image_first :
  newestImageId AD.runtime
    {| Output.SecretString := None; Output.KeyMaterial := None;
       Output.Images := Some [ {| ImageId := Some "ami-old"; CreationDate := Some "2023-05-01" |};
                               {| ImageId := Some "ami-new"; CreationDate := Some "2024-02-01" |};
                               {| ImageId := Some "ami-mid"; CreationDate := Some "2023-11-01" |} ];
       Output.Instances := None; Output.InstanceInformationList := None;
       Output.Command := None; Output.Status := None |} = Some "ami-new".
Proof. reflexivity. Qed.

Example split_dns_entry : splitComma "10.0.0.10,10.0.1.10" = ["10.0.0.10"; "10.0.1.10"].
Proof. reflexivity. Qed.

(** A witness of [delete_terminates_instances_only]. *)
Lemma delete_terminates_instances_only_witness :
  let s := start [Ret Output.empty] in
  ((forall id, EventProps.PhysicalResourceId (AD.event Delete (Some "i-0abc")) = Some id ->
               String.prefix "i-" id = false) ->
   handler AD.remote AD.runtime AD.env (AD.event Delete (Some "i-0abc")) s =
   (Ret {| Response.PhysicalResourceId :=
             Js.nullish (EventProps.PhysicalResourceId (AD.event Delete (Some "i-0abc"))) "deleted";
           Response.Data := None |}, s)) /\
  (forall id,
      EventProps.PhysicalResourceId (AD.event Delete (Some "i-0abc")) = Some id ->
      String.prefix "i-" id = true ->
      trace (snd (handler AD.remote AD.runtime AD.env (AD.event Delete (Some "i-0abc")) s)) =
      trace s ++ [Sent (TerminateInstancesCommand [id])]).
Proof.
  exact (delete_terminates_instances_only AD.remote AD.runtime AD.env
           (AD.event Delete (Some "i-0abc")) (start [Ret Output.empty]) eq_refl).
Defined.

End AdAutomationRuns.

(** ** Effort: how bounds on requests and waiting compose *)

Module EffortFacts.
Import Effort AsyncFacts.

Lemma total_app (a b : list Z) : total (a ++ b) = total a + total b.
Proof. induction a as [|x a IH]; simpl; [reflexivity | rewrite IH; lia]. Qed.

Section Compose.
Context {Cmd Out World : Type}.
Variable remote : Cmd -> World -> Outcome Out * World.
Variable P : Event Cmd -> Prop.

Lemma within_weaken {A : Type} (Q : Event Cmd -> Prop) (n n' : nat) (d d' : Z)
      (m : M Cmd World A) :
  (forall e, Q e -> P e) -> (n <= n')%nat -> d <= d' ->
  within Q n d m -> within P n' d' m.
Proof.
  intros HQ Hn Hd Hm s. destruct (Hm s) as (t & Ht & Hall & Hc & Hs).
  exists t. split; [exact Ht|]. split; [|split; lia].
  eapply Forall_impl; [exact HQ | exact Hall].
Qed.

Lemma within_ret {A : Type} (a : A) : within P 0 0 (@ret Cmd World A a).
Proof. intros s. exists []. simpl. rewrite app_nil_r. repeat split; auto; lia. Qed.

Lemma within_throw {A : Type} (e : Js.Thrown) : within P 0 0 (@throw Cmd World A e).
Proof. intros s. exists []. simpl. rewrite app_nil_r. repeat split; auto; lia. Qed.

Lemma within_ret_le {A : Type} (a : A) (n : nat) (d : Z) :
  0 <= d -> within P n d (@ret Cmd World A a).
Proof.
  intros Hd s. exists []. simpl. rewrite app_nil_r.
  repeat split; auto; unfold total; simpl; lia.
Qed.

Lemma within_throw_le {A : Type} (e : Js.Thrown) (n : nat) (d : Z) :
  0 <= d -> within P n d (@throw Cmd World A e).
Proof.
  intros Hd s. exists []. simpl. rewrite app_nil_r.
  repeat split; auto; unfold total; simpl; lia.
Qed.

Lemma within_sleep (ms : Z) : P (Slept ms) -> within P 0 ms (@sleep Cmd World ms).
Proof.
  intros HP s. exists [Slept ms]. simpl. repeat split; auto; unfold total; simpl; lia.
Qed.

Lemma within_send (c : Cmd) : P (Sent c) -> within P 1 0 (send remote c).
Proof.
  intros HP s. exists [Sent c]. rewrite send_trace. simpl.
  repeat split; auto; unfold total; simpl; lia.
Qed.

Lemma within_bind {A B : Type} (n1 n2 : nat) (d1 d2 : Z)
      (m : M Cmd World A) (k : A -> M Cmd World B) :
  0 <= d2 ->
  within P n1 d1 m -> (forall a, within P n2 d2 (k a)) ->
  within P (n1 + n2) (d1 + d2) (bind m k).
Proof.
  intros Hd Hm Hk s. rewrite bind_run.
  destruct (Hm s) as (t1 & Ht1 & Hall1 & Hc1 & Hs1).
  destruct (m s) as [[a|e] s1]; simpl in Ht1.
  - destruct (Hk a s1) as (t2 & Ht2 & Hall2 & Hc2 & Hs2).
    exists (t1 ++ t2). rewrite Ht2, Ht1, <- app_assoc.
    split; [reflexivity|]. split; [apply Forall_app; auto|].
    rewrite calls_app, sleeps_app, length_app, total_app. lia.
  - exists t1. simpl. split; [exact Ht1|]. split; [exact Hall1|]. lia.
Qed.

Lemma within_try_catch {A : Type} (n1 n2 : nat) (d1 d2 : Z)
      (m : M Cmd World A) (h : Js.Thrown -> M Cmd World A) :
  0 <= d2 ->
  within P n1 d1 m -> (forall e, within P n2 d2 (h e)) ->
  within P (n1 + n2) (d1 + d2) (try_catch m h).
Proof.
  intros Hd Hm Hh s. unfold try_catch.
  destruct (Hm s) as (t1 & Ht1 & Hall1 & Hc1 & Hs1).
  destruct (m s) as [[a|e] s1]; simpl in Ht1.
  - exists t1. simpl. split; [exact Ht1|]. split; [exact Hall1|]. lia.
  - destruct (Hh e s1) as (t2 & Ht2 & Hall2 & Hc2 & Hs2).
    exists (t1 ++ t2). rewrite Ht2, Ht1, <- app_assoc.
    split; [reflexivity|]. split; [apply Forall_app; auto|].
    rewrite calls_app, sleeps_app, length_app, total_app. lia.
Qed.

End Compose.
End EffortFacts.

Module RetryEffort.
Import QuickSight RetrySpec Effort AsyncFacts RetryFacts EffortFacts.

Lemma retryDelay_le (baseDelay : Z) (attempt : nat) (code : string) :
  retryDelay baseDelay attempt code <= 35000.
Proof.
  unfold retryDelay.
  pose proof (Z.le_min_r (baseDelay * 2 ^ Z.of_nat attempt) 30000).
  destruct (String.eqb code "ThrottlingException"); lia.
Qed.

Section Loop.
Context {World T : Type}.
Variable fn : M World T.
Variable name : string.
Variable baseDelay : Z.
Variable P : Event Command -> Prop.
Variable n0 : nat.
Variable d0 : Z.
Hypothesis Hsleep : forall ms, ms <= 35000 -> P (Slept ms).
Hypothesis Hd0 : 0 <= d0.
Hypothesis Hfn : within P n0 d0 fn.

Lemma retryLoop_within :
  forall remaining attempt lastError,
    within P (remaining * n0) (Z.of_nat remaining * (d0 + 35000))
           (retryLoop fn name baseDelay remaining attempt lastError).
Proof.
  induction remaining as [|remaining IH]; intros attempt lastError.
  - apply within_throw.
  - replace (S remaining * n0)%nat with (n0 + (0 + remaining * n0))%nat by (simpl; lia).
    replace (Z.of_nat (S remaining) * (d0 + 35000))
      with (d0 + (35000 + Z.of_nat remaining * (d0 + 35000)))
      by (rewrite Nat2Z.inj_succ; lia).
    cbn [retryLoop].
    apply within_try_catch; [nia | exact Hfn |].
    intros [|e]; [apply within_throw_le; nia|].
    destruct (fatal e); [apply within_throw_le; nia|].
    apply within_bind; [nia| |intros _; apply IH].
    apply (within_weaken P P 0 0 (retryDelay baseDelay attempt (codeOf e)) 35000);
      [auto | lia | apply retryDelay_le |].
    apply within_sleep, Hsleep, retryDelay_le.
Qed.

End Loop.

(** X1.  If one invocation of the operation stays within [n0] requests and
    [d0] milliseconds of sleep, [withRetry] stays within [maxRetries] times
    as many requests and within [maxRetries * (d0 + 35000)] milliseconds:
    no delay exceeds 35 seconds, whatever [baseDelay] is. *)
Theorem withRetry_effort {World T : Type} (fn : M World T) (name : string)
        (maxRetries : nat) (baseDelay : Z) (P : Event Command -> Prop) (n0 : nat) (d0 : Z) :
  (forall ms, ms <= 35000 -> P (Slept ms)) ->
  0 <= d0 ->
  within P n0 d0 fn ->
  within P (maxRetries * n0) (Z.of_nat maxRetries * (d0 + 35000))
         (withRetry fn name maxRetries baseDelay).
Proof.
  intros Hsleep Hd0 Hfn. unfold withRetry. now apply retryLoop_within.
Qed.

Section Sleeps.
Context {World T : Type}.
Variable fn : M World T.
Variable name : string.
Variable baseDelay : Z.
Hypothesis Hone : single_request fn.

(** How many times a run sleeps, against how many requests it sends. *)
Lemma retryLoop_sleeps_and_requests :
  forall remaining attempt lastError s,
    let r := retryLoop fn name baseDelay remaining attempt lastError s in
    (remaining = 0%nat /\ r = (Throw lastError, s)) \/
    exists t,
      trace (snd r) = trace s ++ t /\
      match fst r with
      | Ret _ => (List.length (sleeps t) + 1 = List.length (calls t))%nat
      | Throw Js.Undefined => False
      | Throw (Js.Err e) =>
          if fatal e then (List.length (sleeps t) + 1 = List.length (calls t))%nat
          else List.length (sleeps t) = remaining /\ List.length (calls t) = remaining
      end.
Proof.
  induction remaining as [|remaining IH]; intros attempt lastError s r.
  - left. auto.
  - right. subst r. rewrite retryLoop_S.
    destruct (Hone s) as [c Hc].
    destruct (fn s) as [[v|[|e]] s1] eqn:Hfn'; simpl in Hc.
    + exists [Sent c]. simpl. auto.
    + exists [Sent c]. simpl. auto.
    + destruct (fatal e) eqn:Hfatal.
      * exists [Sent c]. simpl. rewrite Hfatal. auto.
      * set (d := retryDelay baseDelay attempt (codeOf e)).
        destruct (IH (S attempt) (Js.Err e) (snd (sleep d s1)))
          as [[Hz Hr] | (t & Ht & Hm)].
        -- rewrite Hr. exists [Sent c; Slept d]. simpl. rewrite Hc, <- app_assoc.
           split; [reflexivity|]. rewrite Hfatal. subst remaining. auto.
        -- exists ([Sent c; Slept d] ++ t). rewrite Ht. simpl trace.
           rewrite Hc, <- !app_assoc. split; [reflexivity|].
           destruct (fst (retryLoop fn name baseDelay remaining (S attempt) (Js.Err e)
                            (snd (sleep d s1)))) as [v|[|e0]].
           ++ simpl. lia.
           ++ exact Hm.
           ++ destruct (fatal e0); simpl; lia.
Qed.

End Sleeps.

(** X2.  For an operation that sends one request per invocation: when
    [withRetry] returns, or throws a fatal error, it has slept once less
    often than it has sent requests; when it throws a retryable error it
    has sent [maxRetries] requests and slept [maxRetries] times, the last
    sleep coming after the last attempt.  It throws [undefined] only when
    [maxRetries] is 0, and then does nothing. *)
Theorem withRetry_sleeps_after_last_attempt {World T : Type} (fn : M World T)
        (name : string) (maxRetries : nat) (baseDelay : Z) (s : St World) :
  single_request fn ->
  exists t,
    trace (snd (withRetry fn name maxRetries baseDelay s)) = trace s ++ t /\
    match fst (withRetry fn name maxRetries baseDelay s) with
    | Ret _ => (List.length (sleeps t) + 1 = List.length (calls t))%nat
    | Throw Js.Undefined => maxRetries = 0%nat /\ t = []
    | Throw (Js.Err e) =>
        if fatal e then (List.length (sleeps t) + 1 = List.length (calls t))%nat
        else List.length (sleeps t) = maxRetries /\ List.length (calls t) = maxRetries
    end.
Proof.
  intros Hone. unfold withRetry.
  destruct (retryLoop_sleeps_and_requests fn name baseDelay Hone maxRetries 0%nat Js.Undefined s)
    as [[Hz Hr] | (t & Ht & Hm)].
  - rewrite Hr. exists []. simpl. rewrite app_nil_r. auto.
  - exists t. split; [exact Ht|].
    destruct (fst (retryLoop fn name baseDelay maxRetries 0 Js.Undefined s)) as [v|[|e]];
      [exact Hm | contradiction | exact Hm].
Qed.

End RetryEffort.

(** ** Invariants of the subscription handler *)

Module QuickSightInvariants.
Import QuickSight RetrySpec SubscriptionSpec SubscriptionEffort Effort.
Import AsyncFacts RetryFacts EffortFacts RetryEffort QuickSightFacts.

Ltac bound n d :=
  match goal with
  | |- within ?P _ _ _ => apply (within_weaken P P n _ d _); [auto | lia | lia | ]
  end.

Ltac known := cbn [In knownRequests]; repeat (first [left; reflexivity | right]).

Section Handler.
Context {World : Type}.
Variable remote : Command -> World -> Outcome Output.t * World.
Variable AWS_REGION : option string.
Variable props : ResourceProperties.

(** A class of events that holds the sleeps of at most 35 seconds and the
    requests known for [props]. *)
Variable P : Event Command -> Prop.
Hypothesis Hsleep : forall ms, ms <= 35000 -> P (Slept ms).
Hypothesis Hknown : forall c, In c (knownRequests props) -> P (Sent c).

(** A retried request for [props]. *)
Lemma retried_within (c : Command) (name : string) (maxRetries : nat) :
  In c (knownRequests props) ->
  within P maxRetries (Z.of_nat maxRetries * 35000)
         (withRetry (send remote c) name maxRetries 2000).
Proof.
  intros Hc.
  pose proof (retryLoop_within (send remote c) name 2000 P 1 0 Hsleep (Z.le_refl 0)
                (within_send remote P c (Hknown c Hc)) maxRetries 0%nat Js.Undefined) as H.
  rewrite Nat.mul_1_r in H. exact H.
Qed.

Lemma createSubscription_within : within P 10 350000 (createSubscription remote props).
Proof.
  unfold createSubscription.
  bound (10 + 0)%nat (Z.of_nat 10 * 35000 + 0).
  apply within_bind; [lia | apply retried_within; known | intros _; apply within_ret].
Qed.

Lemma tryBody_within : within P 35 1225000 (tryBody remote AWS_REGION props).
Proof.
  unfold tryBody.
  bound (5 + 30)%nat (Z.of_nat 5 * 35000 + 1050000).
  apply within_bind; [lia | apply retried_within; known | intros response].
  destruct (Js.strict_eq (statusOf response) "ACCOUNT_CREATED").
  - bound (3 + 0)%nat (Z.of_nat 3 * 35000 + 0).
    apply within_bind; [lia | apply retried_within; known | intros ns].
    cbv zeta. destruct (_ && _); [apply within_throw | apply within_ret].
  - bound (20 + 10)%nat (700000 + 350000).
    apply within_bind; [lia | | intros _].
    + destruct (Js.strict_eq (statusOf response) "UNSUBSCRIBE_FAILED");
        [|apply within_ret_le; lia].
      bound (10 + 10)%nat (Z.of_nat 10 * 35000 + 350000).
      apply within_bind; [lia | apply retried_within; known | intros _].
      bound (10 + 0)%nat (Z.of_nat 10 * 35000 + 0).
      apply within_bind; [lia | apply retried_within; known | intros _; apply within_ret].
    + bound (10 + 0)%nat (350000 + 0).
      apply within_bind; [lia | apply createSubscription_within | intros _; apply within_ret].
Qed.

Lemma catchBody_within (err : Js.Thrown) : within P 10 350000 (catchBody remote props err).
Proof.
  unfold catchBody. destruct err as [|e]; [apply within_throw_le; lia|].
  destruct (String.eqb (codeOf e) "ResourceNotFoundException").
  - bound (10 + 0)%nat (350000 + 0).
    apply within_bind; [lia | apply createSubscription_within | intros _; apply within_ret].
  - destruct (_ || _); [apply within_ret_le | apply within_throw_le]; lia.
Qed.

Lemma handler_within (event : Event.t) :
  Event.ResourceProperties event = props ->
  within P 45 1575000 (handler remote AWS_REGION event).
Proof.
  intros Hp. unfold handler. rewrite Hp. destruct (Event.RequestType event).
  - bound (35 + 10)%nat (1225000 + 350000).
    apply within_try_catch; [lia | apply tryBody_within | apply catchBody_within].
  - bound (35 + 10)%nat (1225000 + 350000).
    apply within_try_catch; [lia | apply tryBody_within | apply catchBody_within].
  - apply within_ret_le. lia.
Qed.

End Handler.

Lemma known_account (props : ResourceProperties) (c : Command) :
  In c (knownRequests props) -> accountOf c = AwsAccountId props.
Proof.
  cbn [In knownRequests]. intros [<-|[<-|[<-|[<-|[<-|[]]]]]]; reflexivity.
Qed.

(** X3.  Whatever the event and the remote side, every request an
    invocation of the handler sends addresses the account of the event;
    the invocation sends at most 45 requests, and its sleeps, none above 35
    seconds, sum up to at most 1575 seconds. *)
Theorem handler_effort {World : Type}
        (remote : Command -> World -> Outcome Output.t * World) (AWS_REGION : option string)
        (event : Event.t) :
  within (accountEvent (AwsAccountId (Event.ResourceProperties event))) 45 1575000
         (handler remote AWS_REGION event).
Proof.
  apply (handler_within remote AWS_REGION (Event.ResourceProperties event)).
  - intros ms H. exact H.
  - intros c Hc. now apply known_account.
  - reflexivity.
Qed.

(** *** The create request *)

Lemma In_calls {Cmd : Type} (c : Cmd) (t : list (Event Cmd)) :
  In c (calls t) -> In (Sent c) t.
Proof.
  induction t as [|[c'|ms] t IH]; simpl; [tauto | | auto].
  intros [->|H]; auto.
Qed.

Section CreateRequest.
Context {World : Type}.
Variable remote : Command -> World -> Outcome Output.t * World.
Variable AWS_REGION : option string.
Variable props : ResourceProperties.

(** Every step only adds to the trace. *)
Lemma extends_within {A : Type} (m : M World A) (n : nat) (d : Z) (s : St World) :
  within (fun _ => True) n d m -> exists t, trace (snd (m s)) = trace s ++ t.
Proof. intros H. destruct (H s) as (t & Ht & _). now exists t. Qed.

Lemma step_extends (c : Command) (name : string) (n : nat) (s s1 : St World) o :
  withRetry (send remote c) name n 2000 s = (o, s1) ->
  exists t, trace s1 = trace s ++ t.
Proof.
  intros H.
  destruct (extends_within (withRetry (send remote c) name n 2000) (n * 1)
              (Z.of_nat n * (0 + 35000)) s) as [t Ht].
  { apply (retryLoop_within (send remote c) name 2000 (fun _ => True) 1 0);
      [auto | lia | apply within_send; exact I]. }
  rewrite H in Ht. now exists t.
Qed.

(** [createSubscription] begins with the create request. *)
Lemma createSubscription_sends (s : St World) :
  exists rest,
    trace (snd (createSubscription remote props s)) =
    trace s ++ Sent (adminOnlyCreate props) :: rest.
Proof.
  rewrite createSubscription_run.
  assert (H : exists rest,
             trace (snd (createStep remote props s)) =
             trace s ++ Sent (adminOnlyCreate props) :: rest).
  { unfold createStep, withRetry. rewrite retryLoop_S, (send_run remote).
    change (createCmd props) with (adminOnlyCreate props).
    set (c := adminOnlyCreate props).
    destruct (fst (remote c (world s))) as [v|[|e]]; [exists []; reflexivity.. |].
    destruct (fatal e); [exists []; reflexivity|].
    match goal with
    | |- context [retryLoop ?fn ?name ?b ?k ?a ?le ?s1] =>
        destruct (extends_within (retryLoop fn name b k a le) (k * 1)
                    (Z.of_nat k * (0 + 35000)) s1) as [t Ht]
    end.
    { apply (retryLoop_within _ _ 2000 (fun _ => True) 1 0);
        [auto | lia | apply within_send; exact I]. }
    eexists. rewrite Ht. cbn [snd sleep trace]. rewrite <- !app_assoc. reflexivity. }
  destruct H as [rest H]. exists rest.
  destruct (createStep remote props s) as [[?|?] ?]; exact H.
Qed.

Lemma createSubscription_sends_after (s s0 s' : St World) (t0 : list (Event Command)) o :
  trace s0 = trace s ++ t0 ->
  createSubscription remote props s0 = (o, s') ->
  exists t1 t2, trace s' = trace s ++ t1 ++ Sent (adminOnlyCreate props) :: t2.
Proof.
  intros H0 H. destruct (createSubscription_sends s0) as [rest Hr].
  rewrite H in Hr. cbn [snd] in Hr. exists t0, rest.
  rewrite Hr, H0, <- app_assoc. reflexivity.
Qed.

Lemma catchBody_created (err : Js.Thrown) (s s0 s' : St World)
      (t0 : list (Event Command)) (r : Response.t) :
  trace s0 = trace s ++ t0 ->
  catchBody remote props err s0 = (Ret r, s') ->
  Response.Data r = Some {| Response.Status := "Created" |} ->
  exists t1 t2, trace s' = trace s ++ t1 ++ Sent (adminOnlyCreate props) :: t2.
Proof.
  intros H0. unfold catchBody. destruct err as [|e]; [discriminate|].
  destruct (String.eqb (codeOf e) "ResourceNotFoundException").
  - rewrite bind_run.
    destruct (createSubscription remote props s0) as [[[]|e1] s1] eqn:Hc; [|discriminate].
    intros H _. injection H as _ <-.
    exact (createSubscription_sends_after s s0 s1 t0 _ H0 Hc).
  - destruct (_ || _); [|discriminate].
    intros H Hd. injection H as <- _. discriminate Hd.
Qed.

Lemma tryCatch_created (s s' : St World) (r : Response.t) :
  match tryBody remote AWS_REGION props s with
  | (Ret r0, s0) => (Ret r0, s0)
  | (Throw e, s0) => catchBody remote props e s0
  end = (Ret r, s') ->
  Response.Data r = Some {| Response.Status := "Created" |} ->
  exists t1 t2, trace s' = trace s ++ t1 ++ Sent (adminOnlyCreate props) :: t2.
Proof.
  intros H Hd. rewrite tryBody_run in H.
  destruct (describeStep remote props s) as [[response|e] s1] eqn:Hdesc;
    destruct (step_extends _ _ _ _ _ _ Hdesc) as [t1 Ht1].
  2: exact (catchBody_created e s s1 s' t1 r Ht1 H Hd).
  destruct (Js.strict_eq (statusOf response) "ACCOUNT_CREATED").
  { destruct (listStep remote props s1) as [[ns|e] s2] eqn:Hlist;
      destruct (step_extends _ _ _ _ _ _ Hlist) as [t2 Ht2];
      rewrite Ht1, <- app_assoc in Ht2.
    - cbv zeta in H. destruct (_ && _).
      + exact (catchBody_created _ s s2 s' _ r Ht2 H Hd).
      + injection H as <- _. discriminate Hd.
    - exact (catchBody_created e s s2 s' _ r Ht2 H Hd). }
  assert (Hcreate : forall s3 t3,
             trace s3 = trace s ++ t3 ->
             match
               match createSubscription remote props s3 with
               | (Ret _, s4) => (Ret (result (AwsAccountId props) "Created"), s4)
               | (Throw e, s4) => (Throw e, s4)
               end
             with
             | (Ret r0, s0) => (Ret r0, s0)
             | (Throw e, s0) => catchBody remote props e s0
             end = (Ret r, s') ->
             exists u1 u2, trace s' = trace s ++ u1 ++ Sent (adminOnlyCreate props) :: u2).
  { intros s3 t3 Ht3 Hrun.
    destruct (createSubscription remote props s3) as [[[]|e] s4] eqn:Hc.
    - injection Hrun as _ <-. exact (createSubscription_sends_after s s3 s4 t3 _ Ht3 Hc).
    - destruct (createSubscription_sends_after s s3 s4 t3 _ Ht3 Hc) as (u1 & u2 & Hu).
      exact (catchBody_created e s s4 s' _ r Hu Hrun Hd). }
  destruct (Js.strict_eq (statusOf response) "UNSUBSCRIBE_FAILED").
  2: exact (Hcreate s1 t1 Ht1 H).
  destruct (updateStep remote props s1) as [[o2|e] s2] eqn:Hupd;
    destruct (step_extends _ _ _ _ _ _ Hupd) as [t2 Ht2];
    rewrite Ht1, <- app_assoc in Ht2.
  2: exact (catchBody_created e s s2 s' _ r Ht2 H Hd).
  destruct (deleteStep remote props s2) as [[o3|e] s3] eqn:Hdel;
    destruct (step_extends _ _ _ _ _ _ Hdel) as [t3 Ht3];
    rewrite Ht2, <- app_assoc in Ht3.
  2: exact (catchBody_created e s s3 s' _ r Ht3 H Hd).
  exact (Hcreate s3 _ Ht3 H).
Qed.

Lemma handler_created (event : Event.t) (s s' : St World) (r : Response.t) :
  Event.ResourceProperties event = props ->
  handler remote AWS_REGION event s = (Ret r, s') ->
  Response.Data r = Some {| Response.Status := "Created" |} ->
  exists t1 t2, trace s' = trace s ++ t1 ++ Sent (adminOnlyCreate props) :: t2.
Proof.
  intros Hp H Hd.
  destruct (Event.RequestType event) eqn:Hrt.
  3: { unfold handler in H. rewrite Hrt in H. injection H as <- _. discriminate Hd. }
  all: rewrite (handler_run remote AWS_REGION props event s Hp) in H
    by (rewrite Hrt; discriminate).
  all: exact (tryCatch_created s s' r H Hd).
Qed.

End CreateRequest.

Lemma handler_sameButGroups {World : Type}
      (remote : Command -> World -> Outcome Output.t * World) (AWS_REGION : option string)
      (event1 event2 : Event.t) (s : St World) :
  Event.RequestType event1 = Event.RequestType event2 ->
  Event.PhysicalResourceId event1 = Event.PhysicalResourceId event2 ->
  sameButGroups (Event.ResourceProperties event1) (Event.ResourceProperties event2) ->
  handler remote AWS_REGION event1 s = handler remote AWS_REGION event2 s /\
  adminOnlyCreate (Event.ResourceProperties event1) =
    adminOnlyCreate (Event.ResourceProperties event2).
Proof.
  destruct event1 as [rt1 p1 old1 id1], event2 as [rt2 p2 old2 id2].
  destruct p1, p2. unfold sameButGroups. simpl.
  intros -> -> (-> & -> & -> & -> & -> & -> & -> & -> & ->).
  split; reflexivity.
Qed.

(** C10.  Every create request an invocation sends holds the one name
    [AdminGroup] of its properties in each of its three group lists, and a
    run that returns [Status: 'Created'] has sent such a request.  Two
    invocations whose properties differ only in [AuthorGroup] and
    [ReaderGroup] send the same requests and end alike; so do two
    invocations for the properties the stack builds from contexts that
    name different author and reader groups. *)
Theorem create_request_ignores_author_reader {World : Type}
        (remote : Command -> World -> Outcome Output.t * World) (AWS_REGION : option string)
        (event1 event2 : Event.t) (s : St World) :
  Event.RequestType event1 = Event.RequestType event2 ->
  Event.PhysicalResourceId event1 = Event.PhysicalResourceId event2 ->
  sameButGroups (Event.ResourceProperties event1) (Event.ResourceProperties event2) ->
  (exists t,
      trace (snd (handler remote AWS_REGION event1 s)) = trace s ++ t /\
      forall input,
        In (CreateAccountSubscriptionCommand input) (calls t) ->
        CreateAccountSubscription.AdminGroup input =
          [AdminGroup (Event.ResourceProperties event1)] /\
        CreateAccountSubscription.AuthorGroup input =
          [AdminGroup (Event.ResourceProperties event1)] /\
        CreateAccountSubscription.ReaderGroup input =
          [AdminGroup (Event.ResourceProperties event1)] /\
        CreateAccountSubscriptionCommand input =
          adminOnlyCreate (Event.ResourceProperties event2)) /\
  (forall r s',
      handler remote AWS_REGION event1 s = (Ret r, s') ->
      Response.Data r = Some {| Response.Status := "Created" |} ->
      exists t1 t2,
        trace s' = trace s ++ t1 ++ Sent (adminOnlyCreate (Event.ResourceProperties event2)) :: t2) /\
  handler remote AWS_REGION event1 s = handler remote AWS_REGION event2 s /\
  (forall rt previous admin author1 reader1 author2 reader2 account prefix directoryId email,
      handler remote AWS_REGION
        {| Event.RequestType := rt;
           Event.ResourceProperties :=
             SubscriptionStack.properties
               {| SubscriptionStack.quickSightAdminGroup := admin;
                  SubscriptionStack.quickSightAuthorGroup := author1;
                  SubscriptionStack.quickSightReaderGroup := reader1 |}
               account prefix directoryId email;
           Event.OldResourceProperties := None;
           Event.PhysicalResourceId := previous |} s =
      handler remote AWS_REGION
        {| Event.RequestType := rt;
           Event.ResourceProperties :=
             SubscriptionStack.properties
               {| SubscriptionStack.quickSightAdminGroup := admin;
                  SubscriptionStack.quickSightAuthorGroup := author2;
                  SubscriptionStack.quickSightReaderGroup := reader2 |}
               account prefix directoryId email;
           Event.OldResourceProperties := None;
           Event.PhysicalResourceId := previous |} s).
Proof.
  intros Hrt Hid Hsame.
  destruct (handler_sameButGroups remote AWS_REGION event1 event2 s Hrt Hid Hsame)
    as [Hrun Hcreate].
  split; [|split; [|split; [exact Hrun|]]].
  - destruct (handler_within remote AWS_REGION (Event.ResourceProperties event1)
                (knownEvent (Event.ResourceProperties event1))
                (fun ms H => H) (fun c H => H) event1 eq_refl s)
      as (t & Ht & Hall & _).
    exists t. split; [exact Ht|]. intros input Hin.
    apply In_calls in Hin. rewrite Forall_forall in Hall. apply Hall in Hin.
    rewrite <- Hcreate.
    cbn [knownEvent In knownRequests] in Hin.
    destruct Hin as [H|[H|[H|[H|[H|[]]]]]]; try discriminate H.
    unfold adminOnlyCreate in H. injection H as <-. repeat split; reflexivity.
  - intros r s' Hret Hd. rewrite <- Hcreate.
    exact (handler_created remote AWS_REGION (Event.ResourceProperties event1)
             event1 s s' r eq_refl Hret Hd).
  - intros rt previous admin author1 reader1 author2 reader2 account prefix directoryId email.
    apply handler_sameButGroups; [reflexivity | reflexivity |].
    unfold sameButGroups. cbn. repeat split; reflexivity.
Qed.

Lemma in_app_repeat_other {A : Type} (x y : A) (l : list A) (k : nat) :
  x <> y -> In x (l ++ repeat y k) -> In x l.
Proof.
  intros Hne Hin. apply in_app_or in Hin. destruct Hin as [H|H]; [exact H|].
  apply repeat_spec in H. congruence.
Qed.

Lemma strict_eq_true (x : option string) (lit : string) :
  Js.strict_eq x lit = true -> x = Some lit.
Proof.
  destruct x as [v|]; simpl; [|discriminate].
  intros H. apply String.eqb_eq in H. now subst.
Qed.

(** X4.  A value returned on the Create and Update path always carries
    [Data], and its [Status] is one of [Existing], [Created],
    [PartialFailure-InternalFailure] and
    [PartialFailure-ThrottlingException]; a value returned on Delete
    carries no [Data]. *)
Theorem handler_result_status {World : Type}
        (remote : Command -> World -> Outcome Output.t * World) (AWS_REGION : option string)
        (event : Event.t) (s s' : St World) (r : Response.t) :
  handler remote AWS_REGION event s = (Ret r, s') ->
  (Event.RequestType event = Delete /\ Response.Data r = None /\ s' = s) \/
  (Event.RequestType event <> Delete /\
   exists status, Response.Data r = Some {| Response.Status := status |} /\ knownStatus status).
Proof.
  set (props := Event.ResourceProperties event).
  destruct (Event.RequestType event) eqn:Hrt.
  1, 2: intros H; right; split; [discriminate|];
    rewrite (handler_run remote AWS_REGION props event s eq_refl) in H by (rewrite Hrt; discriminate).
  3: { unfold handler. rewrite Hrt. intros H. inversion H. left. auto. }
  all: assert (Hcatch : forall e s0,
             catchBody remote props e s0 = (Ret r, s') ->
             exists status, Response.Data r = Some {| Response.Status := status |} /\
                            knownStatus status)
    by (intros e s0; unfold catchBody; destruct e as [|e]; [discriminate|];
        destruct (String.eqb (codeOf e) "ResourceNotFoundException");
        [ rewrite bind_run; destruct (createSubscription remote props s0) as [[?|?] ?];
          intros H0; inversion H0; eexists; split; [reflexivity|]; unfold knownStatus; auto
        | destruct (String.eqb_spec (codeOf e) "InternalFailure") as [->|_];
          [ intros H0; inversion H0; eexists; split; [reflexivity|]; unfold knownStatus; auto
          | destruct (String.eqb_spec (codeOf e) "ThrottlingException") as [->|_];
            intros H0; inversion H0; eexists; split; [reflexivity|]; unfold knownStatus; auto ] ]).
  all: rewrite tryBody_run in H;
    destruct (describeStep remote props s) as [[response|e] s1]; [|eapply Hcatch; eassumption];
    destruct (Js.strict_eq (statusOf response) "ACCOUNT_CREATED");
    [ destruct (listStep remote props s1) as [[ns|e] s2]; [|eapply Hcatch; eassumption];
      cbv zeta in H; destruct (_ && _); [eapply Hcatch; eassumption|];
      inversion H; eexists; split; [reflexivity|]; unfold knownStatus; auto
    | destruct (Js.strict_eq (statusOf response) "UNSUBSCRIBE_FAILED");
      [ destruct (updateStep remote props s1) as [[?|e] s2]; [|eapply Hcatch; eassumption];
        destruct (deleteStep remote props s2) as [[?|e] s3]; [|eapply Hcatch; eassumption];
        destruct (createSubscription remote props s3) as [[?|e] s4]; [|eapply Hcatch; eassumption];
        inversion H; eexists; split; [reflexivity|]; unfold knownStatus; auto
      | destruct (createSubscription remote props s1) as [[?|e] s4]; [|eapply Hcatch; eassumption];
        inversion H; eexists; split; [reflexivity|]; unfold knownStatus; auto ] ].
Qed.

(** X5.  On Create and Update the subscription is deleted only when the
    status read is [UNSUBSCRIBE_FAILED] and the settings update before it
    succeeded: a delete request in the trace, not there before, comes with
    both. *)
Theorem delete_only_after_unsubscribe_failed {World : Type}
        (remote : Command -> World -> Outcome Output.t * World) (AWS_REGION : option string)
        (event : Event.t) (s : St World) :
  Event.RequestType event <> Delete ->
  ~ In (deleteCmd (Event.ResourceProperties event)) (calls (trace s)) ->
  In (deleteCmd (Event.ResourceProperties event))
     (calls (trace (snd (handler remote AWS_REGION event s)))) ->
  exists response s1 o s2,
    describeStep remote (Event.ResourceProperties event) s = (Ret response, s1) /\
    statusOf response = Some "UNSUBSCRIBE_FAILED" /\
    updateStep remote (Event.ResourceProperties event) s1 = (Ret o, s2).
Proof.
  set (props := Event.ResourceProperties event).
  intros Hrt Hfresh.
  rewrite (handler_run remote AWS_REGION props event s eq_refl Hrt), tryBody_run.
  assert (Hcatch : forall e s0,
             ~ In (deleteCmd props) (calls (trace s0)) ->
             ~ In (deleteCmd props) (calls (trace (snd (catchBody remote props e s0))))).
  { intros e s0 H0 Hin.
    destruct (catchBody remote props e s0) as [o5 s5] eqn:Hc.
    apply (catchBody_calls remote) in Hc. destruct Hc as (k & _ & Hk).
    simpl in Hin. rewrite Hk in Hin. apply in_app_repeat_other in Hin; [auto|discriminate]. }
  assert (Hcreate : forall s0,
             ~ In (deleteCmd props) (calls (trace s0)) ->
             ~ In (deleteCmd props) (calls (trace (snd (createSubscription remote props s0))))).
  { intros s0 H0 Hin.
    destruct (createSubscription remote props s0) as [o5 s5] eqn:Hc.
    apply (createSubscription_calls remote) in Hc. destruct Hc as (k & _ & Hk).
    simpl in Hin. rewrite Hk in Hin. apply in_app_repeat_other in Hin; [auto|discriminate]. }
  destruct (describeStep remote props s) as [[response|e] s1] eqn:Hdesc.
  2: { intros Hin. exfalso. revert Hin. apply Hcatch.
       apply (withRetry_send_calls_run remote) in Hdesc. destruct Hdesc as (k & _ & _ & Hk).
       rewrite Hk. intros Hin. apply in_app_repeat_other in Hin; [auto|discriminate]. }
  assert (H1 : ~ In (deleteCmd props) (calls (trace s1))).
  { apply (withRetry_send_calls_run remote) in Hdesc. destruct Hdesc as (k & _ & _ & Hk).
    rewrite Hk. intros Hin. apply in_app_repeat_other in Hin; [auto|discriminate]. }
  destruct (Js.strict_eq (statusOf response) "ACCOUNT_CREATED").
  - destruct (listStep remote props s1) as [[ns|e] s2] eqn:Hlist.
    + assert (H2 : ~ In (deleteCmd props) (calls (trace s2))).
      { apply (withRetry_send_calls_run remote) in Hlist. destruct Hlist as (k & _ & _ & Hk).
        rewrite Hk. intros Hin. apply in_app_repeat_other in Hin; [auto|discriminate]. }
      cbv zeta. destruct (_ && _).
      * intros Hin. exfalso. revert Hin. now apply Hcatch.
      * simpl. intros Hin. contradiction.
    + intros Hin. exfalso. revert Hin. apply Hcatch.
      apply (withRetry_send_calls_run remote) in Hlist. destruct Hlist as (k & _ & _ & Hk).
      rewrite Hk. intros Hin. apply in_app_repeat_other in Hin; [auto|discriminate].
  - destruct (Js.strict_eq (statusOf response) "UNSUBSCRIBE_FAILED") eqn:Hstatus.
    + apply strict_eq_true in Hstatus.
      destruct (updateStep remote props s1) as [[o|e] s2] eqn:Hupd.
      * intros _. exists response, s1, o, s2. auto.
      * intros Hin. exfalso. revert Hin. apply Hcatch.
        apply (withRetry_send_calls_run remote) in Hupd. destruct Hupd as (k & _ & _ & Hk).
        rewrite Hk. intros Hin. apply in_app_repeat_other in Hin; [auto|discriminate].
    + intros Hin. exfalso. revert Hin.
      pose proof (Hcreate s1 H1) as Hc.
      destruct (createSubscription remote props s1) as [[?|e] s4]; [exact Hc|].
      now apply Hcatch.
Qed.

(** X6.  On Create and Update the handler throws an error named
    [InternalFailure], [ThrottlingException] or
    [ResourceNotFoundException] in one case only: the [try] block ended in
    a [ResourceNotFoundException] and the create request sent from the
    [catch] block failed with that error. *)
Theorem handler_throws_service_error_from_catch_only {World : Type}
        (remote : Command -> World -> Outcome Output.t * World) (AWS_REGION : option string)
        (event : Event.t) (s s' : St World) (e : Js.Error) :
  Event.RequestType event <> Delete ->
  handler remote AWS_REGION event s = (Throw (Js.Err e), s') ->
  codeOf e = "InternalFailure" \/ codeOf e = "ThrottlingException" \/
    codeOf e = "ResourceNotFoundException" ->
  exists e0 s1,
    tryBody remote AWS_REGION (Event.ResourceProperties event) s = (Throw (Js.Err e0), s1) /\
    codeOf e0 = "ResourceNotFoundException" /\
    createStep remote (Event.ResourceProperties event) s1 = (Throw (Js.Err e), s').
Proof.
  set (props := Event.ResourceProperties event).
  intros Hrt Hrun Hcode.
  rewrite (handler_run remote AWS_REGION props event s eq_refl Hrt) in Hrun.
  destruct (tryBody remote AWS_REGION props s) as [[r|[|e0]] s1]; try discriminate.
  - simpl in Hrun. inversion Hrun; subst e.
    destruct Hcode as [H|[H|H]]; discriminate H.
  - unfold catchBody in Hrun.
    destruct (String.eqb_spec (codeOf e0) "ResourceNotFoundException") as [Hnf|Hnf].
    + exists e0, s1. split; [reflexivity|]. split; [exact Hnf|].
      rewrite bind_run, createSubscription_run in Hrun.
      destruct (createStep remote props s1) as [[?|x] s2]; [discriminate|].
      inversion Hrun. reflexivity.
    + destruct (String.eqb_spec (codeOf e0) "InternalFailure") as [Hi|Hi]; [discriminate|].
      destruct (String.eqb_spec (codeOf e0) "ThrottlingException") as [Ht|Ht]; [discriminate|].
      simpl in Hrun. inversion Hrun; subst e0.
      destruct Hcode as [H|[H|H]]; contradiction.
Qed.

End QuickSightInvariants.

(** ** Polling and effort of the AD automation handler *)

Module AdAutomationEffort.
Import AdAutomation ProvisionSpec Effort AsyncFacts EffortFacts AdAutomationFacts.

Ltac bound n d :=
  match goal with
  | |- within ?P _ _ _ => apply (within_weaken P P n _ d _); [auto | lia | lia | ]
  end.

Lemma total_repeat (x : Z) (k : nat) : total (repeat x k) = Z.of_nat k * x.
Proof. induction k as [|k IH]; [reflexivity|]. cbn [repeat total fold_right]. fold (total (repeat x k)). rewrite IH. lia. Qed.

Section Poll.
Context {World : Type}.
Variable remote : Command -> World -> Outcome Output.t * World.
Variables instanceId commandId : string.

(** The loop alternates status requests and sleeps of ten seconds; it stops
    without a sleep after a terminal status, and with one after the last
    poll. *)
Lemma pollLoop_schedule :
  forall remaining s,
  exists t (k j : nat),
    trace (snd (pollLoop remote instanceId commandId remaining s)) = trace s ++ t /\
    calls t = repeat (pollCmd instanceId commandId) k /\
    sleeps t = repeat 10000 j /\
    (k <= remaining)%nat /\
    ((j + 1 = k)%nat \/ (j = k /\ k = remaining)).
Proof.
  induction remaining as [|remaining IH]; intros s.
  - exists [], 0%nat, 0%nat. simpl. rewrite app_nil_r. repeat split; auto.
  - rewrite pollLoop_S. cbv zeta. fold (pollCmd instanceId commandId).
    set (c := pollCmd instanceId commandId).
    set (s1 := {| world := snd (remote c (world s)); trace := trace s ++ [Sent c] |}).
    assert (Hrec : exists t (k j : nat),
               trace (snd (pollLoop remote instanceId commandId remaining (snd (sleep 10000 s1)))) =
                 trace s ++ t /\
               calls t = repeat c k /\ sleeps t = repeat 10000 j /\
               (k <= S remaining)%nat /\ ((j + 1 = k)%nat \/ (j = k /\ k = S remaining))).
    { destruct (IH (snd (sleep 10000 s1))) as (t & k & j & Ht & Hc & Hs & Hk & Hj).
      exists ([Sent c; Slept 10000] ++ t), (S k), (S j).
      rewrite Ht. unfold sleep. cbn [snd trace]. subst s1. cbn [trace].
      rewrite <- !app_assoc. split; [reflexivity|].
      simpl. rewrite Hc, Hs. repeat split; auto; lia. }
    destruct (fst (remote c (world s))) as [result|e]; [|exact Hrec].
    destruct (isTerminal _); [|exact Hrec].
    exists [Sent c], 1%nat, 0%nat. simpl. repeat split; auto; lia.
Qed.

(** When no poll is conclusive, every round is a request and a sleep. *)
Lemma pollLoop_inconclusive :
  (forall w, inconclusive (fst (remote (pollCmd instanceId commandId) w))) ->
  forall remaining s,
    pollLoop remote instanceId commandId remaining s =
    (Ret tt,
     {| world := world (snd (pollLoop remote instanceId commandId remaining s));
        trace := trace s ++ List.concat (repeat [Sent (pollCmd instanceId commandId); Slept 10000]
                                           remaining) |}).
Proof.
  intros Hinc. induction remaining as [|remaining IH]; intros s.
  - simpl. unfold ret. rewrite app_nil_r. destruct s; reflexivity.
  - rewrite pollLoop_S. cbv zeta. fold (pollCmd instanceId commandId).
    set (c := pollCmd instanceId commandId).
    set (s1 := {| world := snd (remote c (world s)); trace := trace s ++ [Sent c] |}).
    assert (Hrec : pollLoop remote instanceId commandId remaining (snd (sleep 10000 s1)) =
                   (Ret tt,
                    {| world := world (snd (pollLoop remote instanceId commandId remaining
                                              (snd (sleep 10000 s1))));
                       trace := trace s ++ List.concat (repeat [Sent c; Slept 10000] (S remaining)) |})).
    { rewrite IH at 1. unfold sleep at 2. cbn [snd trace]. subst s1. cbn [trace].
      rewrite <- !app_assoc. reflexivity. }
    pose proof (Hinc (world s)) as Hw. fold c in Hw.
    destruct (fst (remote c (world s))) as [result|e]; simpl in Hw.
    + rewrite Hw. exact Hrec.
    + exact Hrec.
Qed.

Lemma pollLoop_within (P : Event Command -> Prop) :
  P (Sent (pollCmd instanceId commandId)) -> P (Slept 10000) ->
  forall remaining,
    within P remaining (Z.of_nat remaining * 10000)
           (pollLoop remote instanceId commandId remaining).
Proof.
  intros Hsent Hslept. induction remaining as [|remaining IH].
  - apply within_ret.
  - cbn [pollLoop].
    bound (1 + remaining)%nat (0 + (10000 + Z.of_nat remaining * 10000)).
    apply within_bind; [lia| |].
    + bound (1 + 0)%nat (0 + 0).
      apply within_try_catch; [lia| |intros e; apply within_ret].
      bound (1 + 0)%nat (0 + 0).
      apply within_bind; [lia | apply within_send, Hsent | intros r; apply within_ret].
    + intros [|]; [apply within_ret_le; lia|].
      bound (0 + remaining)%nat (10000 + Z.of_nat remaining * 10000).
      apply within_bind; [lia | apply within_sleep, Hslept | intros _; exact IH].
Qed.

End Poll.

(** X7.  [waitForCommand] does nothing for an empty command identifier.
    Otherwise it sleeps 30 seconds, then polls the command status up to 90
    times, sleeping 10 seconds after every poll that is not conclusive: it
    sleeps once less often than it polls, unless all 90 polls were used,
    and never more than 930 seconds in total. *)
Theorem waitForCommand_schedule {World : Type}
        (remote : Command -> World -> Outcome Output.t * World)
        (instanceId commandId : string) (s : St World) :
  (commandId = EmptyString -> waitForCommand remote instanceId commandId s = (Ret tt, s)) /\
  (commandId <> EmptyString ->
   exists t (k j : nat),
     trace (snd (waitForCommand remote instanceId commandId s)) = trace s ++ t /\
     calls t = repeat (pollCmd instanceId commandId) k /\
     sleeps t = 30000 :: repeat 10000 j /\
     (1 <= k <= 90)%nat /\
     ((j + 1 = k)%nat \/ (j = 90 /\ k = 90)%nat) /\
     total (sleeps t) <= 930000).
Proof.
  unfold waitForCommand. split.
  - intros ->. reflexivity.
  - intros Hne. destruct (String.eqb_spec commandId EmptyString) as [|_]; [contradiction|].
    rewrite bind_run. cbn [sleep].
    destruct (pollLoop_schedule remote instanceId commandId 90
                {| world := world s; trace := trace s ++ [Slept 30000] |})
      as (t & k & j & Ht & Hc & Hs & Hk & Hj).
    exists (Slept 30000 :: t), k, j. rewrite Ht. cbn [trace].
    rewrite <- app_assoc. split; [reflexivity|].
    cbn [calls sleeps]. rewrite Hc, Hs. split; [reflexivity|]. split; [reflexivity|].
    split; [lia|]. split; [lia|].
    cbn [total fold_right]. fold (total (repeat 10000 j)). rewrite total_repeat. lia.
Qed.

(** X8.  When no poll of the command status is conclusive (every poll
    throws, or reports a status other than [Success], [Failed] and
    [Cancelled]), [waitForCommand] still returns normally, after exactly 90
    polls and 930 seconds of sleep. *)
Theorem waitForCommand_gives_up {World : Type}
        (remote : Command -> World -> Outcome Output.t * World)
        (instanceId commandId : string) (s : St World) :
  commandId <> EmptyString ->
  (forall w, inconclusive (fst (remote (pollCmd instanceId commandId) w))) ->
  fst (waitForCommand remote instanceId commandId s) = Ret tt /\
  trace (snd (waitForCommand remote instanceId commandId s)) =
    trace s ++ Slept 30000
            :: List.concat (repeat [Sent (pollCmd instanceId commandId); Slept 10000] 90) /\
  List.length (calls (trace (snd (waitForCommand remote instanceId commandId s)))) =
    (List.length (calls (trace s)) + 90)%nat /\
  total (sleeps (trace (snd (waitForCommand remote instanceId commandId s)))) =
    total (sleeps (trace s)) + 930000.
Proof.
  intros Hne Hinc. unfold waitForCommand.
  destruct (String.eqb_spec commandId EmptyString) as [|_]; [contradiction|].
  rewrite bind_run. cbn [sleep].
  rewrite (pollLoop_inconclusive remote instanceId commandId Hinc 90).
  cbn [fst snd trace]. rewrite <- app_assoc. split; [reflexivity|]. split; [reflexivity|].
  set (c := pollCmd instanceId commandId).
  rewrite calls_app, sleeps_app, length_app, total_app.
  split; f_equal; try (vm_compute; reflexivity).
Qed.

Section Provision.
Context {World : Type}.
Variable remote : Command -> World -> Outcome Output.t * World.
Variable rt : Runtime World.
Variable env : Env.

(** A class of events that holds the sleeps of 10, 30 and 120 seconds and
    every request that neither terminates instances nor dispatches a
    command, the calls of the SDK waiter apart. *)
Variable P : Event Command -> Prop.
Hypothesis Hslept : forall ms, ms = 10000 \/ ms = 30000 \/ ms = 120000 -> P (Slept ms).
Hypothesis Hsent :
  forall c, isTerminate c = false -> isSendCommand c = false -> isWaiter c = false ->
            P (Sent c).

Lemma within_dateNow : within P 0 0 (dateNow rt).
Proof. intros s. exists []. simpl. rewrite app_nil_r. repeat split; auto; lia. Qed.

Lemma waitForCommand_within (instanceId commandId : string) :
  within P 90 930000 (waitForCommand remote instanceId commandId).
Proof.
  unfold waitForCommand. destruct (String.eqb commandId EmptyString);
    [apply within_ret_le; lia|].
  bound (0 + 90)%nat (30000 + Z.of_nat 90 * 10000).
  apply within_bind; [lia | apply within_sleep, Hslept; auto | intros _].
  apply pollLoop_within; [now apply Hsent | apply Hslept; auto].
Qed.

Lemma getAdminPassword_within : within P 1 0 (getAdminPassword remote env).
Proof.
  unfold getAdminPassword. bound (1 + 0)%nat (0 + 0).
  apply within_bind; [lia | now apply within_send, Hsent | intros r; apply within_ret].
Qed.

Lemma getOrCreateKeyPair_within (secretArn : string) :
  within P 4 0 (getOrCreateKeyPair remote rt secretArn).
Proof.
  unfold getOrCreateKeyPair. bound (2 + 2)%nat (0 + 0).
  apply within_try_catch; [lia| |intros _].
  - bound (1 + 1)%nat (0 + 0).
    apply within_bind; [lia | now apply within_send, Hsent | intros secret].
    destruct (JSON_parse_secret rt _) as [data|]; [|apply within_throw_le; lia].
    bound (1 + 0)%nat (0 + 0).
    apply within_bind; [lia | now apply within_send, Hsent | intros _; apply within_ret].
  - bound (0 + 2)%nat (0 + 0).
    apply within_bind; [lia | apply within_dateNow | intros now].
    bound (1 + 1)%nat (0 + 0).
    apply within_bind; [lia | now apply within_send, Hsent | intros kp].
    bound (1 + 0)%nat (0 + 0).
    apply within_bind; [lia | now apply within_send, Hsent | intros _; apply within_ret].
Qed.

Lemma launchEC2Instance_within (subnetId securityGroupId instanceType : string)
      (keyName : option string) :
  within P 2 0 (launchEC2Instance remote rt env subnetId securityGroupId instanceType keyName).
Proof.
  unfold launchEC2Instance. bound (1 + 1)%nat (0 + 0).
  apply within_bind; [lia | now apply within_send, Hsent | intros images].
  cbv zeta. destruct (negb _); [apply within_throw_le; lia|].
  bound (1 + 0)%nat (0 + 0).
  apply within_bind; [lia | now apply within_send, Hsent | intros r; apply within_ret].
Qed.

Lemma ensureJoinDocument_within : within P 3 0 (ensureJoinDocument remote rt).
Proof.
  unfold ensureJoinDocument. cbv zeta. bound (1 + 2)%nat (0 + 0).
  apply within_try_catch; [lia| |intros _].
  - bound (1 + 0)%nat (0 + 0).
    apply within_bind; [lia | now apply within_send, Hsent | intros _; apply within_ret].
  - bound (2 + 0)%nat (0 + 0).
    apply within_bind; [lia | | intros _; apply within_ret].
    bound (1 + 1)%nat (0 + 0).
    apply within_try_catch; [lia| |intros _].
    + bound (1 + 0)%nat (0 + 0).
      apply within_bind; [lia | now apply within_send, Hsent | intros _; apply within_ret].
    + bound (1 + 0)%nat (0 + 0).
      apply within_bind; [lia | now apply within_send, Hsent | intros _; apply within_ret].
Qed.

(** From here on the class also holds the dispatch of commands. *)
Hypothesis Hdispatch : forall input, P (Sent (SendCommandCommand input)).

Lemma joinDomain_within (instanceId directoryId domainName : string) (dnsIps : list string) :
  within P 187 1980000 (joinDomain remote rt env instanceId directoryId domainName dnsIps).
Proof.
  unfold joinDomain.
  bound (1 + 186)%nat (0 + 1980000).
  apply within_bind; [lia | now apply within_send, Hsent | intros info].
  bound (0 + 186)%nat (120000 + 1860000).
  apply within_bind; [lia | | intros _].
  { destruct (Output.InstanceInformationList info) as [[|? ?]|];
      [apply within_sleep, Hslept; auto | apply within_ret_le; lia
      | apply within_sleep, Hslept; auto]. }
  cbv zeta.
  bound (3 + 183)%nat (0 + 1860000).
  apply within_bind; [lia | apply ensureJoinDocument_within | intros useDoc].
  bound (1 + 182)%nat (0 + 1860000).
  apply within_bind; [lia | apply within_send, Hdispatch | intros joinCmd].
  bound (90 + 92)%nat (930000 + 930000).
  apply within_bind; [lia | apply waitForCommand_within | intros _].
  bound (1 + 91)%nat (0 + 930000).
  apply within_bind; [lia | apply getAdminPassword_within | intros adminPassword].
  bound (1 + 90)%nat (0 + 930000).
  apply within_bind; [lia | apply within_send, Hdispatch | intros runCmd].
  apply waitForCommand_within.
Qed.

End Provision.

(** *** Requests, calls of the waiter and sleeps of the Create and Update path *)

Section Budget.
Context {World : Type}.
Variable remote : Command -> World -> Outcome Output.t * World.
Variable rt : Runtime World.
Variable env : Env.

Lemma clientEvent_slept (ms : Z) :
  ms = 10000 \/ ms = 30000 \/ ms = 120000 -> clientEvent (Slept ms).
Proof. intros H. split; [exact H | exact I]. Qed.

Lemma clientEvent_sent (c : Command) :
  isTerminate c = false -> isSendCommand c = false -> isWaiter c = false ->
  clientEvent (Sent c).
Proof. intros Ht _ Hw. split; [|exact Hw]. destruct c; try exact I; discriminate. Qed.

Lemma clientEvent_dispatch (input : SendCommand.Input) :
  clientEvent (Sent (SendCommandCommand input)).
Proof. split; [exact I | reflexivity]. Qed.

Lemma client_calls (t : list (Event Command)) :
  Forall clientEvent t ->
  Forall provisionEvent t /\
  filter isWaiter (calls t) = [] /\
  filter isRequest (calls t) = calls t.
Proof.
  induction 1 as [|[c|ms] t [Hp Hq] _ (IH1 & IH2 & IH3)]; [auto| |].
  - cbn [calls filter]. unfold isRequest. cbn in Hq. rewrite Hq. cbn [negb].
    fold isRequest. rewrite IH3. auto.
  - cbn [calls]. auto.
Qed.

(** A step that never calls the waiter. *)
Lemma within_budget {A : Type} (m : M World A) (n : nat) (d : Z) :
  within clientEvent n d m -> budget provisionEvent 0 n d m.
Proof.
  intros H s. destruct (H s) as (t & Ht & Hall & Hn & Hd).
  destruct (client_calls t Hall) as (Hp & Hw & Hr).
  exists t. rewrite Hw, Hr. repeat split; auto.
Qed.

Lemma budget_bind {A B : Type} (P : Event Command -> Prop) (w1 w2 n1 n2 : nat) (d1 d2 : Z)
      (m : M World A) (k : A -> M World B) :
  0 <= d2 ->
  budget P w1 n1 d1 m -> (forall a, budget P w2 n2 d2 (k a)) ->
  budget P (w1 + w2) (n1 + n2) (d1 + d2) (bind m k).
Proof.
  intros Hd Hm Hk s. rewrite bind_run.
  destruct (Hm s) as (t1 & Ht1 & Hall1 & Hw1 & Hc1 & Hs1).
  destruct (m s) as [[a|e] s1]; simpl in Ht1.
  - destruct (Hk a s1) as (t2 & Ht2 & Hall2 & Hw2 & Hc2 & Hs2).
    exists (t1 ++ t2). rewrite Ht2, Ht1, <- app_assoc.
    split; [reflexivity|]. split; [apply Forall_app; auto|].
    rewrite calls_app, sleeps_app, !filter_app, !length_app, total_app. lia.
  - exists t1. simpl. split; [exact Ht1|]. split; [exact Hall1|]. lia.
Qed.

Lemma budget_weaken {A : Type} (P : Event Command -> Prop) (w w' n n' : nat) (d d' : Z)
      (m : M World A) :
  (w <= w')%nat -> (n <= n')%nat -> d <= d' ->
  budget P w n d m -> budget P w' n' d' m.
Proof.
  intros Hw Hn Hd Hm s. destruct (Hm s) as (t & Ht & Hall & H1 & H2 & H3).
  exists t. repeat split; auto; lia.
Qed.

(** [waitForInstance] calls the waiter once, for the instance, with a
    maximal wait of 600 seconds, and then sleeps two minutes. *)
Lemma waitForInstance_budget (instanceId : string) :
  budget provisionEvent 1 0 120000 (waitForInstance remote instanceId).
Proof.
  intros s. unfold waitForInstance. rewrite bind_run, (send_run remote).
  destruct (fst (remote (WaitUntilInstanceRunning 600 [instanceId]) (world s))) as [o|e].
  - exists [Sent (WaitUntilInstanceRunning 600 [instanceId]); Slept 120000].
    cbn [snd sleep trace]. rewrite <- app_assoc.
    split; [reflexivity|]. split.
    + constructor; [reflexivity|]. constructor; [|constructor]. cbn. auto.
    + cbn. lia.
  - exists [Sent (WaitUntilInstanceRunning 600 [instanceId])].
    split; [reflexivity|]. split; [constructor; [reflexivity | constructor]|]. cbn. lia.
Qed.

Lemma provision_budget (props : ResourceProperties) :
  budget provisionEvent 1 193 2100000 (provision remote rt env props).
Proof.
  unfold provision. cbv zeta.
  destruct (JSON_parse_dnsIps rt _) as [dnsIps|];
    [|apply (budget_weaken _ 0 _ 0 _ 0); [lia | lia | lia |];
      apply within_budget, within_throw].
  apply (budget_weaken _ (0 + (0 + (1 + 0))) _ (4 + (2 + (0 + 187))) _
           (0 + (0 + (120000 + 1980000)))); [lia | lia | lia |].
  apply budget_bind; [lia | | intros keyPairInfo].
  { apply within_budget, getOrCreateKeyPair_within; exact clientEvent_sent. }
  apply budget_bind; [lia | | intros instanceId].
  { apply within_budget, launchEC2Instance_within; exact clientEvent_sent. }
  apply budget_bind; [lia | apply waitForInstance_budget | intros _].
  apply (budget_weaken _ (0 + 0) _ (187 + 0) _ (1980000 + 0)); [lia | lia | lia |].
  apply budget_bind; [lia | | intros _; apply within_budget, within_ret].
  apply within_budget, joinDomain_within;
    first [exact clientEvent_slept | exact clientEvent_sent | exact clientEvent_dispatch].
Qed.

End Budget.

(** X9.  On Create and Update the handler never sends a request to
    terminate instances, whatever fails.  It calls the SDK waiter at most
    once, with a maximal wait of 600 seconds, and sends at most 193
    requests through its clients; each of its own sleeps lasts 10, 30 or
    120 seconds, and they sum up to at most 2100 seconds.  The requests and
    pauses inside the SDK waiter are not counted. *)
Theorem provision_effort {World : Type}
        (remote : Command -> World -> Outcome Output.t * World)
        (rt : Runtime World) (env : Env) (event : EventProps.t) :
  EventProps.RequestType event <> Delete ->
  budget provisionEvent 1 193 2100000 (handler remote rt env event).
Proof.
  intros Hrt. unfold handler.
  destruct (EventProps.RequestType event); [| |contradiction].
  all: apply provision_budget.
Qed.

End AdAutomationEffort.

(** ** The steps of the AD automation handler *)

Module AdAutomationSteps.
Import AdAutomation ProvisionSpec AsyncFacts AdAutomationFacts.

(** *** Sorting and splitting *)

Lemma insertBy_perm {A : Type} (cmp : A -> A -> comparison) (x : A) (l : list A) :
  Permutation (insertBy cmp x l) (x :: l).
Proof.
  induction l as [|y l IH]; simpl; [reflexivity|].
  destruct (cmp x y); try reflexivity.
  - rewrite IH. apply perm_swap.
  - rewrite IH. apply perm_swap.
Qed.

Lemma fold_insertBy_perm {A : Type} (cmp : A -> A -> comparison) (l acc : list A) :
  Permutation (fold_left (fun acc x => insertBy cmp x acc) l acc) (acc ++ l).
Proof.
  revert acc. induction l as [|x l IH]; intros acc; simpl.
  - now rewrite app_nil_r.
  - rewrite IH, insertBy_perm. now apply Permutation_middle.
Qed.

(** [sortBy] returns a permutation of its argument, whatever the
    comparison function. *)
Lemma sortBy_permutation {A : Type} (cmp : A -> A -> comparison) (l : list A) :
  Permutation (sortBy cmp l) l.
Proof. unfold sortBy. now rewrite fold_insertBy_perm. Qed.

Section Newest.
Context {World : Type}.
Variable rt : Runtime World.
Hypothesis Hirrefl : forall a, localeCompare rt a a <> Lt.
Hypothesis Htrans : forall a b c,
    localeCompare rt a b = Lt -> localeCompare rt b c = Lt -> localeCompare rt a c = Lt.

Local Abbreviation headNewest := (ProvisionSpec.headNewest rt).

Lemma insertBy_head (x h : Image) (l : list Image) :
  headNewest h (h :: l) ->
  exists h' l', insertBy (newestFirst rt) x (h :: l) = h' :: l' /\ headNewest h' (h' :: l').
Proof.
  intros Hh. pose proof (insertBy_perm (newestFirst rt) x (h :: l)) as Hperm.
  cbn [insertBy] in *. unfold newestFirst at 1. unfold newestFirst at 1 in Hperm.
  fold (dateOf h) in *. fold (dateOf x) in *.
  destruct (localeCompare rt (dateOf h) (dateOf x)) eqn:Hc.
  - exists h, (insertBy (newestFirst rt) x l). split; [reflexivity|].
    intros y Hy. apply (Permutation_in _ Hperm) in Hy. destruct Hy as [<-|Hy].
    + congruence.
    + now apply Hh.
  - exists x, (h :: l). split; [reflexivity|].
    intros y [<-|Hy]; [apply Hirrefl|].
    intros Hxy. apply (Hh y Hy). now apply (Htrans _ (dateOf x)).
  - exists h, (insertBy (newestFirst rt) x l). split; [reflexivity|].
    intros y Hy. apply (Permutation_in _ Hperm) in Hy. destruct Hy as [<-|Hy].
    + congruence.
    + now apply Hh.
Qed.

Lemma fold_insertBy_head (l : list Image) :
  forall h acc,
    headNewest h (h :: acc) ->
    exists h' l',
      fold_left (fun acc x => insertBy (newestFirst rt) x acc) l (h :: acc) = h' :: l' /\
      headNewest h' (h' :: l').
Proof.
  induction l as [|x l IH]; intros h acc Hh; simpl.
  - exists h, acc. auto.
  - destruct (insertBy_head x h acc Hh) as (h' & l' & Heq & Hh').
    cbn [insertBy] in Heq. rewrite Heq. now apply IH.
Qed.

Lemma sortBy_head_newest (l : list Image) (img : Image) (rest : list Image) :
  sortBy (newestFirst rt) l = img :: rest ->
  In img l /\ headNewest img l.
Proof.
  intros Hsort. split.
  - apply (Permutation_in _ (sortBy_permutation (newestFirst rt) l)).
    rewrite Hsort. now left.
  - destruct l as [|x l]; [discriminate|].
    unfold sortBy in Hsort. cbn [fold_left insertBy] in Hsort.
    assert (Hx : headNewest x [x]).
    { intros y [<-|[]]. apply Hirrefl. }
    destruct (fold_insertBy_head l x [] Hx) as (h' & l' & Heq & Hh').
    rewrite Heq in Hsort. injection Hsort as -> ->.
    intros y Hy. apply Hh'.
    apply (Permutation_in (l:=x :: l)); [|exact Hy].
    rewrite <- Heq. symmetry.
    apply (fold_insertBy_perm (newestFirst rt) l [x]).
Qed.

End Newest.

(** X10.  When [localeCompare] orders strings strictly (irreflexive and
    transitive), the image whose identifier [launchEC2Instance] takes is an
    image of the answer, and no image of the answer has a later creation
    date. *)
Theorem newest_image_selected {World : Type} (rt : Runtime World)
        (images : Output.t) (l : list Image) (img : Image) (rest : list Image) :
  (forall a, localeCompare rt a a <> Lt) ->
  (forall a b c,
      localeCompare rt a b = Lt -> localeCompare rt b c = Lt -> localeCompare rt a c = Lt) ->
  Output.Images images = Some l ->
  sortBy (newestFirst rt) l = img :: rest ->
  newestImageId rt images = ImageId img /\
  In img l /\
  forall x, In x l ->
    localeCompare rt (Js.nullish (CreationDate img) EmptyString)
                     (Js.nullish (CreationDate x) EmptyString) <> Lt.
Proof.
  intros Hirrefl Htrans Himages Hsort. split.
  - unfold newestImageId. rewrite Himages, Hsort. reflexivity.
  - exact (sortBy_head_newest rt Hirrefl Htrans l img rest Hsort).
Qed.

Lemma splitComma_nonempty (s : string) : splitComma s <> [].
Proof.
  destruct s as [|c s]; simpl; [discriminate|].
  destruct (Ascii.eqb c ","); [discriminate|].
  destruct (splitComma s); discriminate.
Qed.

(** Splitting at the commas loses nothing: joining the pieces with commas
    gives the string back; no piece holds a comma; and a string without a
    comma is its only piece. *)
Lemma splitComma_joinComma (s : string) :
  joinComma (splitComma s) = s /\
  Forall (fun piece => includesComma piece = false) (splitComma s) /\
  (includesComma s = false -> splitComma s = [s]).
Proof.
  unfold joinComma. induction s as [|c s (IHjoin & IHall & IHone)].
  - simpl. repeat split; auto.
  - cbn [splitComma includesComma].
    destruct (Ascii.eqb_spec c ",") as [->|Hc].
    + split; [|split].
      * cbn [String.concat]. pose proof (splitComma_nonempty s) as Hne.
        destruct (splitComma s) as [|h t] eqn:Hs; [contradiction|].
        rewrite IHjoin. reflexivity.
      * constructor; [reflexivity | exact IHall].
      * discriminate.
    + pose proof (splitComma_nonempty s) as Hne.
      destruct (splitComma s) as [|h t] eqn:Hs; [contradiction|].
      split; [|split].
      * rewrite <- IHjoin. cbn [String.concat]. destruct t; reflexivity.
      * inversion IHall as [|? ? Hh Ht]; subst. constructor; [|exact Ht].
        cbn [includesComma]. destruct (Ascii.eqb_spec c ","); [contradiction|]. exact Hh.
      * simpl. intros Hno. specialize (IHone Hno). injection IHone as -> ->. reflexivity.
Qed.

(** X11.  The DNS addresses [joinDomain] passes to the join command keep
    what the handler was given: joined with commas they read the same as
    the given list.  A single entry is passed as pieces that hold no comma;
    a list of no or several entries is passed as it is, commas included. *)
Theorem dnsAddresses_normalised (dnsIps : list string) :
  joinComma (dnsAddresses dnsIps) = joinComma dnsIps /\
  (forall ip, dnsIps = [ip] ->
              Forall (fun a => includesComma a = false) (dnsAddresses dnsIps)) /\
  (List.length dnsIps <> 1%nat -> dnsAddresses dnsIps = dnsIps).
Proof.
  destruct dnsIps as [|ip [|ip2 rest]]; cbn [dnsAddresses].
  - split; [reflexivity|]. split; [discriminate | reflexivity].
  - destruct (splitComma_joinComma ip) as (Hjoin & Hall & _).
    destruct (includesComma ip) eqn:Hc.
    + split; [exact Hjoin|]. split; [intros ? _; exact Hall|]. intros H. now contradiction H.
    + split; [reflexivity|]. split; [|intros H; now contradiction H].
      intros ip' H. injection H as <-. constructor; [exact Hc | constructor].
  - split; [reflexivity|]. split; [discriminate | reflexivity].
Qed.

(** *** Key pair, launch, document and teardown *)

Section Steps.
Context {World : Type}.
Variable remote : Command -> World -> Outcome Output.t * World.
Variable rt : Runtime World.
Variable env : Env.

Ltac run :=
  repeat (rewrite bind_run || rewrite (send_run remote)
          || cbn [fst snd world trace dateNow ret throw]).

(** X12.  When the secret is read, its text parsed and the key pair it
    names looked up, [getOrCreateKeyPair] returns the name and the private
    key of the secret, having sent these two requests only.  When the read
    path fails (the secret is not read, or not parsed, or the key pair is
    not found), the error is dropped: a key pair named after the clock is
    created and stored in the secret, and returned with the key material
    of the answer; an error of the creation or of the storing is thrown as
    it is. *)
Theorem getOrCreateKeyPair_outcomes (secretArn : string) (s : St World) :
  (forall secret w1 data o w2,
      remote (GetSecretValueCommand secretArn) (world s) = (Ret secret, w1) ->
      JSON_parse_secret rt (secretText secret) = Some data ->
      remote (DescribeKeyPairsCommand [KeyPairName data]) w1 = (Ret o, w2) ->
      getOrCreateKeyPair remote rt secretArn s =
      (Ret {| keyName := KeyPairName data; privateKey := PrivateKey data |},
       {| world := w2;
          trace := trace s ++ [Sent (GetSecretValueCommand secretArn);
                               Sent (DescribeKeyPairsCommand [KeyPairName data])] |})) /\
  (forall s1,
      readFails remote rt secretArn s s1 ->
      let name := generatedKeyName (Date_now rt (world s1)) in
      (forall e w,
          remote (CreateKeyPairCommand name) (world s1) = (Throw e, w) ->
          getOrCreateKeyPair remote rt secretArn s =
          (Throw e, {| world := w; trace := trace s1 ++ [Sent (CreateKeyPairCommand name)] |})) /\
      (forall kp w,
          remote (CreateKeyPairCommand name) (world s1) = (Ret kp, w) ->
          let put := PutSecretValueCommand secretArn
                       (JSON_stringify_secret rt name (Output.KeyMaterial kp)) in
          (forall e w',
              remote put w = (Throw e, w') ->
              getOrCreateKeyPair remote rt secretArn s =
              (Throw e,
               {| world := w';
                  trace := trace s1 ++ [Sent (CreateKeyPairCommand name); Sent put] |})) /\
          (forall o w',
              remote put w = (Ret o, w') ->
              getOrCreateKeyPair remote rt secretArn s =
              (Ret {| keyName := Some name;
                      privateKey :=
                        Some (match Output.KeyMaterial kp with
                              | Some material => material
                              | None => EmptyString
                              end) |},
               {| world := w';
                  trace := trace s1 ++ [Sent (CreateKeyPairCommand name); Sent put] |})))).
Proof.
  split.
  - intros secret w1 data o w2 Hget Hparse Hdesc.
    unfold getOrCreateKeyPair, try_catch. run. rewrite Hget. run.
    change (Js.nullish (Output.SecretString secret) "{}") with (secretText secret).
    rewrite Hparse. run. rewrite Hdesc. run. rewrite <- app_assoc. reflexivity.
  - intros s1 Hread name.
    unfold getOrCreateKeyPair. set (h := fun _ : Js.Thrown => _).
    match goal with |- context [try_catch ?m h] => set (body := m) end.
    assert (Hcatch : exists err, try_catch body h s = h err s1).
    { unfold try_catch, body. run.
      destruct Hread as [(e & w1 & Hget & ->) | [(secret & w1 & Hget & Hparse & ->)
                        | (secret & w1 & data & e & w2 & Hget & Hparse & Hdesc & ->)]].
      - rewrite Hget. run. eexists. reflexivity.
      - rewrite Hget. run.
        change (Js.nullish (Output.SecretString secret) "{}") with (secretText secret).
        rewrite Hparse. run. eexists. reflexivity.
      - rewrite Hget. run.
        change (Js.nullish (Output.SecretString secret) "{}") with (secretText secret).
        rewrite Hparse. run. rewrite Hdesc. run. rewrite <- app_assoc.
        eexists. reflexivity. }
    destruct Hcatch as [err ->]. subst h. cbv beta. clear body.
    assert (Hname : ("ad-automation-key-" ++ Js.of_Z (Date_now rt (world s1)))%string = name)
      by reflexivity.
    split.
    + intros e w Hcreate. run. rewrite Hname, Hcreate. reflexivity.
    + intros kp w Hcreate. split.
      * intros e w' Hput. run. rewrite Hname, Hcreate. run. rewrite Hput. run.
        rewrite <- app_assoc. reflexivity.
      * intros o w' Hput. run. rewrite Hname, Hcreate. run. rewrite Hput. run.
        rewrite <- app_assoc. reflexivity.
Qed.

(** X13.  [launchEC2Instance] first lists the images.  It asks for an
    instance at most once, and then for exactly one instance of an image
    the answer listed, with a non-empty image identifier; when the images
    are listed but the first of the sorted list has no identifier (or there
    is none), it throws [No Windows AMI found] and asks for no instance. *)
Theorem launchEC2Instance_outcomes (subnetId securityGroupId instanceType : string)
        (keyName : option string) (s : St World) :
  (exists t,
     trace (snd (launchEC2Instance remote rt env subnetId securityGroupId instanceType keyName s))
       = trace s ++ t /\
     ((calls t = [describeImagesCmd] /\
       exists e, fst (launchEC2Instance remote rt env subnetId securityGroupId instanceType
                        keyName s) = Throw e) \/
      exists input images l img w,
        calls t = [describeImagesCmd; RunInstancesCommand input] /\
        remote describeImagesCmd (world s) = (Ret images, w) /\
        Output.Images images = Some l /\ In img l /\
        ImageId img = Some (RunInstances.ImageId input) /\
        RunInstances.ImageId input <> EmptyString /\
        RunInstances.MinCount input = 1 /\ RunInstances.MaxCount input = 1 /\
        RunInstances.KeyName input = keyName /\
        RunInstances.SubnetId input = subnetId /\
        RunInstances.SecurityGroupIds input = [securityGroupId])) /\
  (forall images w,
      remote describeImagesCmd (world s) = (Ret images, w) ->
      Js.truthy (newestImageId rt images) = false ->
      launchEC2Instance remote rt env subnetId securityGroupId instanceType keyName s =
      (Throw (Js.Err (Js.newError "No Windows AMI found")),
       {| world := w; trace := trace s ++ [Sent describeImagesCmd] |})).
Proof.
  unfold launchEC2Instance. fold describeImagesCmd. cbv zeta. split.
  - run. destruct (remote describeImagesCmd (world s)) as [[images|e] w1] eqn:Hdesc; run.
    + destruct (Js.truthy (newestImageId rt images)) eqn:Hami; cbn [negb]; run.
      * match goal with |- context [RunInstancesCommand ?i] => set (input := i) end.
        assert (Hinput : exists l img,
                   Output.Images images = Some l /\ In img l /\
                   ImageId img = Some (RunInstances.ImageId input) /\
                   RunInstances.ImageId input <> EmptyString).
        { subst input. cbn [RunInstances.ImageId]. unfold newestImageId in Hami |- *.
          destruct (Output.Images images) as [l|] eqn:Hl; [|discriminate].
          destruct (sortBy (newestFirst rt) l) as [|img rest] eqn:Hsort; [discriminate|].
          destruct (ImageId img) as [id|] eqn:Hid; [|discriminate].
          exists l, img. cbn [Js.nullish]. repeat split; auto.
          - apply (Permutation_in _ (sortBy_permutation (newestFirst rt) l)).
            rewrite Hsort. now left.
          - intros ->. discriminate Hami. }
        destruct Hinput as (l & img & Hl & Hin & Hid & Hne).
        destruct (remote (RunInstancesCommand input) w1) as [[o|e] w2]; run.
        all: eexists; split; [rewrite <- app_assoc; reflexivity|]; right.
        all: exists input, images, l, img, w1; repeat split; auto.
      * eexists. split; [reflexivity|]. left. split; [reflexivity|]. eexists. reflexivity.
    + eexists. split; [reflexivity|]. left. split; [reflexivity|]. eexists. reflexivity.
  - intros images w Hdesc Hami. run. rewrite Hdesc. run. rewrite Hami. reflexivity.
Qed.

(** What the document lookup of [joinDomain] does, by the answers of the
    service. *)
Lemma ensureJoinDocument_cases (s : St World) :
  (forall o w1,
      remote (GetDocumentCommand builtinDoc) (world s) = (Ret o, w1) ->
      ensureJoinDocument remote rt s =
      (Ret builtinDoc,
       {| world := w1; trace := trace s ++ [Sent (GetDocumentCommand builtinDoc)] |})) /\
  (forall e w1,
      remote (GetDocumentCommand builtinDoc) (world s) = (Throw e, w1) ->
      (forall o w2,
          remote (GetDocumentCommand customDoc) w1 = (Ret o, w2) ->
          ensureJoinDocument remote rt s =
          (Ret customDoc,
           {| world := w2;
              trace := trace s ++ [Sent (GetDocumentCommand builtinDoc);
                                   Sent (GetDocumentCommand customDoc)] |})) /\
      (forall e1 w2,
          remote (GetDocumentCommand customDoc) w1 = (Throw e1, w2) ->
          (forall o w3,
              remote (createDocCmd rt) w2 = (Ret o, w3) ->
              ensureJoinDocument remote rt s =
              (Ret customDoc,
               {| world := w3;
                  trace := trace s ++ [Sent (GetDocumentCommand builtinDoc);
                                       Sent (GetDocumentCommand customDoc);
                                       Sent (createDocCmd rt)] |})) /\
          (forall e2 w3,
              remote (createDocCmd rt) w2 = (Throw e2, w3) ->
              ensureJoinDocument remote rt s =
              (Throw e2,
               {| world := w3;
                  trace := trace s ++ [Sent (GetDocumentCommand builtinDoc);
                                       Sent (GetDocumentCommand customDoc);
                                       Sent (createDocCmd rt)] |})))).
Proof.
  unfold ensureJoinDocument, createDocCmd. fold builtinDoc customDoc. cbv zeta.
  unfold try_catch. split.
  - intros o w1 H1. run. rewrite H1. reflexivity.
  - intros e w1 H1. split.
    + intros o w2 H2. run. rewrite H1. run. unfold try_catch. run. rewrite H2. run.
      rewrite <- app_assoc. reflexivity.
    + intros e1 w2 H2. split.
      * intros o w3 H3. run. rewrite H1. run. unfold try_catch. run. rewrite H2. run.
        rewrite H3. run. rewrite <- !app_assoc. reflexivity.
      * intros e2 w3 H3. run. rewrite H1. run. unfold try_catch. run. rewrite H2. run.
        rewrite H3. run. rewrite <- !app_assoc. reflexivity.
Qed.


(** X14.  The document lookup of [joinDomain] yields the built-in document
    name when the service finds that document, without looking further.
    When that lookup fails it looks the custom document up and yields the
    custom name when it is found.  When both lookups fail it creates the
    custom document: it yields the custom name when the creation succeeds
    and throws the error of the creation when it fails. *)
Theorem ensureJoinDocument_outcomes (s : St World) :
  (forall o w1,
      remote (GetDocumentCommand builtinDoc) (world s) = (Ret o, w1) ->
      ensureJoinDocument remote rt s =
      (Ret builtinDoc,
       {| world := w1; trace := trace s ++ [Sent (GetDocumentCommand builtinDoc)] |})) /\
  (forall e w1,
      remote (GetDocumentCommand builtinDoc) (world s) = (Throw e, w1) ->
      (forall o w2,
          remote (GetDocumentCommand customDoc) w1 = (Ret o, w2) ->
          ensureJoinDocument remote rt s =
          (Ret customDoc,
           {| world := w2;
              trace := trace s ++ [Sent (GetDocumentCommand builtinDoc);
                                   Sent (GetDocumentCommand customDoc)] |})) /\
      (forall e1 w2,
          remote (GetDocumentCommand customDoc) w1 = (Throw e1, w2) ->
          (forall o w3,
              remote (createDocCmd rt) w2 = (Ret o, w3) ->
              ensureJoinDocument remote rt s =
              (Ret customDoc,
               {| world := w3;
                  trace := trace s ++ [Sent (GetDocumentCommand builtinDoc);
                                       Sent (GetDocumentCommand customDoc);
                                       Sent (createDocCmd rt)] |})) /\
          (forall e2 w3,
              remote (createDocCmd rt) w2 = (Throw e2, w3) ->
              ensureJoinDocument remote rt s =
              (Throw e2,
               {| world := w3;
                  trace := trace s ++ [Sent (GetDocumentCommand builtinDoc);
                                       Sent (GetDocumentCommand customDoc);
                                       Sent (createDocCmd rt)] |})))).
Proof. exact (ensureJoinDocument_cases s). Qed.

(** X15.  On Delete with an instance identifier, the outcome of the
    terminate request decides: when it fails the handler throws the same
    error, when it succeeds the handler returns the previous identifier,
    without waiting for the termination. *)
Theorem delete_outcome (event : EventProps.t) (id : string) (s : St World) :
  EventProps.RequestType event = Delete ->
  EventProps.PhysicalResourceId event = Some id ->
  String.prefix "i-" id = true ->
  (forall e w,
      remote (TerminateInstancesCommand [id]) (world s) = (Throw e, w) ->
      handler remote rt env event s =
      (Throw e, {| world := w; trace := trace s ++ [Sent (TerminateInstancesCommand [id])] |})) /\
  (forall o w,
      remote (TerminateInstancesCommand [id]) (world s) = (Ret o, w) ->
      handler remote rt env event s =
      (Ret {| Response.PhysicalResourceId := id; Response.Data := None |},
       {| world := w; trace := trace s ++ [Sent (TerminateInstancesCommand [id])] |})).
Proof.
  intros Hrt Hid Hpre. unfold handler. rewrite Hrt, Hid. unfold looksLikeInstance.
  rewrite Hpre. cbn [Js.nullish]. split.
  - intros e w Hterm. run. rewrite Hterm. reflexivity.
  - intros o w Hterm. run. rewrite Hterm. reflexivity.
Qed.

End Steps.

End AdAutomationSteps.

(** ** The commands dispatched by [joinDomain] *)

Module JoinDomainDispatch.
Import AdAutomation ProvisionSpec Effort AsyncFacts EffortFacts AdAutomationFacts.
Import AdAutomationEffort AdAutomationSteps.






End JoinDomainDispatch.

(** ** The configuration and the stacks of the application *)

Module ConfigFacts.
Import Config.

Lemma required_inr (ctx : Context) (key : string) (v : CtxValue) :
  required ctx key = inr v <-> ctx key = Some v /\ truthy (ctx key) = true.
Proof.
  unfold required. cbv zeta. destruct (truthy (ctx key)) eqn:Ht; simpl.
  - destruct (ctx key) as [w|]; [|discriminate Ht].
    split; [intros H; inversion H; auto | intros [H _]; inversion H; reflexivity].
  - split; [discriminate | intros [_ H]; discriminate].
Qed.

Lemma required_inl (ctx : Context) (key : string) (e : Js.Error) :
  required ctx key = inl e <-> e = missingKey key /\ truthy (ctx key) = false.
Proof.
  unfold required. cbv zeta. destruct (truthy (ctx key)) eqn:Ht; simpl.
  - destruct (ctx key) as [w|]; [|discriminate Ht].
    split; [discriminate | intros [_ H]; discriminate].
  - split; [intros H; inversion H; auto | intros [-> _]; reflexivity].
Qed.

(** What [loadConfig] returns and throws, by the values of the required
    keys. *)
Lemma loadConfig_cases (ctx : Context) :
  (forall cfg,
      loadConfig ctx = inr cfg ->
      ctx "domainName" = Some (domainName cfg) /\
      ctx "domainShortName" = Some (domainShortName cfg) /\
      ctx "notificationEmail" = Some (notificationEmail cfg) /\
      stage cfg = Js.nullish (ctx "stage") (CStr "dev") /\
      projectPrefix cfg = Js.nullish (ctx "projectPrefix") (CStr "managed-ad")) /\
  (forall e,
      loadConfig ctx = inl e ->
      exists before key after,
        requiredKeys = before ++ key :: after /\
        e = missingKey key /\
        truthy (ctx key) = false /\
        Forall (fun k => truthy (ctx k) = true) before) /\
  ((exists cfg, loadConfig ctx = inr cfg) <->
   Forall (fun k => truthy (ctx k) = true) requiredKeys).
Proof.
  unfold loadConfig. cbv zeta.
  destruct (required ctx "domainName") as [e1|v1] eqn:H1.
  { apply required_inl in H1. destruct H1 as [-> Hf1].
    split; [discriminate|]. split.
    - intros e H. inversion H.
      exists [], "domainName", ["domainShortName"; "notificationEmail"]. auto.
    - split; [intros [cfg H]; discriminate|].
      intros H. inversion H; subst. congruence. }
  apply required_inr in H1. destruct H1 as [Hv1 Ht1].
  destruct (required ctx "domainShortName") as [e2|v2] eqn:H2.
  { apply required_inl in H2. destruct H2 as [-> Hf2].
    split; [discriminate|]. split.
    - intros e H. inversion H.
      exists ["domainName"], "domainShortName", ["notificationEmail"]. auto.
    - split; [intros [cfg H]; discriminate|].
      intros H. inversion H as [|? ? _ H']; subst. inversion H'; subst. congruence. }
  apply required_inr in H2. destruct H2 as [Hv2 Ht2].
  destruct (required ctx "notificationEmail") as [e3|v3] eqn:H3.
  { apply required_inl in H3. destruct H3 as [-> Hf3].
    split; [discriminate|]. split.
    - intros e H. inversion H.
      exists ["domainName"; "domainShortName"], "notificationEmail", []. auto 10.
    - split; [intros [cfg H]; discriminate|].
      intros H. inversion H as [|? ? _ H']; subst. inversion H' as [|? ? _ H'']; subst.
      inversion H''; subst. congruence. }
  apply required_inr in H3. destruct H3 as [Hv3 Ht3].
  split; [|split].
  - intros cfg H. inversion H. simpl. auto.
  - discriminate.
  - split; [|intros _; eexists; reflexivity].
    intros _. unfold requiredKeys. auto.
Qed.

(** X17.  [loadConfig] returns a configuration exactly when the three
    required keys hold truthy values, and then with those values, the
    stage and the prefix defaulting to [dev] and [managed-ad]; otherwise
    it throws the error that names the first key, in the order
    [domainName], [domainShortName], [notificationEmail], whose value is
    missing or falsy. *)
Theorem loadConfig_required (ctx : Context) :
  (forall cfg,
      loadConfig ctx = inr cfg ->
      ctx "domainName" = Some (domainName cfg) /\
      ctx "domainShortName" = Some (domainShortName cfg) /\
      ctx "notificationEmail" = Some (notificationEmail cfg) /\
      stage cfg = Js.nullish (ctx "stage") (CStr "dev") /\
      projectPrefix cfg = Js.nullish (ctx "projectPrefix") (CStr "managed-ad")) /\
  (forall e,
      loadConfig ctx = inl e ->
      exists before key after,
        requiredKeys = before ++ key :: after /\
        e = missingKey key /\
        truthy (ctx key) = false /\
        Forall (fun k => truthy (ctx k) = true) before) /\
  ((exists cfg, loadConfig ctx = inr cfg) <->
   Forall (fun k => truthy (ctx k) = true) requiredKeys).
Proof. exact (loadConfig_cases ctx). Qed.

Lemma flag_true (v : option CtxValue) :
  flag v = true <-> v = None \/ v = Some (CStr "true").
Proof.
  unfold flag. destruct v as [[s|b|n]|]; simpl.
  - rewrite String.eqb_eq. split; [intros ->; auto | intros [H|H]; inversion H; reflexivity].
  - split; [discriminate | intros [H|H]; discriminate].
  - split; [discriminate | intros [H|H]; discriminate].
  - split; auto.
Qed.

(** X18.  In the configuration [loadConfig] returns, a stack is enabled
    exactly when its flag is absent from the context or is the string
    [true]: any other value, the boolean [true] included, disables it. *)
Theorem loadConfig_flags (ctx : Context) (cfg : EnvironmentConfig) :
  loadConfig ctx = inr cfg ->
  (enableQuickSight cfg = true <->
   ctx "enableQuickSight" = None \/ ctx "enableQuickSight" = Some (CStr "true")) /\
  (enableMonitoring cfg = true <->
   ctx "enableMonitoring" = None \/ ctx "enableMonitoring" = Some (CStr "true")) /\
  (ctx "enableQuickSight" = Some (CBool true) -> enableQuickSight cfg = false).
Proof.
  unfold loadConfig. cbv zeta.
  destruct (required ctx "domainName"); [discriminate|].
  destruct (required ctx "domainShortName"); [discriminate|].
  destruct (required ctx "notificationEmail"); [discriminate|].
  intros H. inversion H. simpl. split; [apply flag_true|]. split; [apply flag_true|].
  intros ->. reflexivity.
Qed.

Lemma app_inl (ctx : Context) :
  (exists e, app ctx = inl e) <->
  ~ Forall (fun k => truthy (ctx k) = true) requiredKeys.
Proof.
  unfold app, requiredKeys. cbv zeta.
  destruct (truthy (ctx "domainName")) eqn:H1,
           (truthy (ctx "domainShortName")) eqn:H2,
           (truthy (ctx "notificationEmail")) eqn:H3; simpl.
  1: { split; [intros [e H]; discriminate|]. intros H. exfalso. apply H. auto. }
  all: split; [|intros _; eexists; reflexivity].
  all: intros _ H; inversion H as [|? ? Ha H']; subst;
    inversion H' as [|? ? Hb H'']; subst; inversion H'' as [|? ? Hc _]; subst; congruence.
Qed.

(** X19.  The entry point and [loadConfig] agree: for every context for
    which [loadConfig] throws, the entry point throws as well, before it
    creates any stack; when both succeed, the entry point creates the
    QuickSight stack exactly when [enableQuickSight] holds and the
    monitoring stack exactly when both flags hold, and names every stack
    after the stage of the configuration. *)
Theorem app_agrees_with_loadConfig (ctx : Context) :
  (forall e, loadConfig ctx = inl e -> app ctx = inl appError) /\
  (forall cfg stacks,
      loadConfig ctx = inr cfg -> app ctx = inr stacks ->
      (In QuickSight (map kind stacks) <-> enableQuickSight cfg = true) /\
      (In Monitoring (map kind stacks) <->
       enableQuickSight cfg = true /\ enableMonitoring cfg = true) /\
      Forall (fun d => String.prefix (toString (stage cfg) ++ "-") (stackId d) = true) stacks).
Proof.
  split.
  - intros e He. destruct (loadConfig_cases ctx) as (_ & _ & Hiff).
    assert (Hno : ~ Forall (fun k => truthy (ctx k) = true) requiredKeys).
    { intros Hall. apply Hiff in Hall. destruct Hall as [cfg Hcfg]. congruence. }
    apply app_inl in Hno. destruct Hno as [e' He'].
    revert He'. unfold app. cbv zeta. destruct (_ || _); [reflexivity | discriminate].
  - intros cfg stacks Hcfg Happ.
    destruct (loadConfig_cases ctx) as (Hval & _ & _).
    destruct (Hval cfg Hcfg) as (_ & _ & _ & Hstage & _).
    revert Hcfg Happ. unfold loadConfig, app. cbv zeta.
    destruct (required ctx "domainName"); [discriminate|].
    destruct (required ctx "domainShortName"); [discriminate|].
    destruct (required ctx "notificationEmail"); [discriminate|].
    intros Hcfg. inversion Hcfg as [Hc]. cbn [enableQuickSight enableMonitoring stage].
    destruct (_ || _); [discriminate|].
    intros Happ. inversion Happ as [Hs]. clear Hcfg Happ Hc Hs.
    assert (Hpre : forall suffix,
               String.prefix (toString (Js.nullish (ctx "stage") (CStr "dev")) ++ "-")
                             (toString (Js.nullish (ctx "stage") (CStr "dev")) ++ suffix) = true
               <-> String.prefix "-" suffix = true).
    { intros suffix. induction (toString (Js.nullish (ctx "stage") (CStr "dev"))) as [|ch tl IH].
      - reflexivity.
      - simpl. destruct (ascii_dec ch ch); [exact IH | contradiction]. }
    destruct (flag (ctx "enableQuickSight")), (flag (ctx "enableMonitoring")); simpl.
    all: split; [split; [intros H; repeat (destruct H as [H|H]; try discriminate); auto
                        | intros H; try discriminate; auto 6]|].
    all: split; [split; [intros H; repeat (destruct H as [H|H]; try discriminate); auto
                        | intros [H1 H2]; try discriminate; auto 6]|].
    all: repeat constructor; apply Hpre; reflexivity.
Qed.

(** X20.  The stacks the entry point creates form a chain, in the order
    ManagedAd, AdAutomation, QuickSight, Monitoring: the first depends on
    nothing, every other one on the stack created just before it, and the
    monitoring stack is never created without the QuickSight stack. *)
Theorem app_stack_chain (ctx : Context) (stacks : list StackDecl) :
  app ctx = inr stacks ->
  (exists n, (2 <= n <= 4)%nat /\
             map kind stacks = firstn n [ManagedAd; AdAutomation; QuickSight; Monitoring]) /\
  (forall d, nth_error stacks 0 = Some d -> dependsOn d = []) /\
  (forall i d1 d2,
      nth_error stacks i = Some d1 -> nth_error stacks (S i) = Some d2 ->
      dependsOn d2 = [stackId d1]) /\
  (flag (ctx "enableQuickSight") = false -> map kind stacks = [ManagedAd; AdAutomation]).
Proof.
  unfold app. cbv zeta. destruct (_ || _); [discriminate|].
  intros H. inversion H as [Hs]. clear H Hs.
  destruct (flag (ctx "enableQuickSight")), (flag (ctx "enableMonitoring")); simpl.
  all: split; [first [exists 4%nat; split; [lia|reflexivity]
                     | exists 3%nat; split; [lia|reflexivity]
                     | exists 2%nat; split; [lia|reflexivity]]|].
  all: split; [intros d Hd; inversion Hd; reflexivity|].
  all: split; [|intros Hq; try discriminate; reflexivity].
  all: intros [|[|[|[|i]]]] d1 d2 H1 H2; simpl in H1, H2;
    try discriminate; inversion H1; inversion H2; reflexivity.
Qed.

End ConfigFacts.

(** ** The parameter names shared by the stacks *)

Module SsmPathFacts.
Import SsmPaths.

Lemma length_append (a b : string) :
  String.length (a ++ b)%string = (String.length a + String.length b)%nat.
Proof. induction a as [|c a IH]; simpl; [reflexivity | now rewrite IH]. Qed.

Lemma append_cancel_r (a b r : string) : (a ++ r)%string = (b ++ r)%string -> a = b.
Proof.
  revert b. induction a as [|c a IH]; intros [|d b] H; simpl in H.
  - reflexivity.
  - apply (f_equal String.length) in H. simpl in H. rewrite length_append in H. lia.
  - apply (f_equal String.length) in H. simpl in H. rewrite length_append in H. lia.
  - injection H as -> H. f_equal. now apply IH.
Qed.

(** X21.  A parameter written by [ManagedAdStack] is found by the stacks
    that look it up exactly when their project prefix is [draupnir]; with
    the prefix [loadConfig] chooses when the context sets none,
    [managed-ad], the name looked up is never the name written. *)
Theorem lookedUp_written (projectPrefix stage name : string) :
  (lookedUp projectPrefix stage name = written stage name <-> projectPrefix = "draupnir") /\
  (forall ctx cfg,
      Config.loadConfig ctx = inr cfg -> ctx "projectPrefix" = None ->
      lookedUp (Config.toString (Config.projectPrefix cfg)) stage name <> written stage name).
Proof.
  assert (Hiff : forall p, lookedUp p stage name = written stage name <-> p = "draupnir").
  { intros p. unfold lookedUp, written. split.
    - intros H.
      change ("/draupnir/" ++ stage ++ "/" ++ name)%string
        with ("/" ++ "draupnir" ++ "/" ++ stage ++ "/" ++ name)%string in H.
      injection H as H.
      apply (append_cancel_r p "draupnir" (String "/" (stage ++ String "/" name))).
      exact H.
    - intros ->. reflexivity. }
  split; [apply Hiff|].
  intros ctx cfg Hcfg Hnone Heq. apply Hiff in Heq.
  destruct (ConfigFacts.loadConfig_cases ctx) as (Hval & _ & _).
  destruct (Hval cfg Hcfg) as (_ & _ & _ & _ & Hprefix).
  rewrite Hprefix, Hnone in Heq. discriminate Heq.
Qed.

End SsmPathFacts.

(** ** The health check *)

Module HealthCheckFacts.
Import HealthCheck AsyncFacts.

Section Handler.
Context {World : Type}.
Variable remote : Command -> World -> Outcome Output.t * World.
Variable json_dumps : string -> string.
Variable arn : string.
Variable environ : string -> option string.

Ltac run :=
  repeat (rewrite bind_run || rewrite (send_run remote)
          || cbn [fst snd world trace ret throw]).

(** X22.  The health check publishes only datapoints of the gauge
    [SubscriptionHealth] in the namespace of its environment, with the
    value 0 or 1, at most two of them; it publishes the value 1 only after
    the subscription was described with the status [ACCOUNT_CREATED]; and
    it describes the account whose identifier is the fifth field of the
    function's ARN. *)
Theorem health_check_publishes_gauge (s : St World) :
  exists t,
    trace (snd (handler remote json_dumps arn environ s)) = trace s ++ t /\
    (t = [] \/
     exists account namespace puts,
       nth_error (splitOn ":" arn) 4 = Some account /\
       environ "METRIC_NAMESPACE" = Some namespace /\
       t = Sent (DescribeAccountSubscription account) :: map Sent puts /\
       Forall (gaugeDatapoint namespace) puts /\
       (List.length puts <= 2)%nat /\
       ((exists metric unit, In (PutMetricData namespace metric 1 unit) puts) ->
        exists response w,
          remote (DescribeAccountSubscription account) (world s) = (Ret response, w) /\
          exists info, Output.AccountInfo response = Some info /\
                       AccountSubscriptionStatus info = Some "ACCOUNT_CREATED")).
Proof.
  unfold handler.
  destruct (nth_error (splitOn ":" arn) 4) as [account|] eqn:Harn.
  2: { exists []. simpl. rewrite app_nil_r. auto. }
  destruct (environ "METRIC_NAMESPACE") as [namespace|] eqn:Henv.
  2: { exists []. simpl. rewrite app_nil_r. auto. }
  assert (Hzero : gaugeDatapoint namespace (PutMetricData namespace "SubscriptionHealth" 0 "Count"))
    by (simpl; auto).
  assert (Hno1 : forall metric unit,
             ~ In (PutMetricData namespace metric 1 unit)
                  [PutMetricData namespace "SubscriptionHealth" 0 "Count"]).
  { intros metric unit [H|[]]. discriminate H. }
  unfold try_catch, putHealth. run.
  destruct (remote (DescribeAccountSubscription account) (world s)) as [[response|e] w1] eqn:Hdesc;
    run.
  - destruct (Output.AccountInfo response) as [info|] eqn:Hinfo; run.
    + destruct (AccountSubscriptionStatus info) as [status|] eqn:Hstatus; run.
      * set (value := if String.eqb status "ACCOUNT_CREATED" then 1 else 0).
        assert (Hvalue : gaugeDatapoint namespace
                           (PutMetricData namespace "SubscriptionHealth" value "Count")).
        { subst value. simpl. destruct (String.eqb status "ACCOUNT_CREATED"); auto. }
        assert (Hone : (exists metric unit,
                           In (PutMetricData namespace metric 1 unit)
                              [PutMetricData namespace "SubscriptionHealth" value "Count";
                               PutMetricData namespace "SubscriptionHealth" 0 "Count"]) ->
                       status = "ACCOUNT_CREATED").
        { intros (metric & unit & [H|[H|[]]]); [|discriminate H].
          subst value. destruct (String.eqb_spec status "ACCOUNT_CREATED"); [assumption|].
          discriminate H. }
        destruct (remote (PutMetricData namespace "SubscriptionHealth" value "Count") w1)
          as [[o|e] w2]; run.
        -- eexists. split; [rewrite <- app_assoc; reflexivity|]. right.
           exists account, namespace,
             [PutMetricData namespace "SubscriptionHealth" value "Count"].
           repeat split; auto.
           intros (metric & unit & Hin). exists response, w1. split; [exact Hdesc|].
           exists info. split; [assumption|]. rewrite Hstatus. f_equal. apply Hone.
           exists metric, unit. destruct Hin as [H|[]]. now left.
        -- destruct (remote (PutMetricData namespace "SubscriptionHealth" 0 "Count") w2)
             as [[o|e2] w3]; run.
           all: eexists; split; [rewrite <- !app_assoc; reflexivity|]; right.
           all: exists account, namespace,
                  [PutMetricData namespace "SubscriptionHealth" value "Count";
                   PutMetricData namespace "SubscriptionHealth" 0 "Count"].
           all: repeat split; auto.
           all: intros Hin; exists response, w1; split; [exact Hdesc|];
             exists info; split; [assumption|]; rewrite Hstatus; f_equal; now apply Hone.
      * destruct (remote (PutMetricData namespace "SubscriptionHealth" 0 "Count") w1)
          as [[o|e2] w2]; run.
        all: eexists; split; [rewrite <- !app_assoc; reflexivity|]; right.
        all: exists account, namespace, [PutMetricData namespace "SubscriptionHealth" 0 "Count"].
        all: repeat split; auto.
        all: intros (metric & unit & Hin); exfalso; exact (Hno1 metric unit Hin).
    + destruct (remote (PutMetricData namespace "SubscriptionHealth" 0 "Count") w1)
        as [[o|e2] w2]; run.
      all: eexists; split; [rewrite <- !app_assoc; reflexivity|]; right.
      all: exists account, namespace, [PutMetricData namespace "SubscriptionHealth" 0 "Count"].
      all: repeat split; auto.
      all: intros (metric & unit & Hin); exfalso; exact (Hno1 metric unit Hin).
  - destruct (remote (PutMetricData namespace "SubscriptionHealth" 0 "Count") w1)
      as [[o|e2] w2]; run.
    all: eexists; split; [rewrite <- !app_assoc; reflexivity|]; right.
    all: exists account, namespace, [PutMetricData namespace "SubscriptionHealth" 0 "Count"].
    all: repeat split; auto.
    all: intros (metric & unit & Hin); exfalso; exact (Hno1 metric unit Hin).
Qed.

(** X23.  When the describe call returns a status and the publication
    succeeds, the health check has published one datapoint, 1 when that
    status is [ACCOUNT_CREATED] and 0 when it is any other status, and it
    returns the status code 200 with that status in the body; it returns
    in no other case.  When the describe call fails, it publishes 0 and
    raises the error of the describe call again, provided the publication
    succeeds. *)
Theorem health_check_outcomes (s : St World) :
  (forall account namespace response w info status o w',
      nth_error (splitOn ":" arn) 4 = Some account ->
      environ "METRIC_NAMESPACE" = Some namespace ->
      remote (DescribeAccountSubscription account) (world s) = (Ret response, w) ->
      Output.AccountInfo response = Some info ->
      AccountSubscriptionStatus info = Some status ->
      remote (PutMetricData namespace "SubscriptionHealth"
                (if String.eqb status "ACCOUNT_CREATED" then 1 else 0) "Count") w =
        (Ret o, w') ->
      handler remote json_dumps arn environ s =
      (Ret {| statusCode := 200; body := json_dumps ("QuickSight status: " ++ status) |},
       {| world := w';
          trace := trace s ++ [Sent (DescribeAccountSubscription account);
                               Sent (PutMetricData namespace "SubscriptionHealth"
                                       (if String.eqb status "ACCOUNT_CREATED" then 1 else 0)
                                       "Count")] |})) /\
  (forall result s',
      handler remote json_dumps arn environ s = (Ret result, s') ->
      exists account namespace response w info status,
        nth_error (splitOn ":" arn) 4 = Some account /\
        environ "METRIC_NAMESPACE" = Some namespace /\
        remote (DescribeAccountSubscription account) (world s) = (Ret response, w) /\
        Output.AccountInfo response = Some info /\
        AccountSubscriptionStatus info = Some status /\
        result = {| statusCode := 200;
                    body := json_dumps ("QuickSight status: " ++ status) |} /\
        trace s' = trace s ++ [Sent (DescribeAccountSubscription account);
                               Sent (PutMetricData namespace "SubscriptionHealth"
                                       (if String.eqb status "ACCOUNT_CREATED" then 1 else 0)
                                       "Count")]) /\
  (forall account namespace e w o w',
      nth_error (splitOn ":" arn) 4 = Some account ->
      environ "METRIC_NAMESPACE" = Some namespace ->
      remote (DescribeAccountSubscription account) (world s) = (Throw e, w) ->
      remote (PutMetricData namespace "SubscriptionHealth" 0 "Count") w = (Ret o, w') ->
      handler remote json_dumps arn environ s =
      (Throw e,
       {| world := w';
          trace := trace s ++ [Sent (DescribeAccountSubscription account);
                               Sent (PutMetricData namespace "SubscriptionHealth" 0 "Count")] |})).
Proof.
  unfold handler. split; [|split].
  - intros account namespace response w info status o w' -> -> Hdesc Hinfo Hstatus Hput.
    unfold try_catch, putHealth. run. rewrite Hdesc. run. rewrite Hinfo, Hstatus. run.
    rewrite Hput. run. rewrite <- app_assoc. reflexivity.
  - intros result s'.
    destruct (nth_error (splitOn ":" arn) 4) as [account|]; [|discriminate].
    destruct (environ "METRIC_NAMESPACE") as [namespace|]; [|discriminate].
    unfold try_catch, putHealth. run.
    destruct (remote (DescribeAccountSubscription account) (world s))
      as [[response|e] w1] eqn:Hdesc; run.
    + destruct (Output.AccountInfo response) as [info|] eqn:Hinfo; run.
      * destruct (AccountSubscriptionStatus info) as [status|] eqn:Hstatus; run.
        -- destruct (remote (PutMetricData namespace "SubscriptionHealth" _ "Count") w1)
             as [[o|e] w2]; run.
           ++ intros H. inversion H.
              exists account, namespace, response, w1, info, status. cbn [trace].
              rewrite <- app_assoc. repeat split; auto.
           ++ destruct (remote (PutMetricData namespace "SubscriptionHealth" 0 "Count") w2)
                as [[o|e2] w3]; run; discriminate.
        -- destruct (remote (PutMetricData namespace "SubscriptionHealth" 0 "Count") w1)
             as [[o|e2] w2]; run; discriminate.
      * destruct (remote (PutMetricData namespace "SubscriptionHealth" 0 "Count") w1)
          as [[o|e2] w2]; run; discriminate.
    + destruct (remote (PutMetricData namespace "SubscriptionHealth" 0 "Count") w1)
        as [[o|e2] w2]; run; discriminate.
  - intros account namespace e w o w' -> -> Hdesc Hput.
    unfold try_catch, putHealth. run. rewrite Hdesc. run. rewrite Hput. run.
    rewrite <- app_assoc. reflexivity.
Qed.

End Handler.
End HealthCheckFacts.

(** ** Worked runs for the further properties *)

Module FurtherRuns.
Import Scenario.

Module Subscription.
Import QuickSight RetrySpec SubscriptionSpec SubscriptionEffort Effort.
Import AsyncFacts RetryFacts EffortFacts RetryEffort QuickSightFacts QuickSightInvariants.

(** A witness of [withRetry_effort]: a single request, retried ten times
    at most. *)
Lemma withRetry_effort_witness :
  within (retryEvent QS.delete) (10 * 1) (Z.of_nat 10 * (0 + 35000))
         (withRetry (send QS.remote QS.delete) "deleteAccountSubscription" 10 2000).
Proof.
  apply withRetry_effort.
  - intros ms H. exact H.
  - lia.
  - apply within_send. reflexivity.
Defined.

(** A witness of [withRetry_sleeps_after_last_attempt]: three attempts
    out of three fail. *)
Lemma withRetry_sleeps_after_last_attempt_witness :
  exists t,
    trace (snd (withRetry (send QS.remote QS.delete) "deleteAccountSubscription" 3 2000
                  (start (repeat (Throw (Js.Err internalFailure)) 3)))) =
      trace (@start Command _ (repeat (@Throw Output.t (Js.Err internalFailure)) 3)) ++ t /\
    match fst (withRetry (send QS.remote QS.delete) "deleteAccountSubscription" 3 2000
                 (start (repeat (Throw (Js.Err internalFailure)) 3))) with
    | Ret _ => (List.length (sleeps t) + 1 = List.length (calls t))%nat
    | Throw Js.Undefined => 3%nat = 0%nat /\ t = []
    | Throw (Js.Err e) =>
        if fatal e then (List.length (sleeps t) + 1 = List.length (calls t))%nat
        else List.length (sleeps t) = 3%nat /\ List.length (calls t) = 3%nat
    end.
Proof.
  apply (withRetry_sleeps_after_last_attempt (send QS.remote QS.delete)
           "deleteAccountSubscription" 3 2000
           (start (repeat (Throw (Js.Err internalFailure)) 3))).
  apply send_single_request.
Defined.

(** A witness of [handler_result_status]. *)
Lemma handler_result_status_witness :
  (Event.RequestType (QS.event Create QS.props) = Delete /\
   Response.Data (result QS.account "Created") = None /\
   {| world := []; trace := [Sent QS.describe; Sent QS.create] |} =
     start [Throw (Js.Err notFound); Ret Output.empty]) \/
  (Event.RequestType (QS.event Create QS.props) <> Delete /\
   exists status,
     Response.Data (result QS.account "Created") = Some {| Response.Status := status |} /\
     knownStatus status).
Proof.
  apply (handler_result_status QS.remote QS.region (QS.event Create QS.props)
           (start [Throw (Js.Err notFound); Ret Output.empty])
           {| world := []; trace := [Sent QS.describe; Sent QS.create] |}
           (result QS.account "Created")).
  reflexivity.
Defined.

(** A witness of [delete_only_after_unsubscribe_failed]. *)
Lemma delete_only_after_unsubscribe_failed_witness :
  exists response s1 o s2,
    describeStep QS.remote (Event.ResourceProperties (QS.event Update QS.props))
      (start [Ret (QS.withStatus "UNSUBSCRIBE_FAILED"); Ret Output.empty;
              Ret Output.empty; Ret Output.empty]) = (Ret response, s1) /\
    statusOf response = Some "UNSUBSCRIBE_FAILED" /\
    updateStep QS.remote (Event.ResourceProperties (QS.event Update QS.props)) s1 = (Ret o, s2).
Proof.
  apply (delete_only_after_unsubscribe_failed QS.remote QS.region (QS.event Update QS.props)).
  - discriminate.
  - intros [].
  - vm_compute. do 2 right. left. reflexivity.
Defined.

(** A witness of [handler_throws_service_error_from_catch_only]. *)
Lemma handler_throws_service_error_from_catch_only_witness :
  exists e0 s1,
    tryBody QS.remote QS.region (Event.ResourceProperties (QS.event Create QS.props))
      (start (Throw (Js.Err notFound) :: repeat (Throw (Js.Err internalFailure)) 10)) =
      (Throw (Js.Err e0), s1) /\
    codeOf e0 = "ResourceNotFoundException" /\
    createStep QS.remote (Event.ResourceProperties (QS.event Create QS.props)) s1 =
      (Throw (Js.Err internalFailure),
       snd (handler QS.remote QS.region (QS.event Create QS.props)
              (start (Throw (Js.Err notFound) :: repeat (Throw (Js.Err internalFailure)) 10)))).
Proof.
  apply (handler_throws_service_error_from_catch_only QS.remote QS.region
           (QS.event Create QS.props)).
  - discriminate.
  - vm_compute. reflexivity.
  - left. reflexivity.
Defined.

(** A witness of [create_request_ignores_author_reader]: the two events
    name different author and reader groups, the runs are the same, and
    the create request sent names the admin group three times. *)
Lemma create_request_ignores_author_reader_witness :
  let event1 := QS.event Create QS.props in
  let event2 := QS.event Create QS.props' in
  let s := start [Throw (Js.Err notFound); Ret Output.empty] in
  AuthorGroup QS.props <> AuthorGroup QS.props' /\
  ReaderGroup QS.props <> ReaderGroup QS.props' /\
  handler QS.remote QS.region event1 s = handler QS.remote QS.region event2 s /\
  exists t1 t2,
    [Sent QS.describe;
     Sent (CreateAccountSubscriptionCommand
             {| CreateAccountSubscription.AwsAccountId := "123456789012";
                CreateAccountSubscription.AccountName := "managed-ad-123456789012";
                CreateAccountSubscription.Edition := "ENTERPRISE";
                CreateAccountSubscription.AuthenticationMethod := "ACTIVE_DIRECTORY";
                CreateAccountSubscription.ActiveDirectoryName := "d-1234567890";
                CreateAccountSubscription.AdminGroup := ["QuickSightAdmins"];
                CreateAccountSubscription.AuthorGroup := ["QuickSightAdmins"];
                CreateAccountSubscription.ReaderGroup := ["QuickSightAdmins"];
                CreateAccountSubscription.NotificationEmail := "admin@example.com" |})] =
    trace s ++ t1 ++ Sent (adminOnlyCreate QS.props') :: t2.
Proof.
  cbv zeta.
  split; [discriminate|]. split; [discriminate|].
  destruct (create_request_ignores_author_reader QS.remote QS.region
              (QS.event Create QS.props) (QS.event Create QS.props')
              (start [Throw (Js.Err notFound); Ret Output.empty])
              eq_refl eq_refl
              (conj eq_refl (conj eq_refl (conj eq_refl (conj eq_refl (conj eq_refl
                (conj eq_refl (conj eq_refl (conj eq_refl eq_refl)))))))))
    as (_ & Hsent & Hrun & _).
  split; [exact Hrun|].
  exact (Hsent (result QS.account "Created")
           {| world := [];
              trace := [Sent QS.describe; Sent (adminOnlyCreate QS.props)] |}
           eq_refl eq_refl).
Defined.

End Subscription.

Module Automation.
Import AdAutomation ProvisionSpec Effort AsyncFacts EffortFacts AdAutomationFacts.
Import AdAutomationEffort AdAutomationSteps JoinDomainDispatch.

(** A witness of [waitForCommand_gives_up]. *)
Lemma waitForCommand_gives_up_witness :
  fst (waitForCommand Cases.AD.alwaysPending "i-0abc" "cmd-1" (start tt)) = Ret tt /\
  trace (snd (waitForCommand Cases.AD.alwaysPending "i-0abc" "cmd-1" (start tt))) =
    trace (@start Command _ tt) ++ Slept 30000
      :: List.concat (repeat [Sent (pollCmd "i-0abc" "cmd-1"); Slept 10000] 90) /\
  List.length (calls (trace (snd (waitForCommand Cases.AD.alwaysPending "i-0abc" "cmd-1"
                                    (start tt))))) =
    (List.length (calls (trace (@start Command _ tt))) + 90)%nat /\
  total (sleeps (trace (snd (waitForCommand Cases.AD.alwaysPending "i-0abc" "cmd-1"
                               (start tt))))) =
    total (sleeps (trace (@start Command _ tt))) + 930000.
Proof.
  apply (waitForCommand_gives_up Cases.AD.alwaysPending "i-0abc" "cmd-1" (start tt)).
  - discriminate.
  - intros w. reflexivity.
Defined.

(** A witness of [provision_effort]. *)
Lemma provision_effort_witness :
  budget provisionEvent 1 193 2100000
         (handler AD.remote AD.runtime AD.env (AD.event Create None)).
Proof.
  apply provision_effort. discriminate.
Defined.

Lemma compare_irrefl (a : string) : String_as_OT.compare a a <> Lt.
Proof. exact (StrictOrder_Irreflexive (R:=String_as_OT.lt) a). Qed.

Lemma compare_trans (a b c : string) :
  String_as_OT.compare a b = Lt -> String_as_OT.compare b c = Lt ->
  String_as_OT.compare a c = Lt.
Proof. exact (StrictOrder_Transitive (R:=String_as_OT.lt) a b c). Qed.

(** A witness of [newest_image_selected]: the second of three images is
    the newest. *)
Lemma newest_image_selected_witness :
  newestImageId Cases.AD.runtime Cases.AD.imagesAnswer =
    ImageId (Cases.AD.image "ami-new" "2024-02-01") /\
  In (Cases.AD.image "ami-new" "2024-02-01") Cases.AD.threeImages /\
  forall x, In x Cases.AD.threeImages ->
    localeCompare Cases.AD.runtime
      (Js.nullish (CreationDate (Cases.AD.image "ami-new" "2024-02-01")) EmptyString)
      (Js.nullish (CreationDate x) EmptyString) <> Lt.
Proof.
  apply (newest_image_selected Cases.AD.runtime Cases.AD.imagesAnswer Cases.AD.threeImages
           (Cases.AD.image "ami-new" "2024-02-01")
           [Cases.AD.image "ami-mid" "2023-11-01"; Cases.AD.image "ami-old" "2023-05-01"]).
  - exact compare_irrefl.
  - exact compare_trans.
  - reflexivity.
  - reflexivity.
Defined.

(** A witness of [delete_outcome]: the terminate request is refused. *)
Lemma delete_outcome_witness :
  handler AD.remote AD.runtime AD.env (AD.event Delete (Some "i-0abc"))
          (start [Throw (Js.Err accessDenied)]) =
  (Throw (Js.Err accessDenied),
   {| world := []; trace := [Sent (TerminateInstancesCommand ["i-0abc"])] |}).
Proof.
  exact (proj1 (delete_outcome AD.remote AD.runtime AD.env (AD.event Delete (Some "i-0abc"))
                  "i-0abc" (start [Throw (Js.Err accessDenied)]) eq_refl eq_refl eq_refl)
               (Js.Err accessDenied) [] eq_refl).
Defined.


(** The run of that witness, in full. *)
Example joinDomain_run :
  trace (snd (joinDomain AD.remote Cases.AD.runtime AD.env "i-0abc" "d-1234567890"
                "corp.example.com" ["10.0.0.10,10.0.1.10"] (start Cases.AD.joinSucceeds))) =
  [ Sent (DescribeInstanceInformationCommand ["i-0abc"]);
    Sent (GetDocumentCommand builtinDoc);
    Sent (joinRequest "i-0abc" "d-1234567890" "corp.example.com" ["10.0.0.10,10.0.1.10"]
            builtinDoc);
    Slept 30000;
    Sent (pollCmd "i-0abc" "cmd-1");
    Sent (adminSecretCmd AD.env);
    Sent (setupRequest AD.env "i-0abc" "corp.example.com" "pw");
    Slept 30000;
    Sent (pollCmd "i-0abc" "cmd-2") ].
Proof. vm_compute. reflexivity. Qed.

(** A witness of [getOrCreateKeyPair_outcomes]: the secret does not exist
    yet, a key pair is created and stored. *)
Lemma getOrCreateKeyPair_outcomes_witness :
  getOrCreateKeyPair AD.remote AD.runtime "arn:keypair" (start AD.launchedThenWaiterFails) =
  (Ret {| keyName := Some "ad-automation-key-1700000000000";
          privateKey := Some EmptyString |},
   AD.afterKeyPair).
Proof.
  destruct (getOrCreateKeyPair_outcomes AD.remote AD.runtime "arn:keypair"
              (start AD.launchedThenWaiterFails)) as [_ Hcreate].
  destruct (Hcreate {| world := skipn 1 AD.launchedThenWaiterFails;
                       trace := [Sent (GetSecretValueCommand "arn:keypair")] |})
    as [_ Hcreated].
  { left. exists (Js.Err (serviceError "ResourceNotFoundException")),
                 (skipn 1 AD.launchedThenWaiterFails).
    split; reflexivity. }
  destruct (Hcreated Output.empty (skipn 2 AD.launchedThenWaiterFails) eq_refl)
    as [_ Hstored].
  exact (Hstored Output.empty (skipn 3 AD.launchedThenWaiterFails) eq_refl).
Defined.

(** A witness of [ensureJoinDocument_outcomes]: the built-in document is
    not found, the custom one is. *)
Lemma ensureJoinDocument_outcomes_witness :
  ensureJoinDocument AD.remote AD.runtime
    (start [Throw (Js.Err notFound); Ret Output.empty]) =
  (Ret customDoc,
   {| world := [];
      trace := [Sent (GetDocumentCommand builtinDoc); Sent (GetDocumentCommand customDoc)] |}).
Proof.
  exact (proj1 (proj2 (ensureJoinDocument_outcomes AD.remote AD.runtime
                         (start [Throw (Js.Err notFound); Ret Output.empty]))
                      (Js.Err notFound) [Ret Output.empty] eq_refl)
               Output.empty [] eq_refl).
Defined.

(** A witness of [launchEC2Instance_outcomes]: no image is listed. *)
Lemma launchEC2Instance_outcomes_witness :
  launchEC2Instance AD.remote AD.runtime AD.env "subnet-1" "sg-1" "m5.large"
                    (Some "ad-automation-key") (start [Ret Output.empty]) =
  (Throw (Js.Err (Js.newError "No Windows AMI found")),
   {| world := []; trace := [Sent describeImagesCmd] |}).
Proof.
  exact (proj2 (launchEC2Instance_outcomes AD.remote AD.runtime AD.env "subnet-1" "sg-1"
                  "m5.large" (Some "ad-automation-key") (start [Ret Output.empty]))
               Output.empty [] eq_refl eq_refl).
Defined.

(** The DNS entry of that run, split. *)
Example dnsAddresses_split :
  dnsAddresses ["10.0.0.10,10.0.1.10"] = ["10.0.0.10"; "10.0.1.10"].
Proof. reflexivity. Qed.

End Automation.

Module Configuration.
Import Config ConfigFacts.

(** A witness of [loadConfig_flags]: the boolean [true] disables the
    QuickSight stack. *)
Lemma loadConfig_flags_witness :
  exists cfg,
    loadConfig Cases.Cfg.booleanFlag = inr cfg /\
    enableQuickSight cfg = false /\ enableMonitoring cfg = true.
Proof.
  eexists. split; [reflexivity|].
  pose proof (loadConfig_flags Cases.Cfg.booleanFlag _ eq_refl) as (_ & Hm & Hq).
  split; [apply Hq; reflexivity | apply Hm; left; reflexivity].
Defined.

(** A witness of [app_stack_chain]: without QuickSight, two stacks. *)
Lemma app_stack_chain_witness :
  exists stacks,
    app Cases.Cfg.withoutQuickSight = inr stacks /\
    map kind stacks = [ManagedAd; AdAutomation] /\
    map stackId stacks = ["prod-ManagedAd"; "prod-AdAutomation"].
Proof.
  eexists. split; [reflexivity|].
  pose proof (app_stack_chain Cases.Cfg.withoutQuickSight _ eq_refl) as (_ & _ & _ & H).
  split; [apply H; reflexivity | reflexivity].
Defined.

(** A witness of [loadConfig_required]: an empty notification address
    counts as missing. *)
Lemma loadConfig_required_witness :
  exists before key after,
    requiredKeys = before ++ key :: after /\
    missingKey "notificationEmail" = missingKey key /\
    truthy (Cases.Cfg.emptyEmail key) = false /\
    Forall (fun k => truthy (Cases.Cfg.emptyEmail k) = true) before.
Proof.
  exact (proj1 (proj2 (loadConfig_required Cases.Cfg.emptyEmail))
               (missingKey "notificationEmail") eq_refl).
Defined.

(** A witness of [lookedUp_written]: with the default prefix the directory
    identifier is looked up under another name than it was written. *)
Lemma lookedUp_written_witness :
  SsmPaths.lookedUp "managed-ad" "dev" "directory-id" <>
  SsmPaths.written "dev" "directory-id".
Proof.
  exact (proj2 (SsmPathFacts.lookedUp_written "managed-ad" "dev" "directory-id")
               (Cases.Cfg.lookup Cases.Cfg.requiredEntries) _ eq_refl eq_refl).
Defined.

End Configuration.

Module Monitoring.
Import HealthCheck HealthCheckFacts.

(** A witness of [health_check_outcomes]: the describe call is refused,
    the gauge is set to 0 and the error raised again. *)
Lemma health_check_outcomes_witness :
  handler Cases.Health.remote (fun text => text) Cases.Health.arn Cases.Health.environ
          (start [Throw (Js.Err accessDenied); Ret Output.empty]) =
  (Throw (Js.Err accessDenied),
   {| world := [];
      trace := [Sent (DescribeAccountSubscription "123456789012");
                Sent (PutMetricData "managed-ad/QuickSight" "SubscriptionHealth" 0 "Count")] |}).
Proof.
  exact (proj2 (proj2 (health_check_outcomes Cases.Health.remote (fun text => text)
                         Cases.Health.arn Cases.Health.environ
                         (start [Throw (Js.Err accessDenied); Ret Output.empty])))
               "123456789012" "managed-ad/QuickSight" (Js.Err accessDenied)
               [Ret Output.empty] Output.empty [] eq_refl eq_refl eq_refl eq_refl).
Defined.

(** Two more runs of the health check: a subscription that is created is
    reported with the value 1, one that is not with the value 0. *)
Example health_check_created :
  handler Cases.Health.remote (fun text => text) Cases.Health.arn Cases.Health.environ
          (start [Ret (Cases.Health.withStatus "ACCOUNT_CREATED"); Ret Output.empty]) =
  (Ret {| statusCode := 200; body := "QuickSight status: ACCOUNT_CREATED" |},
   {| world := [];
      trace := [Sent (DescribeAccountSubscription "123456789012");
                Sent (PutMetricData "managed-ad/QuickSight" "SubscriptionHealth" 1 "Count")] |}).
Proof. reflexivity. Qed.

Example health_check_unsubscribed :
  handler Cases.Health.remote (fun text => text) Cases.Health.arn Cases.Health.environ
          (start [Ret (Cases.Health.withStatus "UNSUBSCRIBED"); Ret Output.empty]) =
  (Ret {| statusCode := 200; body := "QuickSight status: UNSUBSCRIBED" |},
   {| world := [];
      trace := [Sent (DescribeAccountSubscription "123456789012");
                Sent (PutMetricData "managed-ad/QuickSight" "SubscriptionHealth" 0 "Count")] |}).
Proof. reflexivity. Qed.

End Monitoring.

End FurtherRuns.
